(** * dalvik_system_Zygote.cc: the zygote's fork-and-specialize path

    A shallow embedding of [src/native/dalvik_system_Zygote.cc] (ART).
    Every native function of the file is a computation in a small
    state-and-halt monad over a [World]: the attributes of the running
    process that the code reads or writes, its table of children, the
    globals of the translation unit and the chronological trace of the
    calls it made.  What the operating system and the runtime answer is
    taken from an environment [Env], so every theorem quantifies over all
    possible answers. *)

From Stdlib Require Import String ZArith List Bool Lia.
Import ListNotations.
Open Scope Z_scope.

Module Zygote.

(** ** Build configuration

    The preprocessor symbols the file branches on, and the two constants
    it takes from system headers. *)
Record BuildConfig := {
  HAVE_ANDROID_OS : bool;   (* #if defined(HAVE_ANDROID_OS) *)
  is_linux : bool;          (* #if defined(__linux__) *)
  is_arm : bool;            (* #if defined(__arm__) *)
  has_WCOREDUMP : bool;     (* #ifdef WCOREDUMP *)
  rlim_bits : Z;            (* width of rlim_t *)
  PATH_BSHELL : string      (* _PATH_BSHELL of <paths.h> *)
}.

(** ** Machine integers *)

(** Conversion to an unsigned integer of [n] bits. *)
Definition to_unsigned (n x : Z) : Z := x mod 2 ^ n.

(** [uid_t], [gid_t], [uint32_t], and the [__u32] fields [effective],
    [permitted] and [inheritable] of [__user_cap_data_struct] in
    <linux/capability.h>. *)
Definition to_u32 (x : Z) : Z := to_unsigned 32 x.

Definition to_rlim_t (cfg : BuildConfig) (x : Z) : Z := to_unsigned (rlim_bits cfg) x.

Definition SIGKILL : Z := 9.
Definition RLIMIT_CORE : Z := 4.
Definition RLIM_INFINITY (cfg : BuildConfig) : Z := 2 ^ rlim_bits cfg - 1.
Definition ADDR_NO_RANDOMIZE : Z := 0x0040000.
Definition SP_DEFAULT : Z := -1.

(** Must match values in dalvik.system.Zygote. *)
Definition MOUNT_EXTERNAL_NONE : Z := 0.
Definition MOUNT_EXTERNAL_SINGLEUSER : Z := 1.
Definition MOUNT_EXTERNAL_MULTIUSER : Z := 2.

Definition DEBUG_ENABLE_DEBUGGER : Z := 1.
Definition DEBUG_ENABLE_CHECKJNI : Z := Z.shiftl 1 1.
Definition DEBUG_ENABLE_ASSERT : Z := Z.shiftl 1 2.
Definition DEBUG_ENABLE_SAFEMODE : Z := Z.shiftl 1 3.
Definition DEBUG_ENABLE_JNI_LOGGING : Z := Z.shiftl 1 4.

(** The wait-status macros of <sys/wait.h>, as bionic writes them. *)
Definition WTERMSIG (s : Z) : Z := Z.land s 0x7f.
Definition WEXITSTATUS (s : Z) : Z := Z.shiftr (Z.land s 0xff00) 8.
Definition WIFEXITED (s : Z) : bool := WTERMSIG s =? 0.
Definition WIFSIGNALED (s : Z) : bool := 2 <=? WTERMSIG (s + 1).
Definition WCOREDUMP (s : Z) : bool := negb (Z.land s 0x80 =? 0).

(** ** Calls, diagnostics and events *)

Inductive Disposition := SIG_DFL | Handler_SigChldHandler.

Inductive Call :=
| sys_sigaction_SIGCHLD (h : Disposition)
| sys_prctl_SET_KEEPCAPS
| sys_prctl_SET_DUMPABLE
| sys_setgroups (gids : list Z)
| sys_setrlimit (resource cur max : Z)
| sys_setgid (g : Z)
| sys_setuid (u : Z)
| sys_personality (persona : Z)
| sys_capset (permitted effective : Z)
| sys_set_sched_policy (tid policy : Z)
| sys_selinux_android_setcontext (uid : Z) (is_system_server : bool)
                                 (se_info se_name : option string)
| sys_execv (path : string) (argv : list string).

Inductive Severity := DEBUG | INFO | WARNING | ERROR | FATAL.

Inductive Msg :=
| MsgExec (argv : list string)
| MsgExitedCleanly (pid code : Z)
| MsgTerminatedBySignal (pid sig : Z)
| MsgDumpedCore (pid : Z)
| MsgExitZygote (pid : Z)
| MsgWaitpidError
| MsgSetSigChldError
| MsgUnsetSigChldError
| MsgSetgroupsFailed
| MsgRlimitsDimension
| MsgSetrlimitFailed (resource cur max : Z)
| MsgSetDumpableFailed (pid : Z)
| MsgSetrlimitCoreFailed (pid : Z)
| MsgKeepCapsFailed
| MsgCapsetFailed (permitted effective : Z)
| MsgSchedPolicyFailed
| MsgLateEnablingCheckJni
| MsgNotLateEnablingCheckJni
| MsgUnknownDebugBits (flags : Z)
| MsgUnimplemented
| MsgNotZygote
| MsgPreForkHeapFailed
| MsgSetgidFailed (g : Z)
| MsgSetuidFailed (u : Z)
| MsgPersonalityFailed (v : Z)
| MsgSetcontextFailed (uid : Z) (is_system_server : bool)
| MsgSystemServerCreated (pid : Z)
| MsgSystemServerDied (pid : Z).

(** Calls into the runtime that leave no other mark on the world. *)
Inductive RuntimeCall :=
| rt_SetCheckJniEnabled
| rt_third_party_jni_logging
| rt_SetJdwpAllowed (allowed : bool)
| rt_InitAfterFork
| rt_DidForkFromZygote.

Inductive Event :=
| EvCall (c : Call) (ok : bool)
| EvFork (ret : Z)
| EvWaitpid (arg result status : Z)
| EvKill (pid sig : Z)
| EvExit (code : Z)
| EvLog (sev : Severity) (m : Msg)
| EvRuntime (r : RuntimeCall)
| EvRegister (pid : Z).

(** ** The world of one process *)

Record World := mkWorld {
  w_pid : Z;                       (* getpid() *)
  w_uid : Z;
  w_gid : Z;
  w_keepcaps : bool;               (* PR_SET_KEEPCAPS *)
  w_cap_permitted : Z;
  w_cap_effective : Z;
  w_rlimits : list (Z * (Z * Z));  (* limits set so far, latest first *)
  w_sigchld : Disposition;
  w_zombies : list (Z * Z);        (* terminated, unreaped children: (pid, status) *)
  w_live : list Z;                 (* running children *)
  gSystemServerPid : Z;            (* static pid_t gSystemServerPid = 0; *)
  gMallocLeakZygoteChild : Z;
  rt_IsZygote : bool;              (* Runtime::IsZygote() *)
  rt_check_jni : bool;             (* JavaVMExt::check_jni *)
  trace : list Event               (* oldest first *)
}.

Definition with_trace (w : World) (t : list Event) : World :=
  mkWorld (w_pid w) (w_uid w) (w_gid w) (w_keepcaps w) (w_cap_permitted w)
    (w_cap_effective w) (w_rlimits w) (w_sigchld w) (w_zombies w) (w_live w)
    (gSystemServerPid w) (gMallocLeakZygoteChild w) (rt_IsZygote w)
    (rt_check_jni w) t.

Definition with_identity (w : World) (uid gid : Z) : World :=
  mkWorld (w_pid w) uid gid (w_keepcaps w) (w_cap_permitted w)
    (w_cap_effective w) (w_rlimits w) (w_sigchld w) (w_zombies w) (w_live w)
    (gSystemServerPid w) (gMallocLeakZygoteChild w) (rt_IsZygote w)
    (rt_check_jni w) (trace w).

Definition with_caps (w : World) (keep : bool) (permitted effective : Z) : World :=
  mkWorld (w_pid w) (w_uid w) (w_gid w) keep permitted effective
    (w_rlimits w) (w_sigchld w) (w_zombies w) (w_live w)
    (gSystemServerPid w) (gMallocLeakZygoteChild w) (rt_IsZygote w)
    (rt_check_jni w) (trace w).

Definition with_rlimits (w : World) (l : list (Z * (Z * Z))) : World :=
  mkWorld (w_pid w) (w_uid w) (w_gid w) (w_keepcaps w) (w_cap_permitted w)
    (w_cap_effective w) l (w_sigchld w) (w_zombies w) (w_live w)
    (gSystemServerPid w) (gMallocLeakZygoteChild w) (rt_IsZygote w)
    (rt_check_jni w) (trace w).

Definition with_sigchld (w : World) (d : Disposition) : World :=
  mkWorld (w_pid w) (w_uid w) (w_gid w) (w_keepcaps w) (w_cap_permitted w)
    (w_cap_effective w) (w_rlimits w) d (w_zombies w) (w_live w)
    (gSystemServerPid w) (gMallocLeakZygoteChild w) (rt_IsZygote w)
    (rt_check_jni w) (trace w).

Definition with_children (w : World) (pid : Z) (zombies : list (Z * Z))
    (live : list Z) : World :=
  mkWorld pid (w_uid w) (w_gid w) (w_keepcaps w) (w_cap_permitted w)
    (w_cap_effective w) (w_rlimits w) (w_sigchld w) zombies live
    (gSystemServerPid w) (gMallocLeakZygoteChild w) (rt_IsZygote w)
    (rt_check_jni w) (trace w).

Definition with_gSystemServerPid (w : World) (p : Z) : World :=
  mkWorld (w_pid w) (w_uid w) (w_gid w) (w_keepcaps w) (w_cap_permitted w)
    (w_cap_effective w) (w_rlimits w) (w_sigchld w) (w_zombies w) (w_live w)
    p (gMallocLeakZygoteChild w) (rt_IsZygote w) (rt_check_jni w) (trace w).

Definition with_gMallocLeakZygoteChild (w : World) (v : Z) : World :=
  mkWorld (w_pid w) (w_uid w) (w_gid w) (w_keepcaps w) (w_cap_permitted w)
    (w_cap_effective w) (w_rlimits w) (w_sigchld w) (w_zombies w) (w_live w)
    (gSystemServerPid w) v (rt_IsZygote w) (rt_check_jni w) (trace w).

Definition with_check_jni (w : World) (b : bool) : World :=
  mkWorld (w_pid w) (w_uid w) (w_gid w) (w_keepcaps w) (w_cap_permitted w)
    (w_cap_effective w) (w_rlimits w) (w_sigchld w) (w_zombies w) (w_live w)
    (gSystemServerPid w) (gMallocLeakZygoteChild w) (rt_IsZygote w) b (trace w).

(** ** The environment *)

(** What fork() does for the process being followed: it fails, or this
    process is the new child, or it is the parent and learns the child's
    pid; [early] is the wait status of a child that has already terminated
    by the time the parent runs again. *)
Inductive ForkOutcome :=
| ForkFailed
| InChild (child_pid : positive)
| InParent (child_pid : positive) (early : option Z).

(** The answers of the kernel and of the runtime.  Each may depend on the
    whole world, trace included, so nothing is assumed about when a call
    succeeds. *)
Record Env := {
  env_ok : World -> Call -> bool;             (* does this call succeed *)
  env_fork : World -> ForkOutcome;
  env_PreZygoteFork : World -> bool;          (* Runtime::PreZygoteFork() *)
  env_kernel_release : World -> option (Z * Z);
      (* uname() succeeded and sscanf read "%d.%d" from the release *)
  env_personality : World -> Z                (* personality(0xffffffff) *)
}.

(** ** The monad *)

Inductive Stop :=
| Aborted                (* LOG(FATAL), CHECK *)
| Killed                 (* SIGKILL *)
| Exited (code : Z)      (* exit() *)
| ImageReplaced          (* a successful execv *)
| OutOfFuel.

Inductive Result (A : Type) :=
| Ok (a : A) (w : World)
| Halt (s : Stop) (w : World).
Arguments Ok {A} a w.
Arguments Halt {A} s w.

Definition M (A : Type) : Type := World -> Result A.

Definition ret {A} (a : A) : M A := fun w => Ok a w.

Definition bind {A B} (m : M A) (k : A -> M B) : M B :=
  fun w => match m w with
           | Ok a w' => k a w'
           | Halt s w' => Halt s w'
           end.

Definition halt {A} (s : Stop) : M A := fun w => Halt s w.

Declare Scope zyg_scope.
Delimit Scope zyg_scope with zyg.
Notation "x <- m ;; k" := (bind m (fun x => k))
  (at level 61, m at next level, right associativity) : zyg_scope.
Notation "m ;; k" := (bind m (fun _ => k))
  (at level 61, right associativity) : zyg_scope.
Open Scope zyg_scope.

Definition get {A} (f : World -> A) : M A := fun w => Ok (f w) w.
Definition modify (f : World -> World) : M unit := fun w => Ok tt (f w).
Definition when (b : bool) (m : M unit) : M unit := if b then m else ret tt.

Definition final_world {A} (r : Result A) : World :=
  match r with Ok _ w => w | Halt _ w => w end.

(** ** Primitives *)

Section Program.

Variable cfg : BuildConfig.
Variable E : Env.

Definition emit (e : Event) : M unit :=
  modify (fun w => with_trace w (trace w ++ [e])).

(** Modelled from the spec: the macros LOG, PLOG, CHECK and UNIMPLEMENTED
    come from the logging header of the runtime, which is not part of the
    file.  A line of any severity is written to the log; at severity
    FATAL "fatal conditions terminate the offending process with a
    diagnostic". *)
Definition LOG (sev : Severity) (m : Msg) : M unit :=
  emit (EvLog sev m) ;;
  match sev with
  | FATAL => halt Aborted
  | _ => ret tt
  end.

(** What a successful call changes in the attributes of the process.
    [sys_setuid] follows capabilities(7): leaving uid 0 clears the
    effective set, and the permitted set too unless PR_SET_KEEPCAPS is
    on. *)
Definition kernel_effect (c : Call) (w : World) : World :=
  match c with
  | sys_sigaction_SIGCHLD h => with_sigchld w h
  | sys_prctl_SET_KEEPCAPS =>
      with_caps w true (w_cap_permitted w) (w_cap_effective w)
  | sys_setrlimit r cur max => with_rlimits w ((r, (cur, max)) :: w_rlimits w)
  | sys_setgid g => with_identity w (w_uid w) g
  | sys_setuid u =>
      let w' := with_identity w u (w_gid w) in
      if (w_uid w =? 0) && negb (u =? 0) then
        if w_keepcaps w then with_caps w' true (w_cap_permitted w) 0
        else with_caps w' false 0 0
      else w'
  | sys_capset p e => with_caps w (w_keepcaps w) p e
  | _ => w
  end.

Definition syscall (c : Call) : M bool := fun w =>
  let ok := env_ok E w c in
  let w1 := if ok then kernel_effect c w else w in
  Ok ok (with_trace w1 (trace w1 ++ [EvCall c ok])).

(** The return code of a call that answers 0 or -1. *)
Definition rc_of (ok : bool) : Z := if ok then 0 else -1.

Definition sigaction_SIGCHLD (h : Disposition) : M Z :=
  ok <- syscall (sys_sigaction_SIGCHLD h) ;; ret (rc_of ok).
Definition prctl_SET_KEEPCAPS : M Z :=
  ok <- syscall sys_prctl_SET_KEEPCAPS ;; ret (rc_of ok).
Definition prctl_SET_DUMPABLE : M Z :=
  ok <- syscall sys_prctl_SET_DUMPABLE ;; ret (rc_of ok).
Definition setgroups (gids : list Z) : M Z :=
  ok <- syscall (sys_setgroups gids) ;; ret (rc_of ok).
Definition setrlimit (resource cur max : Z) : M Z :=
  ok <- syscall (sys_setrlimit resource cur max) ;; ret (rc_of ok).
Definition setgid (g : Z) : M Z :=
  ok <- syscall (sys_setgid g) ;; ret (rc_of ok).
Definition setuid (u : Z) : M Z :=
  ok <- syscall (sys_setuid u) ;; ret (rc_of ok).
Definition capset (permitted effective : Z) : M Z :=
  ok <- syscall (sys_capset permitted effective) ;; ret (rc_of ok).
Definition set_sched_policy (tid policy : Z) : M Z :=
  ok <- syscall (sys_set_sched_policy tid policy) ;; ret (rc_of ok).
Definition selinux_android_setcontext (uid : Z) (is_system_server : bool)
    (se_info se_name : option string) : M Z :=
  ok <- syscall (sys_selinux_android_setcontext uid is_system_server se_info se_name) ;;
  ret (rc_of ok).

(** personality(2) answers the previous persona, or -1. *)
Definition personality (persona : Z) : M Z :=
  old <- get (env_personality E) ;;
  ok <- syscall (sys_personality persona) ;;
  ret (if ok then old else -1).

(** execv(2) comes back only when it failed. *)
Definition execv (path : string) (argv : list string) : M Z :=
  ok <- syscall (sys_execv path argv) ;;
  if ok then halt ImageReplaced else ret (-1).

Definition exit {A} (code : Z) : M A :=
  emit (EvExit code) ;; halt (Exited code).

Definition getpid : M Z := get w_pid.

(** kill(2); SIGKILL sent to the caller itself ends it before the call
    comes back. *)
Definition kill (pid sig : Z) : M Z :=
  self <- getpid ;;
  emit (EvKill pid sig) ;;
  if (pid =? self) && (sig =? SIGKILL) then halt Killed else ret 0.

Definition fork : M Z := fun w =>
  match env_fork E w with
  | ForkFailed => Ok (-1) (with_trace w (trace w ++ [EvFork (-1)]))
  | InChild p =>
      Ok 0 (with_trace (with_children w (Zpos p) [] []) (trace w ++ [EvFork 0]))
  | InParent p early =>
      let w1 := match early with
                | Some st => with_children w (w_pid w) (w_zombies w ++ [(Zpos p, st)]) (w_live w)
                | None => with_children w (w_pid w) (w_zombies w) (Zpos p :: w_live w)
                end in
      Ok (Zpos p) (with_trace w1 (trace w ++ [EvFork (Zpos p)]))
  end.

Fixpoint remove_child (pid : Z) (zs : list (Z * Z)) : list (Z * Z) :=
  match zs with
  | [] => []
  | z :: rest => if fst z =? pid then rest else z :: remove_child pid rest
  end.

(** waitpid(pid, &status, WNOHANG): the pid of a reaped child and its
    status, 0 when a matching child exists but none has terminated, -1
    when there is no matching child. *)
Definition waitpid_WNOHANG (pid : Z) : M (Z * Z) := fun w =>
  let none_ready (waiting : bool) := ((if waiting then 0 else -1), 0, w_zombies w) in
  let '(r, status, zs) :=
    if pid =? -1 then
      match w_zombies w with
      | (p, s) :: rest => (p, s, rest)
      | [] => none_ready (negb (length (w_live w) =? 0)%nat)
      end
    else
      match find (fun z => fst z =? pid) (w_zombies w) with
      | Some (p, s) => (p, s, remove_child pid (w_zombies w))
      | None => none_ready (existsb (Z.eqb pid) (w_live w))
      end in
  let w1 := with_children w (w_pid w) zs (w_live w) in
  Ok (r, status) (with_trace w1 (trace w ++ [EvWaitpid pid r status])).

(** gSystemServerPid = pid.  This is the one variable the signal handler
    reads, at whatever moment SIGCHLD arrives; the store is recorded in the
    trace, so that its place among the calls of a run can be stated. *)
Definition set_gSystemServerPid (pid : Z) : M unit :=
  modify (fun w => with_gSystemServerPid w pid) ;;
  emit (EvRegister pid).

(** ** The functions of the file *)

(** static void Zygote_nativeExecShell(JNIEnv*, jclass, jstring) *)
Definition Zygote_nativeExecShell (javaCommand : option string) : M unit :=
  match javaCommand with
  | None => ret tt
  | Some command =>
      let argp := [PATH_BSHELL cfg; "-c"%string; command] in
      LOG INFO (MsgExec argp) ;;
      execv (PATH_BSHELL cfg) argp ;;
      exit 127
  end.

(** The body of the while loop of SigChldHandler. *)
Definition SigChldHandler_body (pid status : Z) : M unit :=
  (if WIFEXITED status then
     if negb (WEXITSTATUS status =? 0)
     then LOG INFO (MsgExitedCleanly pid (WEXITSTATUS status))
     else ret tt
   else if WIFSIGNALED status then
     (if negb (WTERMSIG status =? SIGKILL)
      then LOG INFO (MsgTerminatedBySignal pid (WTERMSIG status))
      else ret tt) ;;
     when (has_WCOREDUMP cfg && WCOREDUMP status) (LOG INFO (MsgDumpedCore pid))
   else ret tt) ;;
  server <- get gSystemServerPid ;;
  if pid =? server then
    LOG ERROR (MsgExitZygote pid) ;;
    self <- getpid ;;
    kill self SIGKILL ;;
    ret tt
  else ret tt.

(** while ((pid = waitpid(-1, &status, WNOHANG)) > 0) { ... }; the value
    is the pid that ended the loop. *)
Fixpoint SigChldHandler_loop (fuel : nat) : M Z :=
  match fuel with
  | O => halt OutOfFuel
  | S fuel' =>
      r <- waitpid_WNOHANG (-1) ;;
      let '(pid, status) := r in
      if 0 <? pid then
        SigChldHandler_body pid status ;;
        SigChldHandler_loop fuel'
      else ret pid
  end.

(** static void SigChldHandler(int); every turn of the loop reaps one
    child, so one more than the number of unreaped children is fuel
    enough. *)
Definition SigChldHandler : M unit :=
  n <- get (fun w => length (w_zombies w)) ;;
  pid <- SigChldHandler_loop (S n) ;;
  if pid <? 0 then LOG WARNING MsgWaitpidError else ret tt.

Definition SetSigChldHandler : M unit :=
  err <- sigaction_SIGCHLD Handler_SigChldHandler ;;
  if err <? 0 then LOG WARNING MsgSetSigChldError else ret tt.

Definition UnsetSigChldHandler : M unit :=
  err <- sigaction_SIGCHLD SIG_DFL ;;
  if err <? 0 then LOG WARNING MsgUnsetSigChldError else ret tt.

(** static void SetGids(JNIEnv*, jintArray) *)
Definition SetGids (javaGids : option (list Z)) : M unit :=
  match javaGids with
  | None => ret tt
  | Some gids =>
      rc <- setgroups (map to_u32 gids) ;;
      if rc =? -1 then LOG FATAL MsgSetgroupsFailed else ret tt
  end.

(** The for loop of SetRLimits over the rows of the array. *)
Fixpoint SetRLimits_loop (rows : list (list Z)) : M unit :=
  match rows with
  | [] => ret tt
  | javaRlimit :: rest =>
      (if negb (length javaRlimit =? 3)%nat
       then LOG FATAL MsgRlimitsDimension else ret tt) ;;
      let rlim_cur := to_rlim_t cfg (nth 1 javaRlimit 0) in
      let rlim_max := to_rlim_t cfg (nth 2 javaRlimit 0) in
      rc <- setrlimit (nth 0 javaRlimit 0) rlim_cur rlim_max ;;
      (if rc =? -1
       then LOG FATAL (MsgSetrlimitFailed (nth 0 javaRlimit 0) rlim_cur rlim_max)
       else ret tt) ;;
      SetRLimits_loop rest
  end.

(** static void SetRLimits(JNIEnv*, jobjectArray) *)
Definition SetRLimits (javaRlimits : option (list (list Z))) : M unit :=
  match javaRlimits with
  | None => ret tt
  | Some rows => SetRLimits_loop rows
  end.

Definition EnableDebugger : M unit :=
  if HAVE_ANDROID_OS cfg then
    rc <- prctl_SET_DUMPABLE ;;
    (if rc =? -1
     then self <- getpid ;; LOG ERROR (MsgSetDumpableFailed self) else ret tt) ;;
    rc <- setrlimit RLIMIT_CORE 0 (RLIM_INFINITY cfg) ;;
    (if rc =? -1
     then self <- getpid ;; LOG ERROR (MsgSetrlimitCoreFailed self) else ret tt)
  else ret tt.

Definition EnableKeepCapabilities : M unit :=
  if HAVE_ANDROID_OS cfg then
    rc <- prctl_SET_KEEPCAPS ;;
    if rc =? -1 then LOG FATAL MsgKeepCapsFailed else ret tt
  else ret tt.

(** static void SetCapabilities(int64_t permitted, int64_t effective);
    [capdata.effective] and [capdata.permitted] are __u32. *)
Definition SetCapabilities (permitted effective : Z) : M unit :=
  if HAVE_ANDROID_OS cfg then
    let capdata_effective := to_u32 effective in
    let capdata_permitted := to_u32 permitted in
    rc <- capset capdata_permitted capdata_effective ;;
    if negb (rc =? 0) then LOG FATAL (MsgCapsetFailed permitted effective) else ret tt
  else ret tt.

Definition SetSchedulerPolicy : M unit :=
  if HAVE_ANDROID_OS cfg then
    r <- set_sched_policy 0 SP_DEFAULT ;;
    let errno := - r in
    if negb (errno =? 0) then LOG FATAL MsgSchedPolicyFailed else ret tt
  else ret tt.

(** static void EnableDebugFeatures(uint32_t debug_flags) *)
Definition EnableDebugFeatures (debug_flags : Z) : M unit :=
  debug_flags <-
    (if negb (Z.land debug_flags DEBUG_ENABLE_CHECKJNI =? 0) then
       check_jni <- get rt_check_jni ;;
       (if negb check_jni then
          LOG DEBUG MsgLateEnablingCheckJni ;;
          modify (fun w => with_check_jni w true) ;;
          emit (EvRuntime rt_SetCheckJniEnabled)
        else LOG DEBUG MsgNotLateEnablingCheckJni) ;;
       ret (Z.ldiff debug_flags DEBUG_ENABLE_CHECKJNI)
     else ret debug_flags) ;;
  debug_flags <-
    (if negb (Z.land debug_flags DEBUG_ENABLE_JNI_LOGGING =? 0) then
       emit (EvRuntime rt_third_party_jni_logging) ;;
       ret (Z.ldiff debug_flags DEBUG_ENABLE_JNI_LOGGING)
     else ret debug_flags) ;;
  emit (EvRuntime (rt_SetJdwpAllowed (negb (Z.land debug_flags DEBUG_ENABLE_DEBUGGER =? 0)))) ;;
  when (negb (Z.land debug_flags DEBUG_ENABLE_DEBUGGER =? 0)) EnableDebugger ;;
  let debug_flags := Z.ldiff debug_flags DEBUG_ENABLE_DEBUGGER in
  let debug_flags := Z.ldiff debug_flags DEBUG_ENABLE_ASSERT in
  let debug_flags := Z.ldiff debug_flags DEBUG_ENABLE_SAFEMODE in
  if negb (debug_flags =? 0) then LOG ERROR (MsgUnknownDebugBits debug_flags) else ret tt.

(** static void MountExternalStorage(uid_t uid, jint mount_external); the
    mounting code is under #if 0. *)
Definition MountExternalStorage (uid mount_external : Z) : M unit :=
  if mount_external =? MOUNT_EXTERNAL_NONE then ret tt
  else LOG FATAL MsgUnimplemented.

Definition NeedsNoRandomizeWorkaround : M bool :=
  if negb (is_arm cfg) then ret false
  else
    release <- get (env_kernel_release E) ;;
    match release with
    | None => ret false
    | Some (major, minor) => ret ((major <? 3) || ((major =? 3) && (minor <? 4)))
    end.

(** static pid_t ForkAndSpecializeCommon(...) *)
Definition ForkAndSpecializeCommon (uid gid : Z) (javaGids : option (list Z))
    (debug_flags : Z) (javaRlimits : option (list (list Z)))
    (permittedCapabilities effectiveCapabilities : Z) (mount_external : Z)
    (java_se_info java_se_name : option string) (is_system_server : bool) : M Z :=
  is_zygote <- get rt_IsZygote ;;
  (if negb is_zygote then LOG FATAL MsgNotZygote else ret tt) ;;
  quiesced <- get (env_PreZygoteFork E) ;;
  (if negb quiesced then LOG FATAL MsgPreForkHeapFailed else ret tt) ;;
  SetSigChldHandler ;;
  pid <- fork ;;
  (if pid =? 0 then
     modify (fun w => with_gMallocLeakZygoteChild w 1) ;;
     when (negb (uid =? 0)) EnableKeepCapabilities ;;
     MountExternalStorage uid mount_external ;;
     SetGids javaGids ;;
     SetRLimits javaRlimits ;;
     rc <- setgid gid ;;
     (if rc =? -1 then LOG FATAL (MsgSetgidFailed gid) else ret tt) ;;
     rc <- setuid uid ;;
     (if rc =? -1 then LOG FATAL (MsgSetuidFailed uid) else ret tt) ;;
     when (is_linux cfg)
       (needed <- NeedsNoRandomizeWorkaround ;;
        if needed then
          old_personality <- personality 0xffffffff ;;
          new_personality <- personality (Z.lor old_personality ADDR_NO_RANDOMIZE) ;;
          if new_personality =? -1
          then LOG WARNING (MsgPersonalityFailed new_personality) else ret tt
        else ret tt) ;;
     SetCapabilities permittedCapabilities effectiveCapabilities ;;
     SetSchedulerPolicy ;;
     when (HAVE_ANDROID_OS cfg)
       (rc <- selinux_android_setcontext uid is_system_server java_se_info java_se_name ;;
        if rc =? -1 then LOG FATAL (MsgSetcontextFailed uid is_system_server) else ret tt) ;;
     emit (EvRuntime rt_InitAfterFork) ;;
     EnableDebugFeatures (to_u32 debug_flags) ;;
     UnsetSigChldHandler ;;
     emit (EvRuntime rt_DidForkFromZygote)
   else ret tt) ;;
  ret pid.

(** static jint Zygote_nativeForkAndSpecialize(...) *)
Definition Zygote_nativeForkAndSpecialize (uid gid : Z) (gids : option (list Z))
    (debug_flags : Z) (rlimits : option (list (list Z))) (mount_external : Z)
    (se_info se_name : option string) : M Z :=
  ForkAndSpecializeCommon (to_u32 uid) (to_u32 gid) gids debug_flags rlimits
    0 0 mount_external se_info se_name false.

(** static jint Zygote_nativeForkSystemServer(...) *)
Definition Zygote_nativeForkSystemServer (uid gid : Z) (gids : option (list Z))
    (debug_flags : Z) (rlimits : option (list (list Z)))
    (permittedCapabilities effectiveCapabilities : Z) : M Z :=
  pid <- ForkAndSpecializeCommon uid gid gids debug_flags rlimits
           permittedCapabilities effectiveCapabilities
           MOUNT_EXTERNAL_NONE None None true ;;
  (if 0 <? pid then
     LOG INFO (MsgSystemServerCreated pid) ;;
     set_gSystemServerPid pid ;;
     r <- waitpid_WNOHANG pid ;;
     if fst r =? pid then LOG FATAL (MsgSystemServerDied pid) else ret tt
   else ret tt) ;;
  ret pid.

End Program.

(** ** Traces *)

(** The events a run of [m] from [w] appended to the trace. *)
Definition run_trace {A} (m : M A) (w : World) : list Event :=
  skipn (length (trace w)) (trace (final_world (m w))).

Definition is_setgid (e : Event) : bool :=
  match e with EvCall (sys_setgid _) _ => true | _ => false end.
Definition is_setuid (e : Event) : bool :=
  match e with EvCall (sys_setuid _) _ => true | _ => false end.
Definition is_capset (e : Event) : bool :=
  match e with EvCall (sys_capset _ _) _ => true | _ => false end.
Definition is_setrlimit (e : Event) : bool :=
  match e with EvCall (sys_setrlimit _ _ _) _ => true | _ => false end.
Definition is_kill (e : Event) : bool :=
  match e with EvKill _ _ => true | _ => false end.
Definition is_process_event (e : Event) : bool :=
  match e with
  | EvFork _ | EvWaitpid _ _ _ | EvKill _ _ | EvExit _ => true
  | _ => false
  end.

(** Events that touch neither the identity, nor the capability sets, nor
    the children of the process; [quiet_ev] excludes setrlimit as well. *)
Definition late_ev (e : Event) : bool :=
  negb (is_setgid e || is_setuid e || is_capset e || is_process_event e).
Definition quiet_ev (e : Event) : bool :=
  late_ev e && negb (is_setrlimit e).

(** The pids that successive waitpid calls handed back. *)
Fixpoint reaped_pids (t : list Event) : list Z :=
  match t with
  | [] => []
  | EvWaitpid _ r _ :: rest =>
      if 0 <? r then r :: reaped_pids rest else reaped_pids rest
  | _ :: rest => reaped_pids rest
  end.

(** The attributes a step leaves alone when it only logs, arms signals,
    sets limits or talks to the runtime. *)
Definition keeps (w w' : World) : Prop :=
  w_pid w' = w_pid w /\ w_uid w' = w_uid w /\ w_gid w' = w_gid w /\
  w_cap_permitted w' = w_cap_permitted w /\
  w_cap_effective w' = w_cap_effective w /\
  gSystemServerPid w' = gSystemServerPid w /\
  w_zombies w' = w_zombies w /\ w_live w' = w_live w /\
  rt_IsZygote w' = rt_IsZygote w.

(** [calm P m]: [m] only appends events satisfying [P], leaves the
    attributes of [keeps] alone, and can stop only by aborting. *)
Definition calm {A} (P : Event -> bool) (m : M A) : Prop :=
  forall w,
    keeps w (final_world (m w)) /\
    (exists t, trace (final_world (m w)) = trace w ++ t /\ Forall (fun e => P e = true) t) /\
    (forall s w', m w = Halt s w' -> s = Aborted).

(** Concrete configurations, environments and worlds used in examples. *)
Definition android : BuildConfig :=
  {| HAVE_ANDROID_OS := true; is_linux := true; is_arm := true;
     has_WCOREDUMP := true; rlim_bits := 32; PATH_BSHELL := "/system/bin/sh" |}.

Definition host : BuildConfig :=
  {| HAVE_ANDROID_OS := false; is_linux := true; is_arm := false;
     has_WCOREDUMP := true; rlim_bits := 64; PATH_BSHELL := "/bin/sh" |}.

(** A zygote: root, every capability of the first 32 raised, no child. *)
Definition zygote0 : World :=
  mkWorld 100 0 0 false (2 ^ 32 - 1) (2 ^ 32 - 1) [] SIG_DFL [] [] 0 0 true false [].

(** Every call succeeds, except those [refuse] names. *)
Definition env_of (refuse : Call -> bool) (quiesced : bool) (f : ForkOutcome) : Env :=
  {| env_ok := fun _ c => negb (refuse c);
     env_fork := fun _ => f;
     env_PreZygoteFork := fun _ => quiesced;
     env_kernel_release := fun _ => Some (3, 0);
     env_personality := fun _ => 0 |}.

Definition env_all (f : ForkOutcome) : Env := env_of (fun _ => false) true f.

Definition refuse_setrlimit (c : Call) : bool :=
  match c with sys_setrlimit _ _ _ => true | _ => false end.

Definition refuse_execv (c : Call) : bool :=
  match c with sys_execv _ _ => true | _ => false end.

Definition refuse_setuid (c : Call) : bool :=
  match c with sys_setuid _ => true | _ => false end.

(** The zygote once system_server runs as pid 8, with three terminated
    children, system_server the second of them, and one running child. *)
Definition reaping_zygote : World :=
  mkWorld 100 0 0 false (2 ^ 32 - 1) (2 ^ 32 - 1) [] Handler_SigChldHandler
    [(5, 0); (8, 9); (9, 139)] [11] 8 0 true false [].

(** The same zygote before any system_server was registered. *)
Definition idle_zygote : World :=
  mkWorld 100 0 0 false (2 ^ 32 - 1) (2 ^ 32 - 1) [] Handler_SigChldHandler
    [(5, 0); (7, 768); (9, 139)] [11] 0 0 true false [].

(** An application spawn: uid and gid 10001, two supplementary groups,
    the debugger flag, one resource limit. *)
Definition spawn_app (cfg : BuildConfig) (E : Env) : M Z :=
  Zygote_nativeForkAndSpecialize cfg E 10001 10001 (Some [3003; 1015]) 1
    (Some [[7; 1024; 4096]]) MOUNT_EXTERNAL_NONE None None.

(** The spawn of system_server, uid and gid 1000, with the given
    capability bitmask as permitted and effective set. *)
Definition spawn_server (cfg : BuildConfig) (E : Env) (caps : Z) : M Z :=
  Zygote_nativeForkSystemServer cfg E 1000 1000 None 0 None caps caps.

(** ** Classes of events and of steps *)

Definition is_failed_setrlimit (e : Event) : bool :=
  match e with EvCall (sys_setrlimit _ _ _) false => true | _ => false end.

Definition is_log (e : Event) : bool :=
  match e with EvLog _ _ => true | _ => false end.

(** [logs_only m]: [m] writes log lines and does nothing else. *)
Definition logs_only (m : M unit) : Prop :=
  forall w, exists logs,
    m w = Ok tt (with_trace w (trace w ++ logs)) /\
    Forall (fun e => is_log e = true) logs.

(** Calls whose effect stays within [keeps]. *)
Definition harmless (c : Call) : bool :=
  match c with
  | sys_setgid _ | sys_setuid _ | sys_capset _ _ => false
  | _ => true
  end.

(** A terminated child with a valid pid that is not the registered one. *)
Definition other_child (server : Z) (z : Z * Z) : Prop :=
  0 < fst z /\ fst z <> server.

(** The calls that change what the process may do: groups, limits,
    identity, capabilities, scheduler class and security context. *)
Definition is_privilege_call (e : Event) : bool :=
  match e with
  | EvCall (sys_setgroups _) _ | EvCall (sys_setrlimit _ _ _) _
  | EvCall (sys_setgid _) _ | EvCall (sys_setuid _) _
  | EvCall (sys_capset _ _) _ | EvCall (sys_set_sched_policy _ _) _
  | EvCall (sys_selinux_android_setcontext _ _ _ _) _ => true
  | _ => false
  end.

Definition no_privilege_call (e : Event) : bool :=
  negb (is_privilege_call e || is_process_event e).

(** A setgid, setuid or capset call that the kernel refused. *)
Definition is_refused_identity_call (e : Event) : bool :=
  match e with
  | EvCall (sys_setgid _) false | EvCall (sys_setuid _) false
  | EvCall (sys_capset _ _) false => true
  | _ => false
  end.

(** Everything that makes up the privileges of a process, and the
    globals of the file. *)
Definition same_privileges (w w' : World) : Prop :=
  w_pid w' = w_pid w /\ w_uid w' = w_uid w /\ w_gid w' = w_gid w /\
  w_keepcaps w' = w_keepcaps w /\
  w_cap_permitted w' = w_cap_permitted w /\
  w_cap_effective w' = w_cap_effective w /\
  w_rlimits w' = w_rlimits w /\
  gSystemServerPid w' = gSystemServerPid w /\
  gMallocLeakZygoteChild w' = gMallocLeakZygoteChild w /\
  rt_check_jni w' = rt_check_jni w.

(** The wait status of a child that called exit(code), and of one that
    a signal terminated, with or without a core dump. *)
Definition status_exited (code : Z) : Z := Z.shiftl code 8.
Definition status_signaled (sig : Z) (core : bool) : Z :=
  sig + (if core then 0x80 else 0).

(** The line EnableDebugFeatures writes about debug flags it does not
    know. *)
Definition is_unknown_bits_log (e : Event) : bool :=
  match e with EvLog ERROR (MsgUnknownDebugBits _) => true | _ => false end.

(** [calls bad e]: [e] is a call of the class [bad]. *)
Definition calls (bad : Call -> bool) (e : Event) : bool :=
  match e with EvCall c _ => bad c | _ => false end.

(** [avoids bad m]: no run of [m] makes a call of the class [bad]. *)
Definition avoids {A} (bad : Call -> bool) (m : M A) : Prop :=
  forall w, exists t,
    trace (final_world (m w)) = trace w ++ t /\
    Forall (fun e => calls bad e = false) t.

Definition is_keepcaps (c : Call) : bool :=
  match c with sys_prctl_SET_KEEPCAPS => true | _ => false end.

Definition is_setgroups (c : Call) : bool :=
  match c with sys_setgroups _ => true | _ => false end.

(** The calls made only where HAVE_ANDROID_OS is defined. *)
Definition android_only (c : Call) : bool :=
  match c with
  | sys_prctl_SET_KEEPCAPS | sys_prctl_SET_DUMPABLE | sys_capset _ _
  | sys_set_sched_policy _ _ | sys_selinux_android_setcontext _ _ _ _ => true
  | _ => false
  end.

(** [leaves f m]: no run of [m] changes the attribute [f]. *)
Definition leaves {A B} (f : World -> B) (m : M A) : Prop :=
  forall w, f (final_world (m w)) = f w.

(** What a process knows about itself and its children. *)
Definition process_marks (w : World) : Z * list (Z * Z) * list Z * Z * Z :=
  (w_pid w, w_zombies w, w_live w, gSystemServerPid w, gMallocLeakZygoteChild w).

(** [ran m t]: [t] is what a run of [m] that returned appended to the
    trace. *)
Definition ran {A} (m : M A) (t : list Event) : Prop :=
  exists w0 a w1, m w0 = Ok a w1 /\ trace w1 = trace w0 ++ t.

(** ** The runs of ForkAndSpecializeCommon, by the place where they end *)

Section RunShapes.

Variable cfg : BuildConfig.
Variable E : Env.
Variables uid gid : Z.
Variable javaGids : option (list Z).
Variable debug_flags : Z.
Variable javaRlimits : option (list (list Z)).
Variables permittedCapabilities effectiveCapabilities : Z.
Variable mount_external : Z.
Variables java_se_info java_se_name : option string.
Variable is_system_server : bool.

(** The rows of the limits array; NULL is treated as an empty array. *)
Definition rows_of (a : option (list (list Z))) : list (list Z) :=
  match a with None => [] | Some rows => rows end.

(** The setrlimit call the loop makes for one row, and its outcome. *)
Definition applied (ok : bool) (row : list Z) : Event :=
  EvCall (sys_setrlimit (nth 0 row 0) (to_rlim_t cfg (nth 1 row 0))
                        (to_rlim_t cfg (nth 2 row 0))) ok.

(** What the loop leaves in the trace at the row that stops it. *)
Definition rlimit_failure (bad : list Z) : list Event :=
  if (length bad =? 3)%nat
  then [applied false bad;
        EvLog FATAL (MsgSetrlimitFailed (nth 0 bad 0) (to_rlim_t cfg (nth 1 bad 0))
                                        (to_rlim_t cfg (nth 2 bad 0)))]
  else [EvLog FATAL MsgRlimitsDimension].

Definition well_formed_row (row : list Z) : Prop := length row = 3%nat.

Definition identity_events : list Event :=
  [EvCall (sys_setgid gid) true; EvCall (sys_setuid uid) true].

Definition caps_events (ok : bool) : list Event :=
  if HAVE_ANDROID_OS cfg
  then [EvCall (sys_capset (to_u32 permittedCapabilities)
                           (to_u32 effectiveCapabilities)) ok]
  else [].

(** The runs of the child branch, by the place where they end. *)
Inductive ChildRun : Result unit -> list Event -> Prop :=
| cr_early w' tA :
    Forall (fun e => quiet_ev e = true) tA ->
    ChildRun (Halt Aborted w') tA
| cr_rlimits w' tA done bad rest :
    Forall (fun e => quiet_ev e = true) tA ->
    rows_of javaRlimits = done ++ bad :: rest ->
    Forall well_formed_row done ->
    ChildRun (Halt Aborted w')
      (tA ++ map (applied true) done ++ rlimit_failure bad)
| cr_setgid w' tA :
    Forall (fun e => quiet_ev e = true) tA ->
    Forall well_formed_row (rows_of javaRlimits) ->
    ChildRun (Halt Aborted w')
      (tA ++ map (applied true) (rows_of javaRlimits) ++
       [EvCall (sys_setgid gid) false; EvLog FATAL (MsgSetgidFailed gid)])
| cr_setuid w' tA :
    Forall (fun e => quiet_ev e = true) tA ->
    Forall well_formed_row (rows_of javaRlimits) ->
    ChildRun (Halt Aborted w')
      (tA ++ map (applied true) (rows_of javaRlimits) ++
       [EvCall (sys_setgid gid) true; EvCall (sys_setuid uid) false;
        EvLog FATAL (MsgSetuidFailed uid)])
| cr_capset w' tA tP :
    Forall (fun e => quiet_ev e = true) tA ->
    Forall well_formed_row (rows_of javaRlimits) ->
    Forall (fun e => quiet_ev e = true) tP ->
    HAVE_ANDROID_OS cfg = true ->
    ChildRun (Halt Aborted w')
      (tA ++ map (applied true) (rows_of javaRlimits) ++ identity_events ++ tP ++
       caps_events false ++
       [EvLog FATAL (MsgCapsetFailed permittedCapabilities effectiveCapabilities)])
| cr_late w' tA tP tB :
    Forall (fun e => quiet_ev e = true) tA ->
    Forall well_formed_row (rows_of javaRlimits) ->
    Forall (fun e => quiet_ev e = true) tP ->
    Forall (fun e => late_ev e = true) tB ->
    ChildRun (Halt Aborted w')
      (tA ++ map (applied true) (rows_of javaRlimits) ++ identity_events ++ tP ++
       caps_events true ++ tB)
| cr_done w' tA tP tB :
    Forall (fun e => quiet_ev e = true) tA ->
    Forall well_formed_row (rows_of javaRlimits) ->
    Forall (fun e => quiet_ev e = true) tP ->
    Forall (fun e => late_ev e = true) tB ->
    w_uid w' = uid -> w_gid w' = gid ->
    (HAVE_ANDROID_OS cfg = true ->
     w_cap_permitted w' = to_u32 permittedCapabilities /\
     w_cap_effective w' = to_u32 effectiveCapabilities) ->
    ChildRun (Ok tt w')
      (tA ++ map (applied true) (rows_of javaRlimits) ++ identity_events ++ tP ++
       caps_events true ++ tB ++ [EvRuntime rt_DidForkFromZygote]).

(** The child branch, cut into the blocks the proofs go through. *)
Definition early_block : M unit :=
  modify (fun w => with_gMallocLeakZygoteChild w 1) ;;
  when (negb (uid =? 0)) (EnableKeepCapabilities cfg E) ;;
  MountExternalStorage uid mount_external ;;
  SetGids E javaGids.

Definition personality_block : M unit :=
  when (is_linux cfg)
    (needed <- NeedsNoRandomizeWorkaround cfg E ;;
     if needed then
       old_personality <- personality E 0xffffffff ;;
       new_personality <- personality E (Z.lor old_personality ADDR_NO_RANDOMIZE) ;;
       if new_personality =? -1
       then LOG WARNING (MsgPersonalityFailed new_personality) else ret tt
     else ret tt).

Definition late_block : M unit :=
  SetSchedulerPolicy cfg E ;;
  when (HAVE_ANDROID_OS cfg)
    (rc <- selinux_android_setcontext E uid is_system_server java_se_info java_se_name ;;
     if rc =? -1 then LOG FATAL (MsgSetcontextFailed uid is_system_server) else ret tt) ;;
  emit (EvRuntime rt_InitAfterFork) ;;
  EnableDebugFeatures cfg E (to_u32 debug_flags) ;;
  UnsetSigChldHandler E ;;
  emit (EvRuntime rt_DidForkFromZygote).

Definition child_block : M unit :=
  early_block ;;
  SetRLimits cfg E javaRlimits ;;
  rc <- setgid E gid ;;
  (if rc =? -1 then LOG FATAL (MsgSetgidFailed gid) else ret tt) ;;
  rc <- setuid E uid ;;
  (if rc =? -1 then LOG FATAL (MsgSetuidFailed uid) else ret tt) ;;
  personality_block ;;
  SetCapabilities cfg E permittedCapabilities effectiveCapabilities ;;
  late_block.

(** ForkAndSpecializeCommon at the arguments of the section. *)
Definition FASC : M Z :=
  ForkAndSpecializeCommon cfg E uid gid javaGids debug_flags javaRlimits
    permittedCapabilities effectiveCapabilities mount_external
    java_se_info java_se_name is_system_server.

(** The runs of ForkAndSpecializeCommon from [w]: the two fatal checks,
    the failed fork, the parent, and the child. *)
Inductive Run (w : World) : Result Z -> list Event -> Prop :=
| run_not_zygote :
    rt_IsZygote w = false ->
    Run w (Halt Aborted (with_trace w (trace w ++ [EvLog FATAL MsgNotZygote])))
        [EvLog FATAL MsgNotZygote]
| run_not_quiesced :
    rt_IsZygote w = true ->
    env_PreZygoteFork E w = false ->
    Run w (Halt Aborted (with_trace w (trace w ++ [EvLog FATAL MsgPreForkHeapFailed])))
        [EvLog FATAL MsgPreForkHeapFailed]
| run_fork_failed w' t0 :
    env_PreZygoteFork E w = true ->
    Forall (fun e => quiet_ev e = true) t0 ->
    keeps w w' ->
    Run w (Ok (-1) w') (t0 ++ [EvFork (-1)])
| run_parent w' t0 p :
    env_PreZygoteFork E w = true ->
    Forall (fun e => quiet_ev e = true) t0 ->
    w_pid w' = w_pid w ->
    gSystemServerPid w' = gSystemServerPid w ->
    (w_zombies w' = w_zombies w /\ w_live w' = Zpos p :: w_live w \/
     exists st, w_zombies w' = w_zombies w ++ [(Zpos p, st)] /\ w_live w' = w_live w) ->
    Run w (Ok (Zpos p) w') (t0 ++ [EvFork (Zpos p)])
| run_child r t0 tc :
    env_PreZygoteFork E w = true ->
    Forall (fun e => quiet_ev e = true) t0 ->
    ChildRun r tc ->
    Run w (match r with Ok _ w' => Ok 0 w' | Halt s w' => Halt s w' end)
        (t0 ++ EvFork 0 :: tc).

(** The calls of the steps of the child whose failure is fatal, as they
    appear in the run of a child that got through them. *)
Definition keepcaps_events : list Event :=
  if negb (uid =? 0) && HAVE_ANDROID_OS cfg
  then [EvCall sys_prctl_SET_KEEPCAPS true] else [].

Definition groups_events : list Event :=
  match javaGids with
  | Some gids => [EvCall (sys_setgroups (map to_u32 gids)) true]
  | None => []
  end.

Definition scheduler_events : list Event :=
  if HAVE_ANDROID_OS cfg then [EvCall (sys_set_sched_policy 0 SP_DEFAULT) true] else [].

Definition context_events : list Event :=
  if HAVE_ANDROID_OS cfg
  then [EvCall (sys_selinux_android_setcontext uid is_system_server
                  java_se_info java_se_name) true]
  else [].

(** The whole sequence of the child, from the first step after fork to
    the last before Runtime::DidForkFromZygote; [tP], [tD] and [tU] stand
    for what the personality workaround, EnableDebugFeatures and
    UnsetSigChldHandler append. *)
Definition child_sequence (tP tD tU : list Event) : list Event :=
  keepcaps_events ++ groups_events ++
  map (applied true) (rows_of javaRlimits) ++
  identity_events ++ tP ++ caps_events true ++
  scheduler_events ++ context_events ++
  [EvRuntime rt_InitAfterFork] ++ tD ++ tU.

End RunShapes.

(** ** Basic facts *)

Lemma bind_eq {A B} (m : M A) (k : A -> M B) (w : World) :
  bind m k w = match m w with
               | Ok a w' => k a w'
               | Halt s w' => Halt s w'
               end.
Proof. reflexivity. Qed.

Lemma skipn_app_exact {X} (l t : list X) : skipn (length l) (l ++ t) = t.
Proof. induction l; simpl; auto. Qed.

Lemma run_trace_eq {A} (m : M A) (w : World) (t : list Event) :
  trace (final_world (m w)) = trace w ++ t -> run_trace m w = t.
Proof. unfold run_trace. intros ->. apply skipn_app_exact. Qed.

Lemma keeps_refl w : keeps w w.
Proof. unfold keeps; repeat split; reflexivity. Qed.

Lemma keeps_trans w1 w2 w3 : keeps w1 w2 -> keeps w2 w3 -> keeps w1 w3.
Proof. unfold keeps; intros H1 H2; intuition congruence. Qed.

Lemma keeps_with_trace w t : keeps w (with_trace w t).
Proof. unfold keeps; simpl; repeat split; reflexivity. Qed.

Section Calm.

Variable cfg : BuildConfig.
Variable E : Env.
Variable P : Event -> bool.

Lemma calm_ret {A} (a : A) : calm P (ret a).
Proof.
  intros w; simpl; repeat split; try reflexivity.
  - exists []; split; [now rewrite app_nil_r | constructor].
  - discriminate.
Qed.

Lemma calm_get {A} (f : World -> A) : calm P (get f).
Proof.
  intros w; simpl; repeat split; try reflexivity.
  - exists []; split; [now rewrite app_nil_r | constructor].
  - discriminate.
Qed.

Lemma calm_bind {A B} (m : M A) (k : A -> M B) :
  calm P m -> (forall a, calm P (k a)) -> calm P (bind m k).
Proof.
  intros Hm Hk w. rewrite bind_eq.
  destruct (Hm w) as (K1 & (t1 & T1 & F1) & S1).
  destruct (m w) as [a w1 | s w1]; simpl in *.
  - destruct (Hk a w1) as (K2 & (t2 & T2 & F2) & S2).
    split; [eapply keeps_trans; eauto|]. split; [|exact S2].
    exists (t1 ++ t2). split.
    + rewrite T2, T1. now rewrite app_assoc.
    + apply Forall_app; auto.
  - split; [exact K1|]. split; [exists t1; auto|].
    intros s' w' H; inversion H; subst. eapply S1; reflexivity.
Qed.

Lemma calm_emit (e : Event) : P e = true -> calm P (emit e).
Proof.
  intros He w; simpl; repeat split; try reflexivity.
  - exists [e]; split; [reflexivity | repeat constructor; exact He].
  - discriminate.
Qed.

Lemma calm_halt_Aborted {A} : calm P (@halt A Aborted).
Proof.
  intros w; simpl; repeat split; try reflexivity.
  - exists []; split; [now rewrite app_nil_r | constructor].
  - intros s w' H; now inversion H.
Qed.

Lemma calm_LOG (sev : Severity) (m : Msg) :
  P (EvLog sev m) = true -> calm P (LOG sev m).
Proof.
  intros He. unfold LOG. apply calm_bind; [now apply calm_emit|].
  intros _. destruct sev; try apply calm_ret. apply calm_halt_Aborted.
Qed.

Lemma calm_if {A} (b : bool) (m1 m2 : M A) :
  calm P m1 -> calm P m2 -> calm P (if b then m1 else m2).
Proof. destruct b; auto. Qed.

Lemma calm_when (b : bool) (m : M unit) : calm P m -> calm P (when b m).
Proof. intros; unfold when; destruct b; auto using calm_ret. Qed.

Lemma calm_syscall (c : Call) :
  harmless c = true -> (forall ok, P (EvCall c ok) = true) -> calm P (syscall E c).
Proof.
  intros Hc He w. unfold syscall; simpl. split; [|split].
  - destruct (env_ok E w c); [|apply keeps_with_trace].
    destruct c; simpl in *; try discriminate; unfold keeps; simpl; repeat split; reflexivity.
  - exists [EvCall c (env_ok E w c)]. split.
    + destruct (env_ok E w c); destruct c; simpl in *; try discriminate; reflexivity.
    + repeat constructor. apply He.
  - discriminate.
Qed.

Lemma calm_modify (f : World -> World) :
  (forall w, keeps w (f w)) -> (forall w, trace (f w) = trace w) -> calm P (modify f).
Proof.
  intros Hk Ht w; simpl. split; [apply Hk|]. split.
  - exists []. rewrite app_nil_r. split; [apply Ht | constructor].
  - discriminate.
Qed.

End Calm.

Lemma calm_weaken {A} (P Q : Event -> bool) (m : M A) :
  (forall e, P e = true -> Q e = true) -> calm P m -> calm Q m.
Proof.
  intros HPQ Hm w. destruct (Hm w) as (K & (t & T & F) & S).
  split; [exact K|]. split; [|exact S].
  exists t; split; [exact T|]. eapply Forall_impl; [|exact F]. auto.
Qed.

Lemma quiet_late e : quiet_ev e = true -> late_ev e = true.
Proof. unfold quiet_ev. intros H. apply andb_true_iff in H. tauto. Qed.

(** ** Finding an event in a trace *)

Section Splits.

Variable Q : Event -> bool.

Lemma Forall_app_intro (P : Event -> Prop) (a b : list Event) :
  Forall P a -> Forall P b -> Forall P (a ++ b).
Proof. intros; apply Forall_app; now split. Qed.

Lemma no_split (t pre : list Event) (y : Event) (post : list Event) :
  Forall (fun e => Q e = false) t -> t = pre ++ y :: post -> Q y = true -> False.
Proof.
  intros F -> Hy. apply Forall_app in F as [_ F]. inversion F; congruence.
Qed.

Lemma split_unique (l1 : list Event) (x : Event) (l2 pre : list Event)
    (y : Event) (post : list Event) :
  Forall (fun e => Q e = false) l1 -> Forall (fun e => Q e = false) l2 ->
  Q y = true -> l1 ++ x :: l2 = pre ++ y :: post ->
  pre = l1 /\ y = x /\ post = l2.
Proof.
  intros F1 F2 Hy. revert pre. induction l1 as [|a l1 IH]; intros pre H.
  - destruct pre as [|b pre]; simpl in H.
    + injection H as <- <-. auto.
    + injection H as <- H. exfalso. eapply no_split; [exact F2|exact H|exact Hy].
  - apply Forall_cons_iff in F1 as [Ha F1].
    destruct pre as [|b pre]; simpl in H.
    + injection H as -> _. congruence.
    + injection H as <- H. destruct (IH F1 pre H) as (-> & -> & ->). auto.
Qed.

Lemma split_after (l1 : list Event) (x : Event) (l2 pre : list Event)
    (y : Event) (post : list Event) :
  Forall (fun e => Q e = false) l1 -> Q x = false -> Q y = true ->
  l1 ++ x :: l2 = pre ++ y :: post ->
  exists pre', pre = l1 ++ x :: pre'.
Proof.
  intros F1 Hx Hy. revert pre. induction l1 as [|a l1 IH]; intros pre H.
  - destruct pre as [|b pre]; simpl in H.
    + injection H as -> _. congruence.
    + injection H as <- _. now exists pre.
  - apply Forall_cons_iff in F1 as [Ha F1].
    destruct pre as [|b pre]; simpl in H.
    + injection H as -> _. congruence.
    + injection H as <- H. destruct (IH F1 pre H) as (pre' & ->). now exists pre'.
Qed.

End Splits.

Lemma quiet_classes (e : Event) :
  quiet_ev e = true ->
  is_setgid e = false /\ is_setuid e = false /\ is_capset e = false /\
  is_setrlimit e = false /\ is_process_event e = false /\
  is_failed_setrlimit e = false.
Proof.
  destruct e as [c ok| | | | | | |]; try (intros _; repeat split; reflexivity);
    try discriminate.
  destruct c; try discriminate; intros _; repeat split; try reflexivity.
Qed.

Lemma late_classes (e : Event) :
  late_ev e = true ->
  is_setgid e = false /\ is_setuid e = false /\ is_capset e = false /\
  is_process_event e = false.
Proof.
  destruct e as [c ok| | | | | | |]; try (intros _; repeat split; reflexivity);
    try discriminate.
  destruct c; try discriminate; intros _; repeat split; try reflexivity.
Qed.

(** ** The steps of the child that are calm *)

Ltac calm_step :=
  match goal with
  | |- calm _ (bind _ _) => apply calm_bind; [|intro]
  | |- calm _ (ret _) => apply calm_ret
  | |- calm _ (get _) => apply calm_get
  | |- calm _ (LOG _ _) => apply calm_LOG; reflexivity
  | |- calm _ (emit _) => apply calm_emit; reflexivity
  | |- calm _ (when _ _) => apply calm_when
  | |- calm _ (syscall _ _) =>
      apply calm_syscall; [reflexivity | intros []; reflexivity]
  | |- calm _ (modify _) =>
      apply calm_modify; intros; [unfold keeps; simpl; repeat split|]; reflexivity
  | |- calm _ (if _ then _ else _) => apply calm_if
  | |- calm _ (match ?x with _ => _ end) => destruct x
  end.

Ltac calm_auto := repeat calm_step.

Section CalmSteps.

Variable cfg : BuildConfig.
Variable E : Env.

Lemma calm_SetSigChldHandler : calm quiet_ev (SetSigChldHandler E).
Proof. unfold SetSigChldHandler, sigaction_SIGCHLD. calm_auto. Qed.

Lemma calm_UnsetSigChldHandler : calm late_ev (UnsetSigChldHandler E).
Proof. unfold UnsetSigChldHandler, sigaction_SIGCHLD. calm_auto. Qed.

Lemma calm_EnableKeepCapabilities : calm quiet_ev (EnableKeepCapabilities cfg E).
Proof. unfold EnableKeepCapabilities, prctl_SET_KEEPCAPS. calm_auto. Qed.

Lemma calm_MountExternalStorage uid mount_external :
  calm quiet_ev (MountExternalStorage uid mount_external).
Proof. unfold MountExternalStorage. calm_auto. Qed.

Lemma calm_SetGids javaGids : calm quiet_ev (SetGids E javaGids).
Proof. unfold SetGids, setgroups. calm_auto. Qed.

Lemma calm_SetSchedulerPolicy : calm late_ev (SetSchedulerPolicy cfg E).
Proof. unfold SetSchedulerPolicy, set_sched_policy. calm_auto. Qed.

Lemma calm_EnableDebugger : calm late_ev (EnableDebugger cfg E).
Proof.
  unfold EnableDebugger, prctl_SET_DUMPABLE, setrlimit, getpid. calm_auto.
Qed.

Lemma calm_EnableDebugFeatures debug_flags :
  calm late_ev (EnableDebugFeatures cfg E debug_flags).
Proof.
  unfold EnableDebugFeatures.
  apply calm_bind; [calm_auto|intro].
  apply calm_bind; [calm_auto|intro].
  apply calm_bind; [calm_auto|intro].
  apply calm_bind; [apply calm_when, calm_EnableDebugger|intro].
  calm_auto.
Qed.

End CalmSteps.

(** ** The shape of every run of ForkAndSpecializeCommon *)

(** [absent_ev] proves that a class of events does not occur in a trace
    made of the segments of a run; [list_norm] brings concatenations to
    right-nested form. *)
Ltac absent_ev :=
  unfold identity_events, caps_events, rlimit_failure;
  repeat match goal with
         | |- Forall _ [] => constructor
         | |- Forall _ (_ ++ _) => apply Forall_app_intro
         | |- Forall _ (_ :: _) => apply Forall_cons; [reflexivity|]
         | |- Forall _ (map (applied _ _) _) =>
             apply Forall_map, Forall_forall; intros; reflexivity
         | |- Forall _ (if ?b then _ else _) => destruct b
         | H : Forall (fun e => quiet_ev e = true) ?t |- Forall _ ?t =>
             let Hq := fresh "Hq" in
             eapply Forall_impl; [|exact H]; intros ? Hq;
             apply quiet_classes in Hq; cbv beta; tauto
         | H : Forall (fun e => late_ev e = true) ?t |- Forall _ ?t =>
             let Hq := fresh "Hq" in
             eapply Forall_impl; [|exact H]; intros ? Hq;
             apply late_classes in Hq; cbv beta; tauto
         end.

Ltac list_norm := repeat (rewrite <- ?app_assoc, <- ?app_comm_cons; cbn [app]).

Section Shape.

Variable cfg : BuildConfig.
Variable E : Env.
Variables uid gid : Z.
Variable javaGids : option (list Z).
Variable debug_flags : Z.
Variable javaRlimits : option (list (list Z)).
Variables permittedCapabilities effectiveCapabilities : Z.
Variable mount_external : Z.
Variables java_se_info java_se_name : option string.
Variable is_system_server : bool.

(** Inside this section the shapes are read at the arguments above. *)
Local Abbreviation applied := (Zygote.applied cfg).
Local Abbreviation rlimit_failure := (Zygote.rlimit_failure cfg).
Local Abbreviation identity_events := (Zygote.identity_events uid gid).
Local Abbreviation caps_events :=
  (Zygote.caps_events cfg permittedCapabilities effectiveCapabilities).
Local Abbreviation ChildRun :=
  (Zygote.ChildRun cfg uid gid javaRlimits permittedCapabilities effectiveCapabilities).
Local Abbreviation Run :=
  (Zygote.Run cfg E uid gid javaRlimits permittedCapabilities effectiveCapabilities).
Local Abbreviation early_block := (Zygote.early_block cfg E uid javaGids mount_external).
Local Abbreviation personality_block := (Zygote.personality_block cfg E).
Local Abbreviation late_block :=
  (Zygote.late_block cfg E uid debug_flags java_se_info java_se_name is_system_server).
Local Abbreviation child_block :=
  (Zygote.child_block cfg E uid gid javaGids debug_flags javaRlimits
     permittedCapabilities effectiveCapabilities mount_external
     java_se_info java_se_name is_system_server).
Local Abbreviation FASC :=
  (Zygote.FASC cfg E uid gid javaGids debug_flags javaRlimits
     permittedCapabilities effectiveCapabilities mount_external
     java_se_info java_se_name is_system_server).

(** ForkAndSpecializeCommon is its checks, the fork, and the child block
    where fork answered 0. *)
Lemma FASC_blocks (w : World) :
  FASC w =
  (is_zygote <- get rt_IsZygote ;;
   (if negb is_zygote then LOG FATAL MsgNotZygote else ret tt) ;;
   quiesced <- get (env_PreZygoteFork E) ;;
   (if negb quiesced then LOG FATAL MsgPreForkHeapFailed else ret tt) ;;
   SetSigChldHandler E ;;
   pid <- fork E ;;
   (if pid =? 0 then child_block else ret tt) ;;
   ret pid) w.
Proof.
  unfold Zygote.FASC, ForkAndSpecializeCommon, Zygote.child_block, Zygote.early_block,
    Zygote.personality_block, Zygote.late_block, bind.
  repeat (cbv beta iota;
    match goal with
    | |- ?x = ?x => reflexivity
    | |- context [if ?b then _ else _] => destruct b
    | |- context [match (match ?s with Ok _ _ => _ | Halt _ _ => _ end) with
                  | Ok _ _ => _ | Halt _ _ => _ end] => destruct s
    | |- context [match ?s with Ok _ _ => _ | Halt _ _ => _ end] => destruct s
    end).
Qed.

Lemma calm_early_block : calm quiet_ev early_block.
Proof.
  unfold Zygote.early_block.
  apply calm_bind; [calm_auto|intro].
  apply calm_bind; [apply calm_when, calm_EnableKeepCapabilities|intro].
  apply calm_bind; [apply calm_MountExternalStorage|intro].
  apply calm_SetGids.
Qed.

Lemma calm_personality_block : calm quiet_ev personality_block.
Proof.
  unfold Zygote.personality_block, NeedsNoRandomizeWorkaround, personality. calm_auto.
Qed.

(** The last block never stops but by aborting, and a run that gets
    through it ends on Runtime::DidForkFromZygote. *)
Lemma late_block_spec (w : World) :
  keeps w (final_world (late_block w)) /\
  match late_block w with
  | Ok _ w' => exists tB, trace w' = trace w ++ tB ++ [EvRuntime rt_DidForkFromZygote] /\
                          Forall (fun e => late_ev e = true) tB
  | Halt s w' => s = Aborted /\
                 exists tB, trace w' = trace w ++ tB /\ Forall (fun e => late_ev e = true) tB
  end.
Proof.
  assert (H : calm late_ev
    (SetSchedulerPolicy cfg E ;;
     when (HAVE_ANDROID_OS cfg)
       (rc <- selinux_android_setcontext E uid is_system_server java_se_info java_se_name ;;
        if rc =? -1 then LOG FATAL (MsgSetcontextFailed uid is_system_server) else ret tt) ;;
     emit (EvRuntime rt_InitAfterFork) ;;
     EnableDebugFeatures cfg E (to_u32 debug_flags) ;;
     UnsetSigChldHandler E)).
  { apply calm_bind; [apply calm_SetSchedulerPolicy|intro].
    apply calm_bind; [unfold selinux_android_setcontext; calm_auto|intro].
    apply calm_bind; [calm_auto|intro].
    apply calm_bind; [apply calm_EnableDebugFeatures|intro].
    apply calm_UnsetSigChldHandler. }
  destruct (H w) as (K & (t & T & F) & S). revert K T S.
  unfold Zygote.late_block, bind.
  do 4 (match goal with
        | |- context [match ?s with Ok _ _ => _ | Halt _ _ => _ end] =>
            destruct s as [[] ?|? ?]
        end; cbn [final_world];
        [|intros K T S; split; [exact K|]; split; [eapply S; reflexivity|eauto]]).
  cbn [emit modify].
  match goal with
  | |- context [match ?s with Ok _ _ => _ | Halt _ _ => _ end] =>
      destruct s as [[] w4|? w4]
  end; cbn [final_world];
    [|intros K T S; split; [exact K|]; split; [eapply S; reflexivity|eauto]].
  intros K T S. split.
  - eapply keeps_trans; [exact K|apply keeps_with_trace].
  - exists t. split; [|exact F]. simpl. rewrite T. now rewrite app_assoc.
Qed.

(** The loop of SetRLimits applies the rows in order and aborts at the
    first row that is malformed or that setrlimit refuses. *)
Lemma SetRLimits_loop_spec (rows : list (list Z)) : forall w,
  (exists w', SetRLimits_loop cfg E rows w = Ok tt w' /\ keeps w w' /\
              trace w' = trace w ++ map (applied true) rows /\
              Forall well_formed_row rows) \/
  (exists done bad rest w',
      rows = done ++ bad :: rest /\
      SetRLimits_loop cfg E rows w = Halt Aborted w' /\ keeps w w' /\
      Forall well_formed_row done /\
      trace w' = trace w ++ map (applied true) done ++ rlimit_failure bad).
Proof.
  induction rows as [|row rows IH]; intros w.
  - left. exists w. simpl. rewrite app_nil_r. repeat split; auto using keeps_refl.
  - cbn [SetRLimits_loop]. unfold setrlimit, syscall, bind. cbv beta.
    destruct (length row =? 3)%nat eqn:L; cbn [negb ret].
    + match goal with |- context [env_ok E w ?c] => destruct (env_ok E w c) eqn:OK end;
        cbn [ret rc_of kernel_effect].
      * change (0 =? -1) with false. unfold ret. cbv beta iota.
        match goal with |- context [SetRLimits_loop cfg E rows ?w1] =>
          destruct (IH w1) as [(w' & R & K & T & WF) | (done & bad & rest & w' & Hr & R & K & WF & T)]
        end.
        -- left. exists w'. split; [exact R|]. split; [|split].
           ++ eapply keeps_trans; [|exact K]. unfold keeps; simpl; repeat split; reflexivity.
           ++ rewrite T. simpl. now rewrite <- app_assoc.
           ++ constructor; [now apply Nat.eqb_eq|exact WF].
        -- right. exists (row :: done), bad, rest, w'. split; [now rewrite Hr|].
           split; [exact R|]. split; [|split].
           ++ eapply keeps_trans; [|exact K]. unfold keeps; simpl; repeat split; reflexivity.
           ++ constructor; [now apply Nat.eqb_eq|exact WF].
           ++ rewrite T. simpl. now rewrite <- app_assoc.
      * change (-1 =? -1) with true. cbv iota.
        right. exists [], row, rows. eexists. split; [reflexivity|].
        split; [reflexivity|]. split; [unfold keeps; simpl; repeat split; reflexivity|].
        split; [constructor|]. simpl. unfold Zygote.rlimit_failure. rewrite L.
        now rewrite <- app_assoc.
    + right. exists [], row, rows. eexists. split; [reflexivity|].
      split; [reflexivity|]. split; [unfold keeps; simpl; repeat split; reflexivity|].
      split; [constructor|]. simpl. unfold Zygote.rlimit_failure. now rewrite L.
Qed.

Lemma SetRLimits_spec (w : World) :
  (exists w', SetRLimits cfg E javaRlimits w = Ok tt w' /\ keeps w w' /\
              trace w' = trace w ++ map (applied true) (rows_of javaRlimits) /\
              Forall well_formed_row (rows_of javaRlimits)) \/
  (exists done bad rest w',
      rows_of javaRlimits = done ++ bad :: rest /\
      SetRLimits cfg E javaRlimits w = Halt Aborted w' /\ keeps w w' /\
      Forall well_formed_row done /\
      trace w' = trace w ++ map (applied true) done ++ rlimit_failure bad).
Proof.
  destruct javaRlimits as [rows|]; simpl.
  - apply SetRLimits_loop_spec.
  - left. exists w. rewrite app_nil_r. repeat split; auto using keeps_refl.
Qed.

(** A call whose failure is fatal: rc = call; if (rc == -1) PLOG(FATAL). *)
Lemma checked_call_step (c : Call) (msg : Msg) (K : M unit) (w : World) :
  (rc <- (ok <- syscall E c ;; ret (rc_of ok)) ;;
   (if rc =? -1 then LOG FATAL msg else ret tt) ;; K) w =
  if env_ok E w c
  then K (with_trace (kernel_effect c w) (trace (kernel_effect c w) ++ [EvCall c true]))
  else Halt Aborted (with_trace w ((trace w ++ [EvCall c false]) ++ [EvLog FATAL msg])).
Proof. unfold bind, syscall. destruct (env_ok E w c); reflexivity. Qed.

Lemma SetCapabilities_step (K : M unit) (w : World) :
  (SetCapabilities cfg E permittedCapabilities effectiveCapabilities ;; K) w =
  if HAVE_ANDROID_OS cfg then
    if env_ok E w (sys_capset (to_u32 permittedCapabilities) (to_u32 effectiveCapabilities))
    then K (with_trace
              (with_caps w (w_keepcaps w) (to_u32 permittedCapabilities)
                                          (to_u32 effectiveCapabilities))
              (trace w ++ [EvCall (sys_capset (to_u32 permittedCapabilities)
                                              (to_u32 effectiveCapabilities)) true]))
    else Halt Aborted
           (with_trace w
              ((trace w ++ [EvCall (sys_capset (to_u32 permittedCapabilities)
                                               (to_u32 effectiveCapabilities)) false]) ++
               [EvLog FATAL (MsgCapsetFailed permittedCapabilities effectiveCapabilities)]))
  else K w.
Proof.
  unfold SetCapabilities, capset, bind, syscall.
  destruct (HAVE_ANDROID_OS cfg); [|reflexivity].
  destruct (env_ok E w _); reflexivity.
Qed.

(** The personality workaround is best effort: it never stops the child. *)
Lemma personality_block_total (w : World) :
  exists w', personality_block w = Ok tt w'.
Proof.
  unfold Zygote.personality_block, when, NeedsNoRandomizeWorkaround, personality,
    LOG, emit, modify, get, syscall, ret, bind.
  repeat match goal with
         | |- context [if ?b then _ else _] => destruct b
         | |- context [match ?x with Some _ => _ | None => _ end] => destruct x
         | |- context [let (_, _) := ?x in _] => destruct x
         end; eauto.
Qed.

Lemma setuid_effect (w : World) (u : Z) :
  w_uid (kernel_effect (sys_setuid u) w) = u /\
  w_gid (kernel_effect (sys_setuid u) w) = w_gid w /\
  trace (kernel_effect (sys_setuid u) w) = trace w.
Proof.
  cbn [kernel_effect].
  destruct ((w_uid w =? 0) && negb (u =? 0)); [destruct (w_keepcaps w)|];
    repeat split; reflexivity.
Qed.

(** Every run of the child block has one of the shapes of [ChildRun]. *)
Lemma child_block_shape (w0 : World) :
  exists t, trace (final_world (child_block w0)) = trace w0 ++ t /\
            ChildRun (child_block w0) t.
Proof.
  unfold Zygote.child_block. rewrite bind_eq.
  destruct (calm_early_block w0) as (K1 & (tA & T1 & F1) & S1).
  destruct (early_block w0) as [[] w1 | s w1]; cbn [final_world] in *.
  2: { rewrite (S1 _ _ eq_refl). exists tA. split; [exact T1|now constructor]. }
  clear S1 K1. rewrite bind_eq.
  destruct (SetRLimits_spec w1)
    as [(w2 & R & K2 & T2 & WF) | (done & bad & rest & w2 & Hr & R & K2 & WFd & T2)];
    rewrite R.
  2: { exists (tA ++ map (applied true) done ++ rlimit_failure bad). split.
       - cbn [final_world]. rewrite T2, T1. now rewrite <- app_assoc.
       - eapply cr_rlimits; eauto. }
  clear R K2. unfold setgid. rewrite checked_call_step.
  destruct (env_ok E w2 (sys_setgid gid)).
  2: { eexists. split; [|apply cr_setgid with (tA := tA); assumption].
       simpl. rewrite T2, T1. now rewrite <- !app_assoc. }
  set (w3 := with_trace (kernel_effect (sys_setgid gid) w2) _).
  assert (T3 : trace w3 = trace w2 ++ [EvCall (sys_setgid gid) true]) by reflexivity.
  assert (G3 : w_gid w3 = gid) by reflexivity.
  clearbody w3. unfold setuid. rewrite checked_call_step.
  destruct (env_ok E w3 (sys_setuid uid)).
  2: { eexists. split; [|apply cr_setuid with (tA := tA); assumption].
       simpl. rewrite T3, T2, T1. now rewrite <- !app_assoc. }
  destruct (setuid_effect w3 uid) as (U4 & G4 & T4).
  set (w4 := with_trace (kernel_effect (sys_setuid uid) w3) _).
  assert (T4' : trace w4 = trace w3 ++ [EvCall (sys_setuid uid) true])
    by (unfold w4, with_trace; cbn [trace]; now rewrite T4).
  assert (U4' : w_uid w4 = uid) by exact U4.
  assert (G4' : w_gid w4 = gid) by (rewrite <- G3; exact G4).
  clearbody w4. clear U4 G4 T4. rewrite bind_eq.
  destruct (calm_personality_block w4) as (K5 & (tP & T5 & F5) & _).
  destruct (personality_block_total w4) as (w5 & R5). rewrite R5 in *.
  cbn [final_world] in *. rewrite SetCapabilities_step.
  assert (Shape_late : forall w6 tC,
    trace w6 = trace w5 ++ tC -> tC = caps_events true ->
    w_uid w6 = uid -> w_gid w6 = gid ->
    (HAVE_ANDROID_OS cfg = true ->
     w_cap_permitted w6 = to_u32 permittedCapabilities /\
     w_cap_effective w6 = to_u32 effectiveCapabilities) ->
    exists t, trace (final_world (late_block w6)) = trace w0 ++ t /\
              ChildRun (late_block w6) t).
  { intros w6 tC T6 HC U6 G6 C6.
    destruct (late_block_spec w6) as (K7 & L7).
    destruct (late_block w6) as [[] w7 | s w7]; cbn [final_world] in *.
    - destruct L7 as (tB & T7 & F7).
      exists (tA ++ map (applied true) (rows_of javaRlimits) ++ identity_events ++ tP ++
              caps_events true ++ tB ++ [EvRuntime rt_DidForkFromZygote]).
      split.
      + rewrite T7, T6, T5, T4', T3, T2, T1, HC. unfold Zygote.identity_events.
        rewrite <- !app_assoc. reflexivity.
      + destruct K7 as (_ & K7u & K7g & K7p & K7e & _).
        apply cr_done; auto; try congruence.
        intros HA. destruct (C6 HA). split; congruence.
    - destruct L7 as (-> & tB & T7 & F7).
      exists (tA ++ map (applied true) (rows_of javaRlimits) ++ identity_events ++ tP ++
              caps_events true ++ tB).
      split.
      + rewrite T7, T6, T5, T4', T3, T2, T1, HC. unfold Zygote.identity_events.
        rewrite <- !app_assoc. reflexivity.
      + apply cr_late; auto. }
  destruct (HAVE_ANDROID_OS cfg) eqn:HA.
  - destruct (env_ok E w5 _).
    + eapply Shape_late; try reflexivity.
      * unfold Zygote.caps_events. now rewrite HA.
      * rewrite <- U4'. destruct K5 as (_ & K5u & _). exact K5u.
      * rewrite <- G4'. destruct K5 as (_ & _ & K5g & _). exact K5g.
      * intros _. split; reflexivity.
    + eexists. split; [|apply cr_capset with (tA := tA) (tP := tP); assumption].
      simpl. rewrite T5, T4', T3, T2, T1. unfold Zygote.identity_events, Zygote.caps_events.
      rewrite HA. rewrite <- !app_assoc. reflexivity.
  - apply Shape_late with (tC := []); try discriminate.
    + now rewrite app_nil_r.
    + unfold Zygote.caps_events. now rewrite HA.
    + rewrite <- U4'. destruct K5 as (_ & K5u & _). exact K5u.
    + rewrite <- G4'. destruct K5 as (_ & _ & K5g & _). exact K5g.
Qed.

Lemma SetSigChldHandler_total (w : World) :
  exists w', SetSigChldHandler E w = Ok tt w'.
Proof.
  unfold SetSigChldHandler, sigaction_SIGCHLD, LOG, emit, modify, syscall, ret, bind.
  destruct (env_ok E w _); simpl; eauto.
Qed.

Lemma FASC_shape (w : World) :
  exists t, trace (final_world (FASC w)) = trace w ++ t /\ Run w (FASC w) t.
Proof.
  rewrite FASC_blocks. rewrite bind_eq. cbn [get].
  destruct (rt_IsZygote w) eqn:HZ; cbn [negb].
  2: { eexists. split; [|apply run_not_zygote; exact HZ]. reflexivity. }
  rewrite bind_eq. cbn [ret]. rewrite bind_eq. cbn [get].
  destruct (env_PreZygoteFork E w) eqn:HQ; cbn [negb].
  2: { eexists. split; [|apply run_not_quiesced; assumption]. reflexivity. }
  rewrite bind_eq. cbn [ret]. rewrite bind_eq.
  destruct (calm_SetSigChldHandler E w) as (K1 & (t0 & T1 & F1) & _).
  destruct (SetSigChldHandler_total w) as (w1 & R1). rewrite R1 in *.
  cbn [final_world] in *. rewrite bind_eq. unfold fork.
  destruct (env_fork E w1) as [|p|p early].
  - change (-1 =? 0) with false. cbv iota. rewrite bind_eq. cbn [ret].
    exists (t0 ++ [EvFork (-1)]). split.
    + simpl. rewrite T1. now rewrite <- app_assoc.
    + apply run_fork_failed; auto.
  - change (0 =? 0) with true. cbv iota. rewrite bind_eq.
    match goal with |- context [child_block ?x] =>
      destruct (child_block_shape x) as (tc & Tc & Sc); revert Tc Sc;
      destruct (child_block x) as [[] w3|s w3]; intros Tc Sc
    end; cbn [final_world ret] in *.
    + exists (t0 ++ EvFork 0 :: tc). split.
      * rewrite Tc. simpl. rewrite T1. rewrite <- !app_assoc. reflexivity.
      * apply run_child with (r := Ok tt w3); auto.
    + exists (t0 ++ EvFork 0 :: tc). split.
      * rewrite Tc. simpl. rewrite T1. rewrite <- !app_assoc. reflexivity.
      * apply run_child with (r := Halt s w3); auto.
  - change (Z.pos p =? 0) with false. cbv iota. rewrite bind_eq. cbn [ret].
    exists (t0 ++ [EvFork (Zpos p)]). split.
    + cbn [final_world]. simpl. rewrite T1. now rewrite <- app_assoc.
    + destruct K1 as (Kp & _ & _ & _ & _ & Ks & Kz & Kl & _).
      apply run_parent; auto.
      * destruct early; simpl; exact Kp.
      * destruct early; simpl; exact Ks.
      * destruct early as [st|]; simpl.
        -- right. exists st. rewrite Kz, Kl. split; reflexivity.
        -- left. rewrite Kz, Kl. split; reflexivity.
Qed.

(** No run of the child forks, waits, kills or exits. *)
Lemma ChildRun_no_process_event (r : Result unit) (tc : list Event) :
  ChildRun r tc -> Forall (fun e => is_process_event e = false) tc.
Proof.
  assert (Q : forall t, Forall (fun e => quiet_ev e = true) t ->
                        Forall (fun e => is_process_event e = false) t).
  { intros t. apply Forall_impl. intros e. unfold quiet_ev, late_ev.
    destruct (is_process_event e); [|reflexivity].
    rewrite !orb_true_r. discriminate. }
  assert (L : forall t, Forall (fun e => late_ev e = true) t ->
                        Forall (fun e => is_process_event e = false) t).
  { intros t. apply Forall_impl. intros e. unfold late_ev.
    destruct (is_process_event e); [|reflexivity].
    rewrite !orb_true_r. discriminate. }
  assert (R : forall rows, Forall (fun e => is_process_event e = false)
                                  (map (applied true) rows)).
  { intros rows. apply Forall_map. apply Forall_forall. reflexivity. }
  assert (C : forall ok, Forall (fun e => is_process_event e = false) (caps_events ok)).
  { intros ok. unfold Zygote.caps_events. destruct (HAVE_ANDROID_OS cfg); repeat constructor. }
  assert (X : forall bad, Forall (fun e => is_process_event e = false) (rlimit_failure bad)).
  { intros bad. unfold Zygote.rlimit_failure. destruct (_ =? _)%nat; repeat constructor. }
  assert (A : forall a b, Forall (fun e => is_process_event e = false) a ->
                          Forall (fun e => is_process_event e = false) b ->
                          Forall (fun e => is_process_event e = false) (a ++ b)).
  { intros a b Ha Hb. apply Forall_app. now split. }
  intros H; inversion H; subst; unfold Zygote.identity_events;
    repeat (apply A; auto); repeat constructor; auto.
Qed.

(** A run that comes back with 0 is a child that went through the whole
    sequence. *)
Lemma Run_done (w w' : World) (t : list Event) :
  Run w (Ok 0 w') t ->
  exists t0 tA tP tB,
    t = (t0 ++ EvFork 0 :: tA) ++ map (applied true) (rows_of javaRlimits) ++
        identity_events ++ tP ++ caps_events true ++ tB ++
        [EvRuntime rt_DidForkFromZygote] /\
    Forall (fun e => quiet_ev e = true) t0 /\
    Forall (fun e => quiet_ev e = true) tA /\
    Forall (fun e => quiet_ev e = true) tP /\
    Forall (fun e => late_ev e = true) tB /\
    Forall well_formed_row (rows_of javaRlimits) /\
    w_uid w' = uid /\ w_gid w' = gid /\
    (HAVE_ANDROID_OS cfg = true ->
     w_cap_permitted w' = to_u32 permittedCapabilities /\
     w_cap_effective w' = to_u32 effectiveCapabilities).
Proof.
  intros H. remember (Ok 0 w') as res eqn:Hres.
  destruct H as [ | | | | r t0 tc HQ F0 HC]; try discriminate.
  destruct HC; try discriminate. injection Hres as <-.
  exists t0, tA, tP, tB. repeat split; auto; try tauto.
  now list_norm.
Qed.

(** Where the identity calls sit in a run. *)
Lemma Run_view_identity (w : World) (r : Result Z) (t : list Event) :
  Run w r t ->
  Forall (fun e => is_setuid e = false) t \/
  exists A ok B,
    t = A ++ EvCall (sys_setgid gid) true :: EvCall (sys_setuid uid) ok :: B /\
    Forall (fun e => is_setgid e = false) A /\
    Forall (fun e => is_setuid e = false) A /\
    Forall (fun e => is_capset e = false) A /\
    Forall (fun e => is_setuid e = false) B /\
    Forall (fun e => is_setgid e = false) B.
Proof.
  intros H. destruct H as [ | | | | r t0 tc HQ F0 HC]; try (left; absent_ev; fail).
  destruct HC.
  - left; absent_ev.
  - left; absent_ev.
  - left; absent_ev.
  - right. exists (t0 ++ EvFork 0 :: tA ++ map (applied true) (rows_of javaRlimits)),
      false, [EvLog FATAL (MsgSetuidFailed uid)].
    split; [now list_norm|]. repeat split; absent_ev.
  - right. exists (t0 ++ EvFork 0 :: tA ++ map (applied true) (rows_of javaRlimits)),
      true, (tP ++ caps_events false ++
             [EvLog FATAL (MsgCapsetFailed permittedCapabilities effectiveCapabilities)]).
    split; [unfold Zygote.identity_events; now list_norm|]. repeat split; absent_ev.
  - right. exists (t0 ++ EvFork 0 :: tA ++ map (applied true) (rows_of javaRlimits)),
      true, (tP ++ caps_events true ++ tB).
    split; [unfold Zygote.identity_events; now list_norm|]. repeat split; absent_ev.
  - right. exists (t0 ++ EvFork 0 :: tA ++ map (applied true) (rows_of javaRlimits)),
      true, (tP ++ caps_events true ++ tB ++ [EvRuntime rt_DidForkFromZygote]).
    split; [unfold Zygote.identity_events; now list_norm|]. repeat split; absent_ev.
Qed.

(** Where the capset call sits in a run, when there is one. *)
Lemma Run_view_caps (w : World) (r : Result Z) (t : list Event) :
  Run w r t ->
  Forall (fun e => is_capset e = false) t \/
  (HAVE_ANDROID_OS cfg = true /\
   exists A ok B,
     t = A ++ EvCall (sys_capset (to_u32 permittedCapabilities)
                                 (to_u32 effectiveCapabilities)) ok :: B /\
     Forall (fun e => is_capset e = false) A /\
     Forall (fun e => is_capset e = false) B).
Proof.
  intros H. destruct H as [ | | | | r t0 tc HQ F0 HC]; try (left; absent_ev; fail).
  destruct HC; try (left; absent_ev; fail).
  - right. split; [assumption|].
    exists (t0 ++ EvFork 0 :: tA ++ map (applied true) (rows_of javaRlimits) ++
            identity_events ++ tP), false,
      [EvLog FATAL (MsgCapsetFailed permittedCapabilities effectiveCapabilities)].
    split; [unfold Zygote.caps_events;
            match goal with HA : HAVE_ANDROID_OS cfg = true |- _ => rewrite HA end;
            now list_norm|]. split; absent_ev.
  - destruct (HAVE_ANDROID_OS cfg) eqn:HA.
    + right. split; [reflexivity|].
      exists (t0 ++ EvFork 0 :: tA ++ map (applied true) (rows_of javaRlimits) ++
              identity_events ++ tP), true, tB.
      split; [unfold Zygote.caps_events; rewrite HA; now list_norm|]. split; absent_ev.
    + left. unfold Zygote.caps_events. rewrite HA. absent_ev.
  - destruct (HAVE_ANDROID_OS cfg) eqn:HA.
    + right. split; [reflexivity|].
      exists (t0 ++ EvFork 0 :: tA ++ map (applied true) (rows_of javaRlimits) ++
              identity_events ++ tP), true, (tB ++ [EvRuntime rt_DidForkFromZygote]).
      split; [unfold Zygote.caps_events; rewrite HA; now list_norm|]. split; absent_ev.
    + left. unfold Zygote.caps_events. rewrite HA. absent_ev.
Qed.

(** A setrlimit call that fails before the group id is changed ends the
    run: it is the call for the first row that the kernel refused. *)
Lemma Run_view_rlimit_failure (w : World) (r : Result Z) (t : list Event) :
  Run w r t ->
  forall pre res cur max post,
    t = pre ++ EvCall (sys_setrlimit res cur max) false :: post ->
    Forall (fun e => is_setgid e = false) pre ->
    exists w' done bad rest,
      r = Halt Aborted w' /\
      rows_of javaRlimits = done ++ bad :: rest /\
      Forall well_formed_row done /\ well_formed_row bad /\
      EvCall (sys_setrlimit res cur max) false = applied false bad /\
      (exists pre0, pre = pre0 ++ map (applied true) done /\
                    Forall (fun e => is_setrlimit e = false) pre0) /\
      post = [EvLog FATAL (MsgSetrlimitFailed res cur max)].
Proof.
  intros H pre res cur max post Heq Hpre.
  assert (Hy : is_failed_setrlimit (EvCall (sys_setrlimit res cur max) false) = true)
    by reflexivity.
  assert (After : forall L1 x L2,
    t = L1 ++ x :: L2 -> is_setgid x = true -> is_failed_setrlimit x = false ->
    Forall (fun e => is_failed_setrlimit e = false) L1 -> False).
  { intros L1 x L2 Ht Hx Hx' FL. rewrite Ht in Heq.
    destruct (split_after is_failed_setrlimit _ _ _ _ _ _ FL Hx' Hy Heq) as (pre' & ->).
    apply Forall_app in Hpre as [_ Hpre]. apply Forall_cons_iff in Hpre as [Hc _].
    congruence. }
  destruct H as [ | | | | r t0 tc HQ F0 HC];
    try (exfalso; eapply (no_split is_failed_setrlimit); [|exact Heq|exact Hy]; absent_ev; fail).
  destruct HC.
  - exfalso; eapply (no_split is_failed_setrlimit); [|exact Heq|exact Hy]; absent_ev.
  - unfold Zygote.rlimit_failure in Heq. destruct (length bad =? 3)%nat eqn:L.
    + assert (Heq' : (t0 ++ EvFork 0 :: tA ++ map (applied true) done) ++
                     applied false bad ::
                     [EvLog FATAL (MsgSetrlimitFailed (nth 0 bad 0)
                        (to_rlim_t cfg (nth 1 bad 0)) (to_rlim_t cfg (nth 2 bad 0)))] =
                     pre ++ EvCall (sys_setrlimit res cur max) false :: post)
        by (rewrite <- Heq; now list_norm).
      apply (split_unique is_failed_setrlimit) in Heq' as (-> & Hb & ->);
        [| absent_ev | absent_ev | exact Hy].
      exists w', done, bad, rest. repeat split; auto.
      * now apply Nat.eqb_eq.
      * exists (t0 ++ EvFork 0 :: tA). split; [now list_norm|absent_ev].
      * unfold Zygote.applied in Hb. injection Hb as -> -> ->. reflexivity.
    + exfalso; eapply (no_split is_failed_setrlimit); [|exact Heq|exact Hy]; absent_ev.
  - exfalso.
    eapply (After (t0 ++ EvFork 0 :: tA ++ map (applied true) (rows_of javaRlimits))
                  (EvCall (sys_setgid gid) false));
      [now list_norm|reflexivity|reflexivity|absent_ev].
  - exfalso.
    eapply (After (t0 ++ EvFork 0 :: tA ++ map (applied true) (rows_of javaRlimits))
                  (EvCall (sys_setgid gid) true));
      [now list_norm|reflexivity|reflexivity|absent_ev].
  - exfalso.
    eapply (After (t0 ++ EvFork 0 :: tA ++ map (applied true) (rows_of javaRlimits))
                  (EvCall (sys_setgid gid) true));
      [unfold Zygote.identity_events; now list_norm|reflexivity|reflexivity|absent_ev].
  - exfalso.
    eapply (After (t0 ++ EvFork 0 :: tA ++ map (applied true) (rows_of javaRlimits))
                  (EvCall (sys_setgid gid) true));
      [unfold Zygote.identity_events; now list_norm|reflexivity|reflexivity|absent_ev].
  - exfalso.
    eapply (After (t0 ++ EvFork 0 :: tA ++ map (applied true) (rows_of javaRlimits))
                  (EvCall (sys_setgid gid) true));
      [unfold Zygote.identity_events; now list_norm|reflexivity|reflexivity|absent_ev].
Qed.

End Shape.

(** ** The sequence of a child that comes back *)

Lemma bind_ok {A B} (m : M A) (k : A -> M B) (w w' : World) (b : B) :
  bind m k w = Ok b w' -> exists a w1, m w = Ok a w1 /\ k a w1 = Ok b w'.
Proof. rewrite bind_eq. destruct (m w) as [a w1|]; [eauto|discriminate]. Qed.

Lemma emit_ok (e : Event) (w w' : World) (u : unit) :
  emit e w = Ok u w' -> trace w' = trace w ++ [e].
Proof. destruct u. intros H. injection H as <-. reflexivity. Qed.

(** A step that returned did not take its fatal branch. *)
Lemma fatal_unless (b : bool) (msg : Msg) (w w' : World) (u : unit) :
  (if b then LOG FATAL msg else ret tt) w = Ok u w' -> b = false /\ w' = w.
Proof. destruct u, b; [discriminate|]. intros H. injection H as <-. auto. Qed.

Section Sequence.

Variable cfg : BuildConfig.
Variable E : Env.
Variables uid gid : Z.
Variable javaGids : option (list Z).
Variable debug_flags : Z.
Variable javaRlimits : option (list (list Z)).
Variables permittedCapabilities effectiveCapabilities : Z.
Variable mount_external : Z.
Variables java_se_info java_se_name : option string.
Variable is_system_server : bool.

Local Abbreviation child_sequence :=
  (Zygote.child_sequence cfg uid gid javaGids javaRlimits permittedCapabilities
     effectiveCapabilities java_se_info java_se_name is_system_server).

(** rc = call(...), as the wrappers of the calls do it. *)
Lemma call_ok (c : Call) (w w' : World) (rc : Z) :
  (ok <- syscall E c ;; ret (rc_of ok)) w = Ok rc w' ->
  exists ok, rc = rc_of ok /\ trace w' = trace w ++ [EvCall c ok].
Proof.
  unfold syscall, bind, ret. intros H. injection H as <- <-.
  exists (env_ok E w c). split; [reflexivity|].
  destruct (env_ok E w c); [|reflexivity].
  destruct c; try reflexivity. cbn.
  repeat match goal with |- context [if ?b then _ else _] => destruct b end; reflexivity.
Qed.

(** rc = call(...); if (rc == -1) PLOG(FATAL): the call succeeded. *)
Lemma checked_call_ok (c : Call) (msg : Msg) (w w' : World) (u : unit) :
  (rc <- (ok <- syscall E c ;; ret (rc_of ok)) ;;
   if rc =? -1 then LOG FATAL msg else ret tt) w = Ok u w' ->
  trace w' = trace w ++ [EvCall c true].
Proof.
  intros H. apply bind_ok in H as (rc & w1 & H1 & H2).
  apply call_ok in H1 as (ok & -> & T). apply fatal_unless in H2 as (Hb & ->).
  destruct ok; [exact T|discriminate].
Qed.

Lemma keepcaps_ok (w w' : World) (u : unit) :
  when (negb (uid =? 0)) (EnableKeepCapabilities cfg E) w = Ok u w' ->
  trace w' = trace w ++ keepcaps_events cfg uid.
Proof.
  destruct u. unfold when, EnableKeepCapabilities, prctl_SET_KEEPCAPS, keepcaps_events.
  destruct (negb (uid =? 0)), (HAVE_ANDROID_OS cfg); cbn [andb];
    try (intros H; injection H as <-; now rewrite app_nil_r).
  apply checked_call_ok.
Qed.

Lemma mount_ok (w w' : World) (u : unit) :
  MountExternalStorage uid mount_external w = Ok u w' ->
  mount_external = MOUNT_EXTERNAL_NONE /\ w' = w.
Proof.
  destruct u. unfold MountExternalStorage.
  destruct (Z.eqb_spec mount_external MOUNT_EXTERNAL_NONE); [|discriminate].
  intros H. injection H as <-. auto.
Qed.

Lemma groups_ok (w w' : World) (u : unit) :
  SetGids E javaGids w = Ok u w' -> trace w' = trace w ++ groups_events javaGids.
Proof.
  destruct u. unfold SetGids, setgroups, groups_events. destruct javaGids as [gids|].
  - apply checked_call_ok.
  - intros H. injection H as <-. now rewrite app_nil_r.
Qed.

Lemma rlimits_ok (w w' : World) (u : unit) :
  SetRLimits cfg E javaRlimits w = Ok u w' ->
  trace w' = trace w ++ map (applied cfg true) (rows_of javaRlimits).
Proof.
  destruct u. intros H.
  destruct (SetRLimits_spec cfg E javaRlimits w)
    as [(w1 & R & _ & T & _) | (done & bad & rest & w1 & _ & R & _)];
    rewrite R in H; [|discriminate].
  injection H as <-. exact T.
Qed.

Lemma capabilities_ok (w w' : World) (u : unit) :
  SetCapabilities cfg E permittedCapabilities effectiveCapabilities w = Ok u w' ->
  trace w' = trace w ++ caps_events cfg permittedCapabilities effectiveCapabilities true.
Proof.
  destruct u. unfold SetCapabilities, capset, caps_events. destruct (HAVE_ANDROID_OS cfg).
  - intros H. apply bind_ok in H as (rc & w1 & H1 & H2).
    apply call_ok in H1 as (ok & -> & T).
    destruct ok; [|discriminate]. cbn in H2. injection H2 as <-. exact T.
  - intros H. injection H as <-. now rewrite app_nil_r.
Qed.

Lemma scheduler_ok (w w' : World) (u : unit) :
  SetSchedulerPolicy cfg E w = Ok u w' -> trace w' = trace w ++ scheduler_events cfg.
Proof.
  destruct u. unfold SetSchedulerPolicy, set_sched_policy, scheduler_events.
  destruct (HAVE_ANDROID_OS cfg).
  - intros H. apply bind_ok in H as (rc & w1 & H1 & H2).
    apply call_ok in H1 as (ok & -> & T).
    destruct ok; [|discriminate]. cbn in H2. injection H2 as <-. exact T.
  - intros H. injection H as <-. now rewrite app_nil_r.
Qed.

Lemma context_ok (w w' : World) (u : unit) :
  when (HAVE_ANDROID_OS cfg)
    (rc <- selinux_android_setcontext E uid is_system_server java_se_info java_se_name ;;
     if rc =? -1 then LOG FATAL (MsgSetcontextFailed uid is_system_server) else ret tt)
    w = Ok u w' ->
  trace w' = trace w ++
             context_events cfg uid java_se_info java_se_name is_system_server.
Proof.
  destruct u. unfold when, selinux_android_setcontext, context_events.
  destruct (HAVE_ANDROID_OS cfg).
  - apply checked_call_ok.
  - intros H. injection H as <-. now rewrite app_nil_r.
Qed.

(** What a step that only appends to the trace appended. *)
Lemma calm_ran {A} (P : Event -> bool) (m : M A) (w w' : World) (a : A) :
  calm P m -> m w = Ok a w' -> exists t, trace w' = trace w ++ t /\ ran m t.
Proof.
  intros C H. destruct (C w) as (_ & (t & T & _) & _). rewrite H in T.
  exists t. split; [exact T|]. exists w, a, w'. auto.
Qed.

(** A child block that returned went through every step of the
    sequence, each of the fatal ones with success. *)
Lemma child_block_sequence (w0 w' : World) :
  child_block cfg E uid gid javaGids debug_flags javaRlimits permittedCapabilities
    effectiveCapabilities mount_external java_se_info java_se_name is_system_server w0
  = Ok tt w' ->
  mount_external = MOUNT_EXTERNAL_NONE /\
  exists tP tD tU,
    trace w' = trace w0 ++ child_sequence tP tD tU ++ [EvRuntime rt_DidForkFromZygote] /\
    ran (personality_block cfg E) tP /\
    ran (EnableDebugFeatures cfg E (to_u32 debug_flags)) tD /\
    ran (UnsetSigChldHandler E) tU.
Proof.
  unfold child_block, early_block, late_block. intros H.
  apply bind_ok in H as ([] & w4 & HE & H).
  apply bind_ok in HE as ([] & w1 & H1 & HE). injection H1 as <-.
  apply bind_ok in HE as ([] & w2 & H2 & HE). apply keepcaps_ok in H2.
  apply bind_ok in HE as ([] & w3 & H3 & HE). apply mount_ok in H3 as (HM & ->).
  apply groups_ok in HE.
  apply bind_ok in H as ([] & w5 & H5 & H). apply rlimits_ok in H5.
  apply bind_ok in H as (rc & w6 & H6 & H). apply call_ok in H6 as (ok6 & -> & T6).
  apply bind_ok in H as ([] & w6' & H6 & H). apply fatal_unless in H6 as (Hb6 & ->).
  destruct ok6; [|discriminate]. clear Hb6.
  apply bind_ok in H as (rc & w7 & H7 & H). apply call_ok in H7 as (ok7 & -> & T7).
  apply bind_ok in H as ([] & w7' & H7 & H). apply fatal_unless in H7 as (Hb7 & ->).
  destruct ok7; [|discriminate]. clear Hb7.
  apply bind_ok in H as ([] & w8 & H8 & H).
  apply (calm_ran _ _ _ _ _ (calm_personality_block cfg E)) in H8 as (tP & T8 & RP).
  apply bind_ok in H as ([] & w9 & H9 & H). apply capabilities_ok in H9.
  apply bind_ok in H as ([] & w10 & H10 & H). apply scheduler_ok in H10.
  apply bind_ok in H as ([] & w11 & H11 & H). apply context_ok in H11.
  apply bind_ok in H as ([] & w12 & H12 & H). apply emit_ok in H12.
  apply bind_ok in H as ([] & w13 & H13 & H).
  apply (calm_ran _ _ _ _ _ (calm_EnableDebugFeatures cfg E _)) in H13 as (tD & T13 & RD).
  apply bind_ok in H as ([] & w14 & H14 & H).
  apply (calm_ran _ _ _ _ _ (calm_UnsetSigChldHandler E)) in H14 as (tU & T14 & RU).
  apply emit_ok in H.
  split; [exact HM|]. exists tP, tD, tU. split; [|auto].
  rewrite H, T14, T13, H12, H11, H10, H9, T8, T7, T6, H5, HE, H2.
  unfold Zygote.child_sequence, identity_events. cbn [trace with_gMallocLeakZygoteChild].
  rewrite <- !app_assoc. reflexivity.
Qed.

(** A run of ForkAndSpecializeCommon that returns 0 is the child block,
    run to its end, in the process fork answered 0 in. *)
Lemma spawn_child_sequence (w w' : World) :
  ForkAndSpecializeCommon cfg E uid gid javaGids debug_flags javaRlimits
    permittedCapabilities effectiveCapabilities mount_external java_se_info java_se_name
    is_system_server w = Ok 0 w' ->
  mount_external = MOUNT_EXTERNAL_NONE /\
  exists t0 tP tD tU,
    trace w' = trace w ++ t0 ++ EvFork 0 :: child_sequence tP tD tU ++
                                [EvRuntime rt_DidForkFromZygote] /\
    Forall (fun e => quiet_ev e = true) t0 /\
    ran (personality_block cfg E) tP /\
    ran (EnableDebugFeatures cfg E (to_u32 debug_flags)) tD /\
    ran (UnsetSigChldHandler E) tU.
Proof.
  change (ForkAndSpecializeCommon cfg E uid gid javaGids debug_flags javaRlimits
            permittedCapabilities effectiveCapabilities mount_external java_se_info
            java_se_name is_system_server w)
    with (FASC cfg E uid gid javaGids debug_flags javaRlimits permittedCapabilities
            effectiveCapabilities mount_external java_se_info java_se_name
            is_system_server w).
  rewrite FASC_blocks. unfold bind at 1. cbn [get].
  destruct (rt_IsZygote w); cbn [negb]; [|discriminate].
  unfold bind at 1. cbn [ret]. unfold bind at 1. cbn [get].
  destruct (env_PreZygoteFork E w); cbn [negb]; [|discriminate].
  unfold bind at 1. cbn [ret]. unfold bind at 1.
  destruct (calm_SetSigChldHandler E w) as (_ & (t0 & T0 & F0) & _).
  destruct (SetSigChldHandler_total E w) as (w5 & R5). rewrite R5 in *.
  cbn [final_world] in T0. unfold bind at 1. unfold fork.
  destruct (env_fork E w5) as [|p|p early].
  - change (-1 =? 0) with false. cbv iota. unfold bind, ret. discriminate.
  - change (0 =? 0) with true. cbv iota. intros H.
    apply bind_ok in H as ([] & w7 & H7 & H8). injection H8 as <-.
    apply child_block_sequence in H7 as (HM & tP & tD & tU & T & RP & RD & RU).
    split; [exact HM|]. exists t0, tP, tD, tU. split; [|auto].
    rewrite T. cbn [trace with_trace]. rewrite T0, <- !app_assoc. reflexivity.
  - change (Z.pos p =? 0) with false. cbv iota. unfold bind, ret. discriminate.
Qed.

End Sequence.

(** * The claims about ForkAndSpecializeCommon *)

Section SpawnClaims.

Variable cfg : BuildConfig.
Variable E : Env.
Variables uid gid : Z.
Variable javaGids : option (list Z).
Variable debug_flags : Z.
Variable javaRlimits : option (list (list Z)).
Variables permittedCapabilities effectiveCapabilities : Z.
Variable mount_external : Z.
Variables java_se_info java_se_name : option string.
Variable is_system_server : bool.

Local Abbreviation spawn :=
  (ForkAndSpecializeCommon cfg E uid gid javaGids debug_flags javaRlimits
     permittedCapabilities effectiveCapabilities mount_external
     java_se_info java_se_name is_system_server).

Lemma spawn_shape (w : World) :
  trace (final_world (spawn w)) = trace w ++ run_trace spawn w /\
  Run cfg E uid gid javaRlimits permittedCapabilities effectiveCapabilities w
      (spawn w) (run_trace spawn w).
Proof.
  destruct (FASC_shape cfg E uid gid javaGids debug_flags javaRlimits
              permittedCapabilities effectiveCapabilities mount_external
              java_se_info java_se_name is_system_server w) as (t & T & R).
  unfold FASC in *. rewrite (run_trace_eq _ _ _ T). auto.
Qed.

(** C2. In every run of ForkAndSpecializeCommon, a setuid call is
    setuid(uid), the call just before it is a setgid(gid) that succeeded,
    and it is the only setuid call of the run: the child never changes its
    user id before its group id.  A child that comes back from the
    sequence has made both calls, in that order, and runs as gid and
    uid. *)
Theorem setgid_commits_before_setuid (w : World) :
  (forall pre u ok post,
      run_trace spawn w = pre ++ EvCall (sys_setuid u) ok :: post ->
      u = uid /\
      (exists before, pre = before ++ [EvCall (sys_setgid gid) true]) /\
      Forall (fun e => is_setuid e = false) pre /\
      Forall (fun e => is_setuid e = false) post) /\
  (forall w',
      spawn w = Ok 0 w' ->
      (exists before after,
          run_trace spawn w =
          before ++ EvCall (sys_setgid gid) true ::
                    EvCall (sys_setuid uid) true :: after) /\
      w_gid w' = gid /\ w_uid w' = uid).
Proof.
  destruct (spawn_shape w) as (_ & R). split.
  - intros pre u ok post Heq.
    destruct (Run_view_identity _ _ _ _ _ _ _ _ _ _ R)
      as [F | (A & ok' & B & HA & FAg & FAu & FAc & FBu & FBg)].
    + exfalso. eapply (no_split is_setuid); [exact F|exact Heq|reflexivity].
    + rewrite HA in Heq.
      assert (Heq' : (A ++ [EvCall (sys_setgid gid) true]) ++
                     EvCall (sys_setuid uid) ok' :: B =
                     pre ++ EvCall (sys_setuid u) ok :: post)
        by (rewrite <- app_assoc; exact Heq).
      apply (split_unique is_setuid) in Heq' as (-> & Hy & ->);
        [| absent_ev; assumption | assumption | reflexivity].
      injection Hy as -> ->. repeat split; eauto. absent_ev; assumption.
  - intros w' Hw. rewrite Hw in R.
    apply Run_done in R
      as (t0 & tA & tP & tB & -> & F0 & FA & FP & FB & WF & Hu & Hg & _).
    split; [|auto].
    exists ((t0 ++ EvFork 0 :: tA) ++ map (applied cfg true) (rows_of javaRlimits)).
    eexists. unfold identity_events. rewrite app_assoc. reflexivity.
Qed.

Lemma to_u32_small (x : Z) : 0 <= x < 2 ^ 32 -> to_u32 x = x.
Proof. intros H. unfold to_u32, to_unsigned. now apply Z.mod_small. Qed.

(** C1 (amended). In a build with HAVE_ANDROID_OS, whatever the target
    uid, a child that comes back from the sequence with a profile whose
    two bitmasks fit the 32-bit fields of the capability structure holds
    exactly those bitmasks as permitted and effective sets.  The run has
    exactly one capset call, for those bitmasks, it succeeded, and it
    comes after the successful setgid(gid) and setuid(uid); no identity
    call follows it.  In a build without HAVE_ANDROID_OS SetCapabilities
    is empty: no run makes a capset call. *)
Theorem capabilities_installed_after_identity (w : World) :
  (HAVE_ANDROID_OS cfg = true ->
   0 <= permittedCapabilities < 2 ^ 32 ->
   0 <= effectiveCapabilities < 2 ^ 32 ->
   forall w',
     spawn w = Ok 0 w' ->
     w_cap_permitted w' = permittedCapabilities /\
     w_cap_effective w' = effectiveCapabilities /\
     exists pre post,
       run_trace spawn w =
       pre ++ EvCall (sys_capset permittedCapabilities effectiveCapabilities) true
           :: post /\
       (exists a b, pre = a ++ EvCall (sys_setgid gid) true ::
                               EvCall (sys_setuid uid) true :: b) /\
       Forall (fun e => is_capset e = false) pre /\
       Forall (fun e => is_capset e = false) post /\
       Forall (fun e => is_setgid e = false) post /\
       Forall (fun e => is_setuid e = false) post) /\
  (HAVE_ANDROID_OS cfg = false ->
   Forall (fun e => is_capset e = false) (run_trace spawn w)).
Proof.
  destruct (spawn_shape w) as (_ & R). split.
  - intros HA HP HE w' Hw. rewrite Hw in R.
    apply Run_done in R
      as (t0 & tA & tP & tB & -> & F0 & FA & FP & FB & WF & Hu & Hg & Hc).
    destruct (Hc HA) as (Hp & He).
    rewrite (to_u32_small _ HP) in Hp. rewrite (to_u32_small _ HE) in He.
    split; [exact Hp|]. split; [exact He|].
    exists ((t0 ++ EvFork 0 :: tA) ++ map (applied cfg true) (rows_of javaRlimits) ++
            identity_events uid gid ++ tP), (tB ++ [EvRuntime rt_DidForkFromZygote]).
    split; [unfold caps_events; rewrite HA, (to_u32_small _ HP), (to_u32_small _ HE);
            now list_norm|].
    split.
    + exists ((t0 ++ EvFork 0 :: tA) ++ map (applied cfg true) (rows_of javaRlimits)), tP.
      unfold identity_events. now list_norm.
    + repeat split; absent_ev.
  - intros HA. apply Run_view_caps in R as [F | (HA' & _)]; [exact F|congruence].
Qed.


(** C7 (amended). A failure of the pre-fork quiescence step is fatal to
    the service itself: the zygote logs and aborts before it arms the
    handler or forks.  A failed fork is reported: the run returns -1 to
    its caller in the same process, which keeps its identity, its
    children and its registry. *)
Theorem quiescence_failure_aborts_fork_failure_returns (w : World) :
  (rt_IsZygote w = true -> env_PreZygoteFork E w = false ->
   spawn w = Halt Aborted (with_trace w (trace w ++ [EvLog FATAL MsgPreForkHeapFailed]))) /\
  (forall pre post,
      run_trace spawn w = pre ++ EvFork (-1) :: post ->
      exists w', spawn w = Ok (-1) w' /\ keeps w w' /\ post = []).
Proof.
  split.
  - intros HZ HQ. unfold ForkAndSpecializeCommon, bind, get, ret.
    rewrite HZ. cbv beta iota. cbn [negb]. cbv beta iota. rewrite HQ. reflexivity.
  - intros pre post Heq. destruct (spawn_shape w) as (_ & R).
    assert (Hy : is_process_event (EvFork (-1)) = true) by reflexivity.
    inversion R as [ | | w1 t0 ? F0 K | w1 t0 p ? F0 | r t0 tc ? F0 HC]; subst.
    + exfalso. eapply (no_split is_process_event); [|exact Heq|exact Hy].
      match goal with H : _ = run_trace _ _ |- _ => rewrite <- H end. absent_ev.
    + exfalso. eapply (no_split is_process_event); [|exact Heq|exact Hy].
      match goal with H : _ = run_trace _ _ |- _ => rewrite <- H end. absent_ev.
    + match goal with H : _ = run_trace _ _ |- _ => rewrite <- H in Heq end.
      apply (split_unique is_process_event) in Heq as (-> & _ & ->);
        [|absent_ev|absent_ev|exact Hy].
      exists w1. auto.
    + exfalso. match goal with H : _ = run_trace _ _ |- _ => rewrite <- H in Heq end.
      apply (split_unique is_process_event) in Heq as (_ & Hx & _);
        [|absent_ev|absent_ev|exact Hy]. discriminate.
    + exfalso. match goal with H : _ = run_trace _ _ |- _ => rewrite <- H in Heq end.
      apply (split_unique is_process_event) in Heq as (_ & Hx & _);
        [|absent_ev|eapply ChildRun_no_process_event; exact HC|exact Hy]. discriminate.
Qed.

(** What a child that went through the sequence holds, in a build that
    has capset. *)
Lemma completed_child_capabilities (w w' : World) :
  HAVE_ANDROID_OS cfg = true ->
  spawn w = Ok 0 w' ->
  w_cap_permitted w' = to_u32 permittedCapabilities /\
  w_cap_effective w' = to_u32 effectiveCapabilities /\
  In (EvCall (sys_capset (to_u32 permittedCapabilities)
                         (to_u32 effectiveCapabilities)) true)
     (run_trace spawn w).
Proof.
  intros HA Hw. destruct (spawn_shape w) as (_ & R). rewrite Hw in R.
  apply Run_done in R
    as (t0 & tA & tP & tB & -> & F0 & FA & FP & FB & WF & Hu & Hg & Hc).
  destruct (Hc HA) as (Hp & He). split; [exact Hp|]. split; [exact He|].
  unfold caps_events. rewrite HA. rewrite !in_app_iff.
  right. right. right. right. left. now left.
Qed.

(** C8. SetRLimits applies the rows in order and aborts the child at the
    first row that is malformed or that setrlimit refuses, leaving the
    later rows untouched.  In ForkAndSpecializeCommon, a child that comes
    back has applied every row, in order, before it changed its group id;
    and a setrlimit call that fails before the group id is changed is the
    last call of the run: the child aborts there, having applied only the
    rows before the one refused, and reaches neither setgid nor
    DidForkFromZygote.  (The setrlimit of RLIMIT_CORE that EnableDebugger
    makes after the identity change is not a row of the profile; its
    failure is only logged.) *)
Theorem rlimits_all_or_nothing (w : World) :
  (forall w0,
      match SetRLimits cfg E javaRlimits w0 with
      | Ok _ _ =>
          run_trace (SetRLimits cfg E javaRlimits) w0 =
          map (applied cfg true) (rows_of javaRlimits) /\
          Forall well_formed_row (rows_of javaRlimits)
      | Halt s _ =>
          s = Aborted /\
          exists done bad rest,
            rows_of javaRlimits = done ++ bad :: rest /\
            Forall well_formed_row done /\
            run_trace (SetRLimits cfg E javaRlimits) w0 =
            map (applied cfg true) done ++ rlimit_failure cfg bad
      end) /\
  (forall w',
      spawn w = Ok 0 w' ->
      Forall well_formed_row (rows_of javaRlimits) /\
      exists pre post,
        run_trace spawn w =
        pre ++ map (applied cfg true) (rows_of javaRlimits) ++
        EvCall (sys_setgid gid) true :: post /\
        Forall (fun e => is_setrlimit e = false) pre) /\
  (forall pre res cur max post,
      run_trace spawn w = pre ++ EvCall (sys_setrlimit res cur max) false :: post ->
      Forall (fun e => is_setgid e = false) pre ->
      exists w' done bad rest,
        spawn w = Halt Aborted w' /\
        rows_of javaRlimits = done ++ bad :: rest /\
        Forall well_formed_row done /\ well_formed_row bad /\
        EvCall (sys_setrlimit res cur max) false = applied cfg false bad /\
        (exists pre0, pre = pre0 ++ map (applied cfg true) done /\
                      Forall (fun e => is_setrlimit e = false) pre0) /\
        post = [EvLog FATAL (MsgSetrlimitFailed res cur max)]).
Proof.
  split; [|split].
  - intros w0.
    destruct (SetRLimits_spec cfg E javaRlimits w0)
      as [(w1 & R & K & T & WF) | (done & bad & rest & w1 & Hr & R & K & WF & T)].
    + assert (RT : run_trace (SetRLimits cfg E javaRlimits) w0 =
                   map (applied cfg true) (rows_of javaRlimits))
        by (apply run_trace_eq; rewrite R; exact T).
      rewrite R. auto.
    + assert (RT : run_trace (SetRLimits cfg E javaRlimits) w0 =
                   map (applied cfg true) done ++ rlimit_failure cfg bad)
        by (apply run_trace_eq; rewrite R; exact T).
      rewrite R. split; [reflexivity|]. exists done, bad, rest. auto.
  - intros w' Hw. destruct (spawn_shape w) as (_ & R). rewrite Hw in R.
    apply Run_done in R
      as (t0 & tA & tP & tB & -> & F0 & FA & FP & FB & WF & Hu & Hg & Hc).
    split; [exact WF|].
    exists (t0 ++ EvFork 0 :: tA). eexists. split.
    + unfold identity_events. cbn [app]. reflexivity.
    + absent_ev.
  - intros pre res cur max post Heq Hpre. destruct (spawn_shape w) as (_ & R).
    exact (Run_view_rlimit_failure _ _ _ _ _ _ _ _ _ _ R _ _ _ _ _ Heq Hpre).
Qed.

End SpawnClaims.

(** The singleton variant comes back with 0 only where the common path
    did. *)
Lemma ForkSystemServer_child (cfg : BuildConfig) (E : Env) (uid gid : Z)
    (gids : option (list Z)) (debug_flags : Z) (rlimits : option (list (list Z)))
    (permittedCapabilities effectiveCapabilities : Z) (w w' : World) :
  Zygote_nativeForkSystemServer cfg E uid gid gids debug_flags rlimits
    permittedCapabilities effectiveCapabilities w = Ok 0 w' ->
  ForkAndSpecializeCommon cfg E uid gid gids debug_flags rlimits
    permittedCapabilities effectiveCapabilities MOUNT_EXTERNAL_NONE None None true w
  = Ok 0 w'.
Proof.
  unfold Zygote_nativeForkSystemServer. rewrite bind_eq.
  destruct (ForkAndSpecializeCommon _ _ _ _ _ _ _ _ _ _ _ _ _ w) as [pid w1|s w1];
    [|discriminate].
  rewrite bind_eq. unfold ret.
  match goal with |- match ?X with Ok _ _ => _ | Halt _ _ => _ end = _ -> _ =>
    destruct X as [[] w2|s w2] eqn:HX end; [|discriminate].
  intros H. injection H as -> ->.
  change (0 <? 0) with false in HX. cbv iota in HX. now injection HX as ->.
Qed.

(** C10 (amended). An application spawn is the common path with both
    capability bitmasks 0.  Every capset call of such a run is
    capset(0, 0).  In a build with HAVE_ANDROID_OS, an application child
    that comes back from the sequence made that call and holds empty
    permitted and effective sets.  The singleton variant hands its two
    bitmasks on: in such a build its child ends with their low 32 bits.
    In a build without HAVE_ANDROID_OS an application spawn makes no
    capset call at all. *)
Theorem application_spawn_requests_no_capability
    (cfg : BuildConfig) (E : Env) (uid gid : Z) (gids : option (list Z))
    (debug_flags : Z) (rlimits : option (list (list Z))) (mount_external : Z)
    (se_info se_name : option string) (w : World) :
  Zygote_nativeForkAndSpecialize cfg E uid gid gids debug_flags rlimits
    mount_external se_info se_name =
  ForkAndSpecializeCommon cfg E (to_u32 uid) (to_u32 gid) gids debug_flags rlimits
    0 0 mount_external se_info se_name false /\
  (forall p e ok,
      In (EvCall (sys_capset p e) ok)
         (run_trace (Zygote_nativeForkAndSpecialize cfg E uid gid gids debug_flags
                       rlimits mount_external se_info se_name) w) ->
      p = 0 /\ e = 0) /\
  (HAVE_ANDROID_OS cfg = true ->
   forall w',
     Zygote_nativeForkAndSpecialize cfg E uid gid gids debug_flags rlimits
       mount_external se_info se_name w = Ok 0 w' ->
     w_cap_permitted w' = 0 /\ w_cap_effective w' = 0 /\
     In (EvCall (sys_capset 0 0) true)
        (run_trace (Zygote_nativeForkAndSpecialize cfg E uid gid gids debug_flags
                      rlimits mount_external se_info se_name) w)) /\
  (HAVE_ANDROID_OS cfg = true ->
   forall permittedCapabilities effectiveCapabilities w',
     Zygote_nativeForkSystemServer cfg E uid gid gids debug_flags rlimits
       permittedCapabilities effectiveCapabilities w = Ok 0 w' ->
     w_cap_permitted w' = to_u32 permittedCapabilities /\
     w_cap_effective w' = to_u32 effectiveCapabilities) /\
  (HAVE_ANDROID_OS cfg = false ->
   Forall (fun e => is_capset e = false)
     (run_trace (Zygote_nativeForkAndSpecialize cfg E uid gid gids debug_flags
                   rlimits mount_external se_info se_name) w)).
Proof.
  split; [reflexivity|]. unfold Zygote_nativeForkAndSpecialize. split; [|split; [|split]].
  - intros p e ok Hin.
    destruct (spawn_shape cfg E (to_u32 uid) (to_u32 gid) gids debug_flags rlimits
                0 0 mount_external se_info se_name false w) as (_ & R).
    apply Run_view_caps in R as [F | (_ & A & ok' & B & Ht & FA & FB)].
    + rewrite Forall_forall in F. apply F in Hin. discriminate.
    + rewrite Ht in Hin. apply in_app_iff in Hin as [Hin|[Hin|Hin]].
      * rewrite Forall_forall in FA. apply FA in Hin. discriminate.
      * injection Hin as <- <- _. split; reflexivity.
      * rewrite Forall_forall in FB. apply FB in Hin. discriminate.
  - intros HA w' Hw.
    exact (completed_child_capabilities cfg E (to_u32 uid) (to_u32 gid)
             gids debug_flags rlimits 0 0 mount_external se_info se_name false
             w w' HA Hw).
  - intros HA p e w' Hw. apply ForkSystemServer_child in Hw.
    destruct (completed_child_capabilities _ _ _ _ _ _ _ _ _ _ _ _ _
                w w' HA Hw) as (Hp & He & _).
    auto.
  - intros HA.
    destruct (spawn_shape cfg E (to_u32 uid) (to_u32 gid) gids debug_flags rlimits
                0 0 mount_external se_info se_name false w) as (_ & R).
    apply Run_view_caps in R as [F | (HA' & _)]; [exact F|congruence].
Qed.

(** * The SIGCHLD handler *)

Lemma with_trace_id (w : World) : with_trace w (trace w) = w.
Proof. destruct w; reflexivity. Qed.

Lemma logs_only_ret : logs_only (ret tt).
Proof.
  intros w. exists []. rewrite app_nil_r, with_trace_id. split; [reflexivity|constructor].
Qed.

Lemma logs_only_LOG (sev : Severity) (m : Msg) : sev <> FATAL -> logs_only (LOG sev m).
Proof.
  intros H w. exists [EvLog sev m]. split; [|repeat constructor].
  destruct sev; try reflexivity. congruence.
Qed.

Lemma logs_only_bind (m1 m2 : M unit) :
  logs_only m1 -> logs_only m2 -> logs_only (m1 ;; m2).
Proof.
  intros H1 H2 w. rewrite bind_eq.
  destruct (H1 w) as (l1 & -> & F1).
  destruct (H2 (with_trace w (trace w ++ l1))) as (l2 & -> & F2).
  exists (l1 ++ l2). split; [|now apply Forall_app].
  cbn [trace with_trace]. unfold with_trace at 1. cbn. now rewrite app_assoc.
Qed.

Section Handler.

Variable cfg : BuildConfig.

(** The part of the loop body that classifies the exit status. *)
Lemma classification_logs_only (pid status : Z) :
  logs_only
    (if WIFEXITED status then
       if negb (WEXITSTATUS status =? 0)
       then LOG INFO (MsgExitedCleanly pid (WEXITSTATUS status))
       else ret tt
     else if WIFSIGNALED status then
       (if negb (WTERMSIG status =? SIGKILL)
        then LOG INFO (MsgTerminatedBySignal pid (WTERMSIG status))
        else ret tt) ;;
       when (has_WCOREDUMP cfg && WCOREDUMP status) (LOG INFO (MsgDumpedCore pid))
     else ret tt).
Proof.
  destruct (WIFEXITED status).
  - destruct (negb _); [apply logs_only_LOG; discriminate|apply logs_only_ret].
  - destruct (WIFSIGNALED status); [|apply logs_only_ret].
    apply logs_only_bind.
    + destruct (negb _); [apply logs_only_LOG; discriminate|apply logs_only_ret].
    + unfold when. destruct (_ && _); [apply logs_only_LOG; discriminate|apply logs_only_ret].
Qed.

(** One turn of the loop: log lines, and the kill when the child just
    reaped is the registered one. *)
Lemma SigChldHandler_body_cases (pid status : Z) (w : World) :
  exists logs,
    Forall (fun e => is_log e = true) logs /\
    SigChldHandler_body cfg pid status w =
    if pid =? gSystemServerPid w
    then Halt Killed (with_trace w (trace w ++ logs ++
                        [EvLog ERROR (MsgExitZygote pid); EvKill (w_pid w) SIGKILL]))
    else Ok tt (with_trace w (trace w ++ logs)).
Proof.
  unfold SigChldHandler_body. rewrite bind_eq.
  destruct (classification_logs_only pid status w) as (logs & -> & F).
  exists logs. split; [exact F|].
  rewrite bind_eq. cbn [get gSystemServerPid with_trace].
  destruct (pid =? gSystemServerPid w); [|reflexivity].
  unfold LOG, kill, getpid, emit, modify, get, ret, halt, bind. cbn.
  rewrite Z.eqb_refl. cbn. now rewrite <- !app_assoc.
Qed.

Lemma reaped_pids_app (a b : list Event) :
  reaped_pids (a ++ b) = reaped_pids a ++ reaped_pids b.
Proof.
  induction a as [|e a IH]; [reflexivity|].
  destruct e as [| |? r ?| | | | |]; cbn [app reaped_pids]; auto.
  destruct (0 <? r); cbn [app]; now rewrite IH.
Qed.

Lemma reaped_pids_logs (logs : list Event) :
  Forall (fun e => is_log e = true) logs -> reaped_pids logs = [].
Proof.
  induction 1 as [|e l He _ IH]; [reflexivity|].
  destruct e; try discriminate. exact IH.
Qed.

Lemma logs_no_kill (logs : list Event) :
  Forall (fun e => is_log e = true) logs -> Forall (fun e => is_kill e = false) logs.
Proof. apply Forall_impl. intros [] H; try discriminate; reflexivity. Qed.

(** One turn of the loop when a terminated child is waiting. *)
Lemma loop_step (n : nat) (w : World) (p st : Z) (rest : list (Z * Z)) :
  w_zombies w = (p, st) :: rest -> 0 < p ->
  exists logs,
    Forall (fun e => is_log e = true) logs /\
    SigChldHandler_loop cfg (S n) w =
    if p =? gSystemServerPid w
    then Halt Killed
           (with_trace (with_children w (w_pid w) rest (w_live w))
              (trace w ++ EvWaitpid (-1) p st :: logs ++
               [EvLog ERROR (MsgExitZygote p); EvKill (w_pid w) SIGKILL]))
    else SigChldHandler_loop cfg n
           (with_trace (with_children w (w_pid w) rest (w_live w))
              (trace w ++ EvWaitpid (-1) p st :: logs)).
Proof.
  intros Hz Hp. cbn [SigChldHandler_loop]. rewrite bind_eq.
  unfold waitpid_WNOHANG. rewrite Hz. change (-1 =? -1) with true. cbv beta iota zeta.
  apply Z.ltb_lt in Hp. rewrite Hp. rewrite bind_eq.
  match goal with |- context [SigChldHandler_body cfg p st ?w1] =>
    destruct (SigChldHandler_body_cases p st w1) as (logs & F & ->) end.
  exists logs. split; [exact F|].
  cbn [gSystemServerPid with_trace with_children w_pid trace].
  destruct (p =? gSystemServerPid w).
  - f_equal. unfold with_trace, with_children. cbn. now rewrite <- app_assoc.
  - f_equal. unfold with_trace, with_children. cbn. now rewrite <- app_assoc.
Qed.

(** The last turn of the loop: no terminated child is left. *)
Lemma loop_end (n : nat) (w : World) :
  w_zombies w = [] ->
  SigChldHandler_loop cfg (S n) w =
  let r := if negb (length (w_live w) =? 0)%nat then 0 else -1 in
  Ok r (with_trace w (trace w ++ [EvWaitpid (-1) r 0])).
Proof.
  intros Hz. cbn [SigChldHandler_loop]. rewrite bind_eq.
  unfold waitpid_WNOHANG. rewrite Hz. change (-1 =? -1) with true. cbv beta iota zeta.
  destruct (negb _); cbn; unfold ret; do 2 f_equal; destruct w; cbn in *; now subst.
Qed.

(** With the registered child not among them, the loop reaps every
    terminated child, once each and in order, and kills nothing. *)
Lemma loop_drains (zs : list (Z * Z)) : forall (n : nat) (w : World),
  w_zombies w = zs -> (length zs < n)%nat ->
  Forall (other_child (gSystemServerPid w)) zs ->
  exists r w' t,
    SigChldHandler_loop cfg n w = Ok r w' /\ r <= 0 /\
    (r < 0 <-> w_live w = []) /\
    w_zombies w' = [] /\ w_live w' = w_live w /\
    gSystemServerPid w' = gSystemServerPid w /\ w_pid w' = w_pid w /\
    trace w' = trace w ++ t /\ reaped_pids t = map fst zs /\
    Forall (fun e => is_kill e = false) t.
Proof.
  induction zs as [|[p st] zs IH]; intros n w Hz Hn HF;
    (destruct n as [|n]; [cbn in Hn; lia|]).
  - rewrite (loop_end n w Hz). cbv zeta.
    destruct (w_live w) eqn:HL; cbn [length Nat.eqb negb];
      (eexists _, _, [_]; split; [reflexivity|]);
      cbn; rewrite ?HL; repeat split; auto; try lia; try discriminate;
      repeat constructor.
  - apply Forall_cons_iff in HF as [[Hp Hne] HF]. cbn [fst] in *.
    destruct (loop_step n w p st zs Hz Hp) as (logs & FL & ->).
    apply Z.eqb_neq in Hne. rewrite Hne.
    match goal with |- context [SigChldHandler_loop cfg n ?w1] =>
      destruct (IH n w1) as (r & w' & t & R & Hr & Hlive & Hz' & Hl' & Hs' & Hp' & T & RP & NK)
    end; [reflexivity|cbn in Hn; lia|exact HF|].
    exists r, w', (EvWaitpid (-1) p st :: logs ++ t).
    split; [exact R|]. repeat split; auto; try (apply Hlive; assumption).
    + rewrite T. cbn. rewrite <- app_assoc. reflexivity.
    + cbn [reaped_pids]. apply Z.ltb_lt in Hp. rewrite Hp.
      rewrite reaped_pids_app, (reaped_pids_logs _ FL), RP. reflexivity.
    + constructor; [reflexivity|]. apply Forall_app. split; [now apply logs_no_kill|exact NK].
Qed.

(** With the registered child among them, the loop stops at it: it kills
    the process once and reaps nothing further. *)
Lemma loop_kills (l1 : list (Z * Z)) : forall (n : nat) (w : World) p st l2,
  w_zombies w = l1 ++ (p, st) :: l2 -> (length l1 < n)%nat ->
  Forall (other_child (gSystemServerPid w)) l1 ->
  p = gSystemServerPid w -> 0 < p ->
  exists w' t1,
    SigChldHandler_loop cfg n w = Halt Killed w' /\
    w_zombies w' = l2 /\ w_live w' = w_live w /\
    trace w' = trace w ++ t1 ++ [EvKill (w_pid w) SIGKILL] /\
    reaped_pids t1 = map fst l1 ++ [p] /\
    Forall (fun e => is_kill e = false) t1.
Proof.
  induction l1 as [|[q sq] l1 IH]; intros n w p st l2 Hz Hn HF Hs Hp;
    (destruct n as [|n]; [cbn in Hn; lia|]).
  - destruct (loop_step n w p st l2 Hz Hp) as (logs & FL & ->).
    rewrite <- Hs, Z.eqb_refl.
    eexists. exists (EvWaitpid (-1) p st :: logs ++ [EvLog ERROR (MsgExitZygote p)]).
    split; [reflexivity|]. repeat split.
    + cbn. now rewrite <- app_assoc.
    + cbn [reaped_pids]. apply Z.ltb_lt in Hp. rewrite Hp.
      rewrite reaped_pids_app, (reaped_pids_logs _ FL). reflexivity.
    + constructor; [reflexivity|]. apply Forall_app. split; [now apply logs_no_kill|].
      repeat constructor.
  - apply Forall_cons_iff in HF as [[Hq Hne] HF]. cbn [fst] in *.
    destruct (loop_step n w q sq (l1 ++ (p, st) :: l2) Hz Hq) as (logs & FL & ->).
    apply Z.eqb_neq in Hne. rewrite Hne.
    match goal with |- context [SigChldHandler_loop cfg n ?w1] =>
      destruct (IH n w1 p st l2) as (w' & t1 & R & Hz' & Hl' & T & RP & NK)
    end; [reflexivity|cbn in Hn; lia|exact HF|exact Hs|exact Hp|].
    exists w', (EvWaitpid (-1) q sq :: logs ++ t1).
    split; [exact R|]. repeat split; auto.
    + rewrite T. cbn. rewrite <- !app_assoc. reflexivity.
    + cbn [reaped_pids]. apply Z.ltb_lt in Hq. rewrite Hq.
      rewrite reaped_pids_app, (reaped_pids_logs _ FL), RP. reflexivity.
    + constructor; [reflexivity|]. apply Forall_app. split; [now apply logs_no_kill|exact NK].
Qed.

(** A turn of the loop on a child table whose first entry has no valid
    pid: waitpid hands it back and the loop ends. *)
Lemma loop_stop (n : nat) (w : World) (p st : Z) (rest : list (Z * Z)) :
  w_zombies w = (p, st) :: rest -> p <= 0 ->
  SigChldHandler_loop cfg (S n) w =
  Ok p (with_trace (with_children w (w_pid w) rest (w_live w))
          (trace w ++ [EvWaitpid (-1) p st])).
Proof.
  intros Hz Hp. cbn [SigChldHandler_loop]. rewrite bind_eq.
  unfold waitpid_WNOHANG. rewrite Hz. change (-1 =? -1) with true. cbv beta iota zeta.
  assert (H : (0 <? p) = false) by (apply Z.ltb_ge; exact Hp). rewrite H. reflexivity.
Qed.

(** Whatever the child table holds, a run of the loop either kills
    nothing and never reaps the registered child, or ends on the one kill
    it sends to the process itself. *)
Lemma loop_trace (n : nat) : forall w : World,
  exists t,
    trace (final_world (SigChldHandler_loop cfg n w)) = trace w ++ t /\
    (((forall w', SigChldHandler_loop cfg n w <> Halt Killed w') /\
      Forall (fun e => is_kill e = false) t /\
      (forall st, 0 < gSystemServerPid w ->
                  ~ In (EvWaitpid (-1) (gSystemServerPid w) st) t)) \/
     (exists w' t1,
         SigChldHandler_loop cfg n w = Halt Killed w' /\
         t = t1 ++ [EvKill (w_pid w) SIGKILL] /\
         Forall (fun e => is_kill e = false) t1)).
Proof.
  induction n as [|n IH]; intros w.
  - exists []. rewrite app_nil_r. split; [reflexivity|]. left.
    repeat split; [discriminate|constructor|intros st _ []].
  - destruct (w_zombies w) as [|[p st] rest] eqn:Hz.
    + rewrite (loop_end n w Hz). cbv zeta. eexists. split; [reflexivity|]. left.
      repeat split; [discriminate|repeat constructor|].
      intros st' Hs [Hin|[]]. injection Hin as Hr _.
      destruct (negb _); lia.
    + destruct (Z_lt_le_dec 0 p) as [Hp|Hp].
      * destruct (loop_step n w p st rest Hz Hp) as (logs & FL & ->).
        destruct (p =? gSystemServerPid w) eqn:Hs.
        -- eexists. split; [reflexivity|]. right.
           eexists. exists (EvWaitpid (-1) p st :: logs ++ [EvLog ERROR (MsgExitZygote p)]).
           split; [reflexivity|]. split; [cbn; now rewrite <- app_assoc|].
           constructor; [reflexivity|]. apply Forall_app.
           split; [now apply logs_no_kill|repeat constructor].
        -- match goal with |- context [SigChldHandler_loop cfg n ?w1] =>
             destruct (IH w1) as (t & T & [(NK & FK & NR) | (w' & t1 & R & Ht & FK)])
           end.
           ++ exists (EvWaitpid (-1) p st :: logs ++ t).
              split; [rewrite T; cbn; now rewrite <- app_assoc|]. left.
              split; [exact NK|]. split.
              ** constructor; [reflexivity|]. apply Forall_app.
                 split; [now apply logs_no_kill|exact FK].
              ** intros st' Hpos [Hin|Hin].
                 { injection Hin as Hr _. apply Z.eqb_neq in Hs. congruence. }
                 apply in_app_iff in Hin as [Hin|Hin].
                 { rewrite Forall_forall in FL. apply FL in Hin. discriminate. }
                 exact (NR st' Hpos Hin).
           ++ exists (EvWaitpid (-1) p st :: logs ++ t).
              split; [rewrite T; cbn; now rewrite <- app_assoc|]. right.
              exists w', (EvWaitpid (-1) p st :: logs ++ t1).
              split; [exact R|]. split; [rewrite Ht; cbn; now rewrite <- app_assoc|].
              constructor; [reflexivity|]. apply Forall_app.
              split; [now apply logs_no_kill|exact FK].
      * rewrite (loop_stop n w p st rest Hz Hp). eexists. split; [reflexivity|]. left.
        repeat split; [discriminate|repeat constructor|].
        intros st' Hs [Hin|[]]. injection Hin as Hr _. lia.
Qed.

(** The fuel SigChldHandler gives its loop is never used up: every turn
    that goes on has reaped a child. *)
Lemma loop_fuel (n : nat) : forall (w : World) (w' : World),
  (length (w_zombies w) < n)%nat ->
  SigChldHandler_loop cfg n w <> Halt OutOfFuel w'.
Proof.
  induction n as [|n IH]; intros w w' Hn; [lia|].
  destruct (w_zombies w) as [|[p st] rest] eqn:Hz.
  - rewrite (loop_end n w Hz). discriminate.
  - destruct (Z_lt_le_dec 0 p) as [Hp|Hp].
    + destruct (loop_step n w p st rest Hz Hp) as (logs & _ & ->).
      destruct (p =? gSystemServerPid w); [discriminate|].
      apply IH. cbn in *. lia.
    + rewrite (loop_stop n w p st rest Hz Hp). discriminate.
Qed.

Lemma SigChldHandler_terminates (w w' : World) :
  SigChldHandler cfg w <> Halt OutOfFuel w'.
Proof.
  unfold SigChldHandler, bind, get. cbv beta iota.
  pose proof (fun w0 => loop_fuel (S (length (w_zombies w))) w w0 (Nat.lt_succ_diag_r _)) as H.
  destruct (SigChldHandler_loop cfg _ w) as [pid w1|s w1].
  - destruct (pid <? 0); discriminate.
  - intros Heq. injection Heq as -> ->. exact (H w' eq_refl).
Qed.

Lemma SigChldHandler_eq (w : World) :
  SigChldHandler cfg w =
  match SigChldHandler_loop cfg (S (length (w_zombies w))) w with
  | Ok pid w' => (if pid <? 0 then LOG WARNING MsgWaitpidError else ret tt) w'
  | Halt s w' => Halt s w'
  end.
Proof. reflexivity. Qed.

(** C3. Whenever a run of SigChldHandler reaps the pid held in
    gSystemServerPid, the handler sends SIGKILL to its own process: the
    run ends there, killed, and that kill is the only one of the run,
    however many other children were reaped before it.  This is what
    happens whenever the registered child is among the terminated ones
    and the drain gets to it; the children after it are left unreaped. *)
Theorem singleton_death_kills_service_once (w : World) :
  (forall st,
      0 < gSystemServerPid w ->
      In (EvWaitpid (-1) (gSystemServerPid w) st) (run_trace (SigChldHandler cfg) w) ->
      exists w' t1,
        SigChldHandler cfg w = Halt Killed w' /\
        run_trace (SigChldHandler cfg) w = t1 ++ [EvKill (w_pid w) SIGKILL] /\
        Forall (fun e => is_kill e = false) t1) /\
  (forall l1 p st l2,
      w_zombies w = l1 ++ (p, st) :: l2 ->
      p = gSystemServerPid w -> 0 < p ->
      Forall (other_child (gSystemServerPid w)) l1 ->
      exists w' t1,
        SigChldHandler cfg w = Halt Killed w' /\
        run_trace (SigChldHandler cfg) w = t1 ++ [EvKill (w_pid w) SIGKILL] /\
        Forall (fun e => is_kill e = false) t1 /\
        reaped_pids t1 = map fst l1 ++ [p] /\
        w_zombies w' = l2).
Proof.
  split.
  - intros st Hpos Hin.
    destruct (loop_trace (S (length (w_zombies w))) w)
      as (t & T & [(NK & FK & NR) | (w' & t1 & R & Ht & FK)]).
    + exfalso. revert Hin. unfold run_trace. rewrite SigChldHandler_eq.
      destruct (SigChldHandler_loop cfg _ w) as [pid w1|s w1]; cbn [final_world] in *.
      * destruct (pid <? 0); cbn; rewrite T, <- ?app_assoc, skipn_app_exact.
        -- intros Hin. apply in_app_iff in Hin as [Hin|[Hin|[]]]; [|discriminate].
           exact (NR st Hpos Hin).
        -- exact (NR st Hpos).
      * rewrite T, skipn_app_exact. exact (NR st Hpos).
    + exists w', t1. rewrite <- Ht. split; [|split; [|exact FK]].
      * rewrite SigChldHandler_eq, R. reflexivity.
      * apply run_trace_eq. rewrite SigChldHandler_eq. rewrite R in *. exact T.
  - intros l1 p st l2 Hz Hs Hp HF.
    destruct (loop_kills l1 (S (length (w_zombies w))) w p st l2 Hz)
      as (w' & t1 & R & Hz' & _ & T & RP & FK); auto.
    { rewrite Hz, length_app. cbn. lia. }
    exists w', t1. repeat split; auto.
    + rewrite SigChldHandler_eq, R. reflexivity.
    + apply run_trace_eq. rewrite SigChldHandler_eq, R. exact T.
Qed.

(** C5 (amended). With every terminated child carrying a valid pid, one
    run of SigChldHandler that does not meet the registered child reaps
    all of them, each once and in the order waitpid hands them back,
    leaves none behind and leaves the running children alone.  When the
    registered child is among them the drain stops at it: the children
    before it and the registered child are reaped, the process is killed,
    and those after it stay unreaped. *)
Theorem handler_drains_terminated_children (w : World) :
  Forall (fun z => 0 < fst z) (w_zombies w) ->
  (Forall (fun z => fst z <> gSystemServerPid w) (w_zombies w) ->
   exists w',
     SigChldHandler cfg w = Ok tt w' /\
     w_zombies w' = [] /\ w_live w' = w_live w /\
     reaped_pids (run_trace (SigChldHandler cfg) w) = map fst (w_zombies w)) /\
  (forall l1 p st l2,
      w_zombies w = l1 ++ (p, st) :: l2 ->
      p = gSystemServerPid w ->
      Forall (fun z => fst z <> gSystemServerPid w) l1 ->
      exists w',
        SigChldHandler cfg w = Halt Killed w' /\
        w_zombies w' = l2 /\
        reaped_pids (run_trace (SigChldHandler cfg) w) = map fst l1 ++ [p]).
Proof.
  intros Hpos. split.
  - intros Hne.
    destruct (loop_drains (w_zombies w) (S (length (w_zombies w))) w eq_refl)
      as (r & w' & t & R & Hr & _ & Hz' & Hl' & _ & _ & T & RP & _); [lia| |].
    { rewrite Forall_forall in *. intros z Hz. split; auto. }
    assert (Hres : exists w'' extra,
               SigChldHandler cfg w = Ok tt w'' /\
               w_zombies w'' = [] /\ w_live w'' = w_live w /\
               trace w'' = trace w ++ t ++ extra /\ reaped_pids extra = []).
    { rewrite SigChldHandler_eq, R. destruct (r <? 0).
      - eexists. exists [EvLog WARNING MsgWaitpidError]. split; [reflexivity|].
        cbn. rewrite T, <- app_assoc. auto.
      - exists w', []. rewrite app_nil_r. auto. }
    destruct Hres as (w'' & extra & Rh & Hz'' & Hl'' & T'' & RE).
    exists w''. repeat split; auto.
    rewrite (run_trace_eq _ _ (t ++ extra)); [|rewrite Rh; exact T''].
    rewrite reaped_pids_app, RP, RE. now rewrite app_nil_r.
  - intros l1 p st l2 Hz Hs Hne.
    assert (Hp : 0 < p).
    { rewrite Hz in Hpos. apply Forall_app in Hpos as [_ Hpos].
      apply Forall_cons_iff in Hpos as [Hp _]. exact Hp. }
    destruct (loop_kills l1 (S (length (w_zombies w))) w p st l2 Hz)
      as (w' & t1 & R & Hz' & _ & T & RP & _); auto.
    { rewrite Hz, length_app. cbn. lia. }
    { rewrite Hz in Hpos. apply Forall_app in Hpos as [Hpos _].
      rewrite Forall_forall in *. intros z Hin. split; auto. }
    exists w'. repeat split; auto.
    + rewrite SigChldHandler_eq, R. reflexivity.
    + rewrite (run_trace_eq _ _ (t1 ++ [EvKill (w_pid w) SIGKILL]));
        [|rewrite SigChldHandler_eq, R; exact T].
      rewrite reaped_pids_app, RP. cbn. now rewrite app_nil_r.
Qed.

End Handler.

(** * The shell and the system server *)

(** C9 (amended). Zygote_nativeExecShell with a command never comes back
    to its caller.  It logs one INFO line with the argument vector and
    calls execv on the shell: when execv succeeds the image of the process
    is replaced and nothing else happened; when it fails the process exits
    with status 127, and nothing else happened.  Apart from the trace the
    world is left as it was. *)
Theorem exec_shell_replaces_image_or_exits_127
    (cfg : BuildConfig) (E : Env) (command : string) (w : World) :
  let argp := [PATH_BSHELL cfg; "-c"%string; command] in
  let logged := with_trace w (trace w ++ [EvLog INFO (MsgExec argp)]) in
  (env_ok E logged (sys_execv (PATH_BSHELL cfg) argp) = true ->
   Zygote_nativeExecShell cfg E (Some command) w =
   Halt ImageReplaced
     (with_trace w (trace w ++ [EvLog INFO (MsgExec argp);
                                EvCall (sys_execv (PATH_BSHELL cfg) argp) true]))) /\
  (env_ok E logged (sys_execv (PATH_BSHELL cfg) argp) = false ->
   Zygote_nativeExecShell cfg E (Some command) w =
   Halt (Exited 127)
     (with_trace w (trace w ++ [EvLog INFO (MsgExec argp);
                                EvCall (sys_execv (PATH_BSHELL cfg) argp) false;
                                EvExit 127]))) /\
  (forall a w', Zygote_nativeExecShell cfg E (Some command) w <> Ok a w').
Proof.
  cbv zeta. unfold Zygote_nativeExecShell, execv, exit, LOG, emit, modify, syscall,
    halt, ret, bind. cbv beta iota.
  destruct (env_ok E _ _); cbn [kernel_effect with_trace trace]; repeat split;
    try discriminate; intros _; f_equal; unfold with_trace; cbn;
    now rewrite <- !app_assoc.
Qed.

Lemma find_child_spec (pid : Z) (zs : list (Z * Z)) :
  match find (fun z => fst z =? pid) zs with
  | Some (p, _) => p = pid /\ In pid (map fst zs)
  | None => ~ In pid (map fst zs)
  end.
Proof.
  induction zs as [|[q s] zs IH]; cbn [find map fst]; [tauto|].
  destruct (q =? pid) eqn:Hq.
  - apply Z.eqb_eq in Hq. split; [exact Hq|now left].
  - apply Z.eqb_neq in Hq. destruct (find _ zs) as [[p s']|].
    + destruct IH. split; [assumption|now right].
    + intros [H|H]; auto.
Qed.

(** The whole run of the common path in the parent: the handler is
    armed, with a warning when sigaction refuses, and fork answers. *)
Lemma parent_run_trace (cfg : BuildConfig) (E : Env) (uid gid : Z)
    (gids : option (list Z)) (debug_flags : Z) (rlimits : option (list (list Z)))
    (permittedCapabilities effectiveCapabilities mount_external : Z)
    (se_info se_name : option string) (is_system_server : bool)
    (w w1 : World) (pid : Z) :
  ForkAndSpecializeCommon cfg E uid gid gids debug_flags rlimits
    permittedCapabilities effectiveCapabilities mount_external se_info se_name
    is_system_server w = Ok pid w1 ->
  0 < pid ->
  exists ok,
    trace w1 =
    trace w ++
    EvCall (sys_sigaction_SIGCHLD Handler_SigChldHandler) ok ::
    (if ok then [] else [EvLog WARNING MsgSetSigChldError]) ++ [EvFork pid].
Proof.
  change (ForkAndSpecializeCommon cfg E uid gid gids debug_flags rlimits
            permittedCapabilities effectiveCapabilities mount_external se_info se_name
            is_system_server w)
    with (FASC cfg E uid gid gids debug_flags rlimits permittedCapabilities
            effectiveCapabilities mount_external se_info se_name is_system_server w).
  rewrite FASC_blocks. unfold bind at 1. cbn [get].
  destruct (rt_IsZygote w); cbn [negb]; [|discriminate].
  unfold bind at 1. cbn [ret]. unfold bind at 1. cbn [get].
  destruct (env_PreZygoteFork E w); cbn [negb]; [|discriminate].
  unfold bind at 1. cbn [ret]. unfold bind at 1.
  assert (Arm : exists ok w0,
            SetSigChldHandler E w = Ok tt w0 /\
            trace w0 = trace w ++
                       EvCall (sys_sigaction_SIGCHLD Handler_SigChldHandler) ok ::
                       (if ok then [] else [EvLog WARNING MsgSetSigChldError])).
  { unfold SetSigChldHandler, sigaction_SIGCHLD, syscall, LOG, emit, modify, ret, bind.
    cbv beta iota. destruct (env_ok E w _); cbn [rc_of kernel_effect];
      [exists true|exists false]; eexists; (split; [reflexivity|]); cbn;
      rewrite <- ?app_assoc; reflexivity. }
  destruct Arm as (ok & w0 & -> & T0).
  unfold bind at 1. unfold fork.
  destruct (env_fork E w0) as [|p|p early].
  - change (-1 =? 0) with false. cbv iota. unfold bind, ret.
    intros H. injection H as <- _. lia.
  - change (0 =? 0) with true. cbv iota. unfold bind at 1.
    match goal with |- context [match ?r with Ok _ _ => _ | Halt _ _ => _ end] =>
      destruct r as [[] w3|s w3] end; [|discriminate].
    unfold bind, ret. intros H. injection H as <- _. lia.
  - change (Z.pos p =? 0) with false. cbv iota. unfold bind, ret.
    intros H _. injection H as <- <-. exists ok.
    destruct early; cbn; rewrite T0, <- !app_assoc; reflexivity.
Qed.

(** C4. When ForkAndSpecializeCommon comes back in the parent with the pid
    of the new system server, the run of Zygote_nativeForkSystemServer
    goes on with the log line, the store of that pid in gSystemServerPid,
    and then, the registry already holding the pid, one waitpid for it
    that does not block: the store is the only one of the run and the
    event just before the only waitpid.  If waitpid hands the pid back,
    which it does exactly when the child is already among the terminated
    ones, the zygote aborts and no pid reaches the caller; otherwise the
    pid is returned. *)
Theorem singleton_registered_then_rechecked
    (cfg : BuildConfig) (E : Env) (uid gid : Z) (gids : option (list Z))
    (debug_flags : Z) (rlimits : option (list (list Z)))
    (permittedCapabilities effectiveCapabilities : Z) (w : World)
    (pid : Z) (w1 : World) :
  ForkAndSpecializeCommon cfg E uid gid gids debug_flags rlimits
    permittedCapabilities effectiveCapabilities MOUNT_EXTERNAL_NONE None None true w
  = Ok pid w1 ->
  0 < pid ->
  let start :=
    Zygote_nativeForkSystemServer cfg E uid gid gids debug_flags rlimits
      permittedCapabilities effectiveCapabilities in
  let registered :=
    with_trace (with_gSystemServerPid w1 pid)
      (trace w1 ++ [EvLog INFO (MsgSystemServerCreated pid); EvRegister pid]) in
  exists ok r st w3,
    run_trace start w =
      EvCall (sys_sigaction_SIGCHLD Handler_SigChldHandler) ok ::
      (if ok then [] else [EvLog WARNING MsgSetSigChldError]) ++
      [EvFork pid; EvLog INFO (MsgSystemServerCreated pid);
       EvRegister pid; EvWaitpid pid r st] ++
      (if r =? pid then [EvLog FATAL (MsgSystemServerDied pid)] else []) /\
    waitpid_WNOHANG pid registered = Ok (r, st) w3 /\
    gSystemServerPid w3 = pid /\
    trace w3 = trace w1 ++ [EvLog INFO (MsgSystemServerCreated pid); EvRegister pid;
                            EvWaitpid pid r st] /\
    (r = pid <-> In pid (map fst (w_zombies w1))) /\
    (r = pid ->
     start w =
     Halt Aborted (with_trace w3 (trace w3 ++ [EvLog FATAL (MsgSystemServerDied pid)]))) /\
    (r <> pid -> start w = Ok pid w3).
Proof.
  intros HF Hpid start registered.
  assert (Hne : (pid =? -1) = false) by (apply Z.eqb_neq; lia).
  assert (Hpos : (0 <? pid) = true) by (apply Z.ltb_lt; exact Hpid).
  destruct (parent_run_trace _ _ _ _ _ _ _ _ _ _ _ _ _ _ _ _ HF Hpid) as (ok & T1).
  destruct (waitpid_WNOHANG pid registered) as [[r st] w3|] eqn:HW;
    [|unfold waitpid_WNOHANG in HW; rewrite Hne in HW;
      destruct (find _ _) as [[]|]; discriminate].
  exists ok, r, st, w3.
  assert (Facts : gSystemServerPid w3 = pid /\
                  trace w3 = trace w1 ++ [EvLog INFO (MsgSystemServerCreated pid);
                                          EvRegister pid; EvWaitpid pid r st] /\
                  (r = pid <-> In pid (map fst (w_zombies w1)))).
  { unfold waitpid_WNOHANG in HW. rewrite Hne in HW.
    pose proof (find_child_spec pid (w_zombies registered)) as HS.
    change (w_zombies registered) with (w_zombies w1) in *.
    destruct (find _ (w_zombies w1)) as [[p s]|].
    - destruct HS as (-> & Hin). injection HW as <- <- <-.
      split; [reflexivity|]. split; [cbn; now rewrite <- app_assoc|tauto].
    - injection HW as <- <- <-.
      split; [reflexivity|]. split; [cbn; now rewrite <- app_assoc|].
      split; [|tauto]. destruct (existsb _ _); lia. }
  destruct Facts as (F1 & F2 & F3).
  assert (Run : start w =
                if r =? pid
                then Halt Aborted
                       (with_trace w3 (trace w3 ++ [EvLog FATAL (MsgSystemServerDied pid)]))
                else Ok pid w3).
  { unfold start, Zygote_nativeForkSystemServer, bind. rewrite HF. cbv beta iota.
    rewrite Hpos. unfold set_gSystemServerPid, LOG, emit, modify, ret, bind.
    cbv beta iota.
    match goal with |- context [waitpid_WNOHANG pid ?x] =>
      replace x with registered
        by (unfold registered, with_trace, with_gSystemServerPid; cbn;
            now rewrite <- app_assoc) end.
    rewrite HW. cbn [fst]. destruct (r =? pid); reflexivity. }
  split.
  { apply run_trace_eq. rewrite Run.
    destruct (r =? pid); cbn [final_world with_trace trace];
      rewrite F2, T1, <- !app_assoc; cbn [app]; rewrite <- ?app_assoc; reflexivity. }
  split; [reflexivity|]. split; [exact F1|]. split; [exact F2|]. split; [exact F3|].
  split; intros Hr; rewrite Run.
  - apply Z.eqb_eq in Hr. now rewrite Hr.
  - apply Z.eqb_neq in Hr. now rewrite Hr.
Qed.

(** * The theorems at concrete runs *)

(** The system server, spawned by an Android zygote with a bitmask that
    fits in 32 bits, ends with exactly that bitmask; on the host no
    capset call is made. *)
Lemma capabilities_installed_after_identity_witness :
  let run := ForkAndSpecializeCommon android (env_all (InChild 1234)) 1000 1000 None 0
               None 130104352 130104352 MOUNT_EXTERNAL_NONE None None true in
  let host_run := ForkAndSpecializeCommon host (env_all (InChild 1234)) 1000 1000 None 0
                    None 130104352 130104352 MOUNT_EXTERNAL_NONE None None true in
  w_cap_permitted (final_world (run zygote0)) = 130104352 /\
  w_cap_effective (final_world (run zygote0)) = 130104352 /\
  Forall (fun e => is_capset e = false) (run_trace host_run zygote0).
Proof.
  cbv zeta.
  destruct (proj1 (capabilities_installed_after_identity android (env_all (InChild 1234))
                     1000 1000 None 0 None 130104352 130104352 MOUNT_EXTERNAL_NONE
                     None None true zygote0)
                  eq_refl ltac:(lia) ltac:(lia) _ ltac:(vm_compute; reflexivity))
    as (Hp & He & _).
  split; [exact Hp|]. split; [exact He|].
  exact (proj2 (capabilities_installed_after_identity host (env_all (InChild 1234))
                  1000 1000 None 0 None 130104352 130104352 MOUNT_EXTERNAL_NONE
                  None None true zygote0) eq_refl).
Defined.

(** C1, as stated, fails.  Where HAVE_ANDROID_OS is not defined
    SetCapabilities is empty and no capset call is made: a child with
    target uid 1000 that is asked to hold capabilities 0 and 1 ends the
    sequence without them. *)
Lemma capabilities_not_exactly_profile_counterexample :
  exists w',
    ForkAndSpecializeCommon host (env_all (InChild 1234)) 1000 1000 None 0 None
      3 3 MOUNT_EXTERNAL_NONE None None true zygote0 = Ok 0 w' /\
    1000 <> 0 /\
    w_cap_permitted w' <> 3 /\ w_cap_effective w' <> 3 /\
    Forall (fun e => is_capset e = false) (trace w').
Proof.
  eexists; (split; [vm_compute; reflexivity|]); cbn;
    repeat split; try discriminate; auto 10; repeat constructor.
Qed.

(** An application child: setgid(10001) is the call before
    setuid(10001). *)
Lemma setgid_commits_before_setuid_witness :
  let run := ForkAndSpecializeCommon android (env_all (InChild 1234)) 10001 10001 None 0
               None 0 0 MOUNT_EXTERNAL_NONE None None false in
  (exists before,
      [EvCall (sys_sigaction_SIGCHLD Handler_SigChldHandler) true; EvFork 0;
       EvCall sys_prctl_SET_KEEPCAPS true; EvCall (sys_setgid 10001) true] =
      before ++ [EvCall (sys_setgid 10001) true]) /\
  w_gid (final_world (run zygote0)) = 10001 /\
  w_uid (final_world (run zygote0)) = 10001.
Proof.
  cbv zeta.
  pose proof (setgid_commits_before_setuid android (env_all (InChild 1234)) 10001 10001
                None 0 None 0 0 MOUNT_EXTERNAL_NONE None None false zygote0) as [H1 H2].
  split.
  - destruct (H1 [EvCall (sys_sigaction_SIGCHLD Handler_SigChldHandler) true; EvFork 0;
                  EvCall sys_prctl_SET_KEEPCAPS true; EvCall (sys_setgid 10001) true]
                 10001 true _ ltac:(vm_compute; reflexivity)) as (_ & H & _).
    exact H.
  - destruct (H2 _ ltac:(vm_compute; reflexivity)) as (_ & Hg & Hu). split; assumption.
Defined.

(** The zygote reaps pid 5, then system_server, pid 8, and is killed
    once; pid 9 is left. *)
Lemma singleton_death_kills_service_once_witness :
  (exists w' t1,
      SigChldHandler android reaping_zygote = Halt Killed w' /\
      run_trace (SigChldHandler android) reaping_zygote = t1 ++ [EvKill 100 SIGKILL] /\
      Forall (fun e => is_kill e = false) t1) /\
  (exists w' t1,
      SigChldHandler android reaping_zygote = Halt Killed w' /\
      run_trace (SigChldHandler android) reaping_zygote = t1 ++ [EvKill 100 SIGKILL] /\
      Forall (fun e => is_kill e = false) t1 /\
      reaped_pids t1 = [5; 8] /\ w_zombies w' = [(9, 139)]).
Proof.
  pose proof (singleton_death_kills_service_once android reaping_zygote) as [H1 H2].
  split.
  - apply (H1 9); [reflexivity|]. vm_compute. auto 10.
  - apply (H2 [(5, 0)] 8 9 [(9, 139)]); try reflexivity.
    repeat constructor; cbn; lia.
Defined.

(** system_server, pid 1234, is already dead when the zygote re-checks:
    the zygote aborts, the pid registered. *)
Lemma singleton_registered_then_rechecked_witness :
  exists w',
    spawn_server android (env_all (InParent 1234 (Some 9))) 130104352 zygote0 =
    Halt Aborted w' /\
    gSystemServerPid w' = 1234.
Proof.
  destruct (singleton_registered_then_rechecked android
              (env_all (InParent 1234 (Some 9))) 1000 1000 None 0 None
              130104352 130104352 zygote0 1234 _
              ltac:(vm_compute; reflexivity) ltac:(lia))
    as (ok & r & st & w3 & _ & HW & Hg & _ & Hin & Hdead & _).
  eexists. split.
  - apply Hdead. apply Hin. vm_compute. auto.
  - exact Hg.
Defined.

(** Before any registration the three terminated children are all
    reaped; with pid 8 registered the drain stops at it. *)
Lemma handler_drains_terminated_children_witness :
  (exists w',
      SigChldHandler android idle_zygote = Ok tt w' /\
      w_zombies w' = [] /\ w_live w' = [11] /\
      reaped_pids (run_trace (SigChldHandler android) idle_zygote) = [5; 7; 9]) /\
  (exists w',
      SigChldHandler android reaping_zygote = Halt Killed w' /\
      w_zombies w' = [(9, 139)] /\
      reaped_pids (run_trace (SigChldHandler android) reaping_zygote) = [5; 8]).
Proof.
  split.
  - apply (proj1 (handler_drains_terminated_children android idle_zygote
                    ltac:(repeat constructor))).
    repeat constructor; discriminate.
  - apply (proj2 (handler_drains_terminated_children android reaping_zygote
                    ltac:(repeat constructor)) [(5, 0)] 8 9 [(9, 139)]);
      try reflexivity.
    repeat constructor; discriminate.
Defined.

(** C5, as stated, fails.  Three children are pending, the registered
    system server the second of them: one run of the handler reaps two
    pids, not three, and pid 9 stays unreaped. *)
Lemma handler_leaves_children_after_singleton_counterexample :
  length (w_zombies reaping_zygote) = 3%nat /\
  exists w',
    SigChldHandler android reaping_zygote = Halt Killed w' /\
    reaped_pids (run_trace (SigChldHandler android) reaping_zygote) = [5; 8] /\
    w_zombies w' = [(9, 139)].
Proof.
  split; [reflexivity|]. eexists. split; [vm_compute; reflexivity|].
  split; reflexivity.
Qed.



(** A zygote whose pre-fork step fails aborts; one whose fork fails
    returns -1 and goes on. *)
Lemma quiescence_failure_aborts_fork_failure_returns_witness :
  spawn_app android (env_of (fun _ => false) false (InChild 1234)) zygote0 =
  Halt Aborted (with_trace zygote0 [EvLog FATAL MsgPreForkHeapFailed]) /\
  exists w', spawn_app android (env_all ForkFailed) zygote0 = Ok (-1) w' /\
             keeps zygote0 w'.
Proof.
  split.
  - exact (proj1 (quiescence_failure_aborts_fork_failure_returns android
                    (env_of (fun _ => false) false (InChild 1234))
                    (to_u32 10001) (to_u32 10001) (Some [3003; 1015]) 1
                    (Some [[7; 1024; 4096]]) 0 0 MOUNT_EXTERNAL_NONE None None false
                    zygote0) eq_refl eq_refl).
  - destruct (proj2 (quiescence_failure_aborts_fork_failure_returns android
                       (env_all ForkFailed)
                       (to_u32 10001) (to_u32 10001) (Some [3003; 1015]) 1
                       (Some [[7; 1024; 4096]]) 0 0 MOUNT_EXTERNAL_NONE None None false
                       zygote0)
                    [EvCall (sys_sigaction_SIGCHLD Handler_SigChldHandler) true] []
                    ltac:(vm_compute; reflexivity)) as (w' & H & K & _).
    exists w'. split; assumption.
Defined.

(** C7, as stated, fails.  When Runtime::PreZygoteFork fails the spawn is
    not refused with the service going on: the zygote itself, pid 100,
    aborts, before any fork. *)
Lemma quiescence_failure_kills_service_counterexample :
  exists w',
    spawn_app android (env_of (fun _ => false) false (InChild 1234)) zygote0 =
    Halt Aborted w' /\
    w_pid w' = w_pid zygote0 /\
    trace w' = [EvLog FATAL MsgPreForkHeapFailed].
Proof.
  eexists. split; [vm_compute; reflexivity|]. split; reflexivity.
Qed.

(** The one limit of the application profile is set before setgid; when
    the kernel refuses it the child aborts. *)
Lemma rlimits_all_or_nothing_witness :
  (exists pre post,
      run_trace (spawn_app android (env_all (InChild 1234))) zygote0 =
      pre ++ [EvCall (sys_setrlimit 7 1024 4096) true] ++
      EvCall (sys_setgid 10001) true :: post) /\
  (exists w',
      spawn_app android (env_of refuse_setrlimit true (InChild 1234)) zygote0 =
      Halt Aborted w').
Proof.
  split.
  - destruct (proj1 (proj2 (rlimits_all_or_nothing android (env_all (InChild 1234))
                              (to_u32 10001) (to_u32 10001) (Some [3003; 1015]) 1
                              (Some [[7; 1024; 4096]]) 0 0 MOUNT_EXTERNAL_NONE None None
                              false zygote0))
                    _ ltac:(vm_compute; reflexivity)) as (_ & pre & post & H & _).
    exists pre, post. exact H.
  - destruct (proj2 (proj2 (rlimits_all_or_nothing android
                              (env_of refuse_setrlimit true (InChild 1234))
                              (to_u32 10001) (to_u32 10001) (Some [3003; 1015]) 1
                              (Some [[7; 1024; 4096]]) 0 0 MOUNT_EXTERNAL_NONE None None
                              false zygote0))
                    [EvCall (sys_sigaction_SIGCHLD Handler_SigChldHandler) true;
                     EvFork 0; EvCall sys_prctl_SET_KEEPCAPS true;
                     EvCall (sys_setgroups [3003; 1015]) true]
                    7 1024 4096 _ ltac:(vm_compute; reflexivity)
                    ltac:(repeat constructor))
      as (w' & _ & _ & _ & H & _).
    exists w'. exact H.
Defined.

(** The shell runs, or cannot be executed. *)
Lemma exec_shell_replaces_image_or_exits_127_witness :
  (exists w', Zygote_nativeExecShell android (env_all ForkFailed) (Some "echo 1"%string)
                zygote0 = Halt ImageReplaced w') /\
  (exists w', Zygote_nativeExecShell android (env_of refuse_execv true ForkFailed)
                (Some "echo 1"%string) zygote0 = Halt (Exited 127) w').
Proof.
  split; eexists.
  - exact (proj1 (exec_shell_replaces_image_or_exits_127 android (env_all ForkFailed)
                    "echo 1" zygote0) eq_refl).
  - exact (proj1 (proj2 (exec_shell_replaces_image_or_exits_127 android
                           (env_of refuse_execv true ForkFailed) "echo 1" zygote0))
                 eq_refl).
Defined.

(** C9, as stated, fails.  With a shell that cannot be executed the
    process does exit with status 127, but it has first written the INFO
    line that names the command. *)
Lemma exec_shell_logs_before_exit_counterexample :
  exists w',
    Zygote_nativeExecShell android (env_of refuse_execv true ForkFailed)
      (Some "echo 1"%string) zygote0 = Halt (Exited 127) w' /\
    In (EvLog INFO (MsgExec ["/system/bin/sh"; "-c"; "echo 1"]%string)) (trace w').
Proof.
  eexists. split; [vm_compute; reflexivity|]. cbn. auto.
Qed.

(** An application child ends with empty sets, the system server with
    the bitmask it was given; on the host an application spawn makes no
    capset call. *)
Lemma application_spawn_requests_no_capability_witness :
  w_cap_permitted (final_world (spawn_app android (env_all (InChild 1234)) zygote0)) = 0 /\
  w_cap_effective (final_world (spawn_app android (env_all (InChild 1234)) zygote0)) = 0 /\
  w_cap_permitted (final_world (spawn_server android (env_all (InChild 1234))
                                  130104352 zygote0)) = to_u32 130104352 /\
  Forall (fun e => is_capset e = false)
    (run_trace (spawn_app host (env_all (InChild 1234))) zygote0).
Proof.
  pose proof (application_spawn_requests_no_capability host (env_all (InChild 1234))
                10001 10001 (Some [3003; 1015]) 1 (Some [[7; 1024; 4096]])
                MOUNT_EXTERNAL_NONE None None zygote0) as (_ & _ & _ & _ & H5).
  pose proof (application_spawn_requests_no_capability android (env_all (InChild 1234))
                10001 10001 (Some [3003; 1015]) 1 (Some [[7; 1024; 4096]])
                MOUNT_EXTERNAL_NONE None None zygote0) as (_ & H2 & H3 & _).
  pose proof (application_spawn_requests_no_capability android (env_all (InChild 1234))
                1000 1000 None 0 None
                MOUNT_EXTERNAL_NONE None None zygote0) as (_ & _ & _ & H4 & _).
  destruct (H3 eq_refl _ ltac:(vm_compute; reflexivity)) as (Hp & He & Hin).
  destruct (H2 0 0 true Hin) as (_ & _).
  destruct (H4 eq_refl 130104352 130104352 _ ltac:(vm_compute; reflexivity)) as (Hs & _).
  split; [exact Hp|]. split; [exact He|]. split; [exact Hs|exact (H5 eq_refl)].
Defined.

(** C10, as stated, fails.  Where HAVE_ANDROID_OS is not defined,
    SetCapabilities is empty: an application child that stays root makes
    no capset call and ends the sequence with the sets of the zygote. *)
Lemma application_child_keeps_capabilities_counterexample :
  exists w',
    Zygote_nativeForkAndSpecialize host (env_all (InChild 1234)) 0 0 None 0 None
      MOUNT_EXTERNAL_NONE None None zygote0 = Ok 0 w' /\
    w_cap_permitted w' = 2 ^ 32 - 1 /\ w_cap_effective w' = 2 ^ 32 - 1 /\
    w_cap_permitted w' <> 0 /\
    Forall (fun e => is_capset e = false) (trace w').
Proof.
  eexists. split; [vm_compute; reflexivity|]. cbn.
  repeat split; try discriminate; repeat constructor.
Qed.

(** * Further properties of the child branch *)

Section ChildProperties.

Variable cfg : BuildConfig.
Variable E : Env.
Variables uid gid : Z.
Variable javaGids : option (list Z).
Variable debug_flags : Z.
Variable javaRlimits : option (list (list Z)).
Variables permittedCapabilities effectiveCapabilities : Z.
Variable mount_external : Z.
Variables java_se_info java_se_name : option string.
Variable is_system_server : bool.

Local Abbreviation spawn :=
  (ForkAndSpecializeCommon cfg E uid gid javaGids debug_flags javaRlimits
     permittedCapabilities effectiveCapabilities mount_external
     java_se_info java_se_name is_system_server).

(** With a mount mode other than MOUNT_EXTERNAL_NONE the first block of
    the child always aborts, having made no privilege call. *)
Lemma early_block_unimplemented (w : World) :
  mount_external <> MOUNT_EXTERNAL_NONE ->
  exists w' t,
    early_block cfg E uid javaGids mount_external w = Halt Aborted w' /\
    trace w' = trace w ++ t /\
    Forall (fun e => no_privilege_call e = true) t.
Proof.
  intros Hm.
  assert (C : calm no_privilege_call
                (modify (fun w => with_gMallocLeakZygoteChild w 1) ;;
                 when (negb (uid =? 0)) (EnableKeepCapabilities cfg E) ;;
                 MountExternalStorage uid mount_external)).
  { unfold EnableKeepCapabilities, prctl_SET_KEEPCAPS, MountExternalStorage. calm_auto. }
  destruct (C w) as (_ & (t & T & F) & S). revert T S.
  unfold early_block, bind. cbn [modify].
  match goal with |- context [when ?b ?m ?x] => destruct (when b m x) as [[] w1|s w1] end;
    cbn [final_world].
  - unfold MountExternalStorage. apply Z.eqb_neq in Hm. rewrite Hm.
    unfold LOG, emit, modify, halt, bind. cbn [final_world].
    intros T _. eauto.
  - intros T S. rewrite (S _ _ eq_refl). eauto.
Qed.

(** The mounting code being compiled out, a spawn that asks for a mount
    mode other than MOUNT_EXTERNAL_NONE never yields a child: the process
    in which fork answered 0 aborts before it sets groups, limits,
    identity, capabilities, scheduler class or security context, and no
    run returns 0. *)
Theorem mount_mode_aborts_child_before_privileges (w : World) :
  mount_external <> MOUNT_EXTERNAL_NONE ->
  (forall v w', spawn w = Ok v w' -> v <> 0) /\
  (forall s w', spawn w = Halt s w' -> s = Aborted) /\
  Forall (fun e => is_privilege_call e = false) (run_trace spawn w).
Proof.
  intros Hm.
  assert (NP : forall t, Forall (fun e => no_privilege_call e = true) t ->
                         Forall (fun e => is_privilege_call e = false) t).
  { intros t. apply Forall_impl. intros e. unfold no_privilege_call.
    destruct (is_privilege_call e); [discriminate|reflexivity]. }
  assert (C0 : calm no_privilege_call (SetSigChldHandler E))
    by (unfold SetSigChldHandler, sigaction_SIGCHLD; calm_auto).
  change (spawn w) with
    (FASC cfg E uid gid javaGids debug_flags javaRlimits permittedCapabilities
       effectiveCapabilities mount_external java_se_info java_se_name
       is_system_server w).
  assert (Main : exists t r,
             FASC cfg E uid gid javaGids debug_flags javaRlimits permittedCapabilities
               effectiveCapabilities mount_external java_se_info java_se_name
               is_system_server w = r /\
             trace (final_world r) = trace w ++ t /\
             Forall (fun e => is_privilege_call e = false) t /\
             (forall v w', r = Ok v w' -> v <> 0) /\
             (forall s w', r = Halt s w' -> s = Aborted)).
  { rewrite FASC_blocks. unfold bind at 1. cbn [get].
    destruct (rt_IsZygote w); cbn [negb].
    2: { eexists [_], _. split; [reflexivity|]. cbn.
         repeat split; [repeat constructor|discriminate|congruence]. }
    unfold bind at 1. cbn [ret]. unfold bind at 1. cbn [get].
    destruct (env_PreZygoteFork E w); cbn [negb].
    2: { eexists [_], _. split; [reflexivity|]. cbn.
         repeat split; [repeat constructor|discriminate|congruence]. }
    unfold bind at 1. cbn [ret]. unfold bind at 1.
    destruct (C0 w) as (_ & (t0 & T0 & F0) & _).
    destruct (SetSigChldHandler_total E w) as (w1 & R1). rewrite R1 in *.
    cbn [final_world] in T0. unfold bind at 1. unfold fork.
    destruct (env_fork E w1) as [|p|p early].
    - change (-1 =? 0) with false. cbv iota. unfold bind, ret.
      exists (t0 ++ [EvFork (-1)]). eexists. split; [reflexivity|].
      split; [cbn; rewrite T0, <- app_assoc; reflexivity|].
      repeat split; try discriminate.
      + apply Forall_app. split; [now apply NP|repeat constructor].
      + intros v w' H. injection H as <- _. discriminate.
    - change (0 =? 0) with true. cbv iota. unfold bind at 1.
      unfold child_block. unfold bind at 1.
      match goal with |- context [early_block cfg E uid javaGids mount_external ?x] =>
        destruct (early_block_unimplemented x Hm) as (w' & t & -> & T & F) end.
      exists (t0 ++ EvFork 0 :: t). eexists. split; [reflexivity|].
      split; [cbn [final_world]; rewrite T; cbn; rewrite T0, <- !app_assoc;
              reflexivity|].
      repeat split; try discriminate.
      + apply Forall_app. split; [now apply NP|].
        constructor; [reflexivity|now apply NP].
      + intros s w'' H. now injection H as <- _.
    - change (Z.pos p =? 0) with false. cbv iota. unfold bind, ret.
      exists (t0 ++ [EvFork (Zpos p)]). eexists. split; [reflexivity|].
      split; [destruct early; cbn; rewrite T0, <- app_assoc; reflexivity|].
      repeat split; try discriminate.
      + apply Forall_app. split; [now apply NP|repeat constructor].
      + intros v w' H. injection H as <- _. discriminate. }
  destruct Main as (t & r & Hr & T & F & HOk & HHalt). unfold FASC in *.
  rewrite (run_trace_eq _ _ t); [|rewrite Hr; exact T].
  rewrite Hr. auto.
Qed.

Lemma late_not_refused (e : Event) :
  late_ev e = true -> is_refused_identity_call e = false.
Proof.
  destruct e as [c ok| | | | | | |]; try reflexivity.
  destruct c; try discriminate; reflexivity.
Qed.

Ltac absent_refused :=
  unfold identity_events, caps_events, rlimit_failure;
  repeat match goal with
         | |- Forall _ [] => constructor
         | |- Forall _ (_ ++ _) => apply Forall_app_intro
         | |- Forall _ (_ :: _) => apply Forall_cons; [reflexivity|]
         | |- Forall _ (map (applied _ _) _) =>
             apply Forall_map, Forall_forall; intros; reflexivity
         | |- Forall _ (if ?b then _ else _) => destruct b
         | H : Forall (fun e => quiet_ev e = true) ?t |- Forall _ ?t =>
             let Hq := fresh "Hq" in
             eapply Forall_impl; [|exact H]; intros ? Hq;
             apply late_not_refused, quiet_late, Hq
         | H : Forall (fun e => late_ev e = true) ?t |- Forall _ ?t =>
             let Hq := fresh "Hq" in
             eapply Forall_impl; [|exact H]; intros ? Hq;
             apply late_not_refused, Hq
         end.

(** No child goes on after the kernel refused setgid, setuid or capset:
    the refused call is followed by its FATAL line and nothing else, the
    run is aborted, and it is the only refused call of the run. *)
Theorem refused_identity_call_is_fatal (w : World) :
  forall pre e post,
    run_trace spawn w = pre ++ e :: post ->
    is_refused_identity_call e = true ->
    exists w' m,
      spawn w = Halt Aborted w' /\
      post = [EvLog FATAL m] /\
      Forall (fun e' => is_refused_identity_call e' = false) pre.
Proof.
  intros pre e post Heq He.
  destruct (spawn_shape cfg E uid gid javaGids debug_flags javaRlimits
              permittedCapabilities effectiveCapabilities mount_external
              java_se_info java_se_name is_system_server w) as (_ & R).
  remember (spawn w) as res eqn:Hres. remember (run_trace spawn w) as t eqn:Ht.
  clear Hres Ht.
  destruct R as [ | | | | r t0 tc HQ F0 HC];
    try (exfalso; eapply (no_split is_refused_identity_call);
         [|exact Heq|exact He]; absent_refused; fail).
  destruct HC as [w' tA | w' tA done bad rest | w' tA | w' tA | w' tA tP | w' tA tP tB
                  | w' tA tP tB];
    try (exfalso; eapply (no_split is_refused_identity_call);
         [|exact Heq|exact He]; absent_refused; fail).
  - assert (Heq' : (t0 ++ EvFork 0 :: tA ++
                    map (applied cfg true) (rows_of javaRlimits)) ++
                   EvCall (sys_setgid gid) false :: [EvLog FATAL (MsgSetgidFailed gid)] =
                   pre ++ e :: post) by (rewrite <- Heq; now list_norm).
    apply (split_unique is_refused_identity_call) in Heq' as (-> & _ & ->);
      [|absent_refused|absent_refused|exact He].
    exists w', (MsgSetgidFailed gid). repeat split. absent_refused.
  - assert (Heq' : (t0 ++ EvFork 0 :: tA ++
                    map (applied cfg true) (rows_of javaRlimits) ++
                    [EvCall (sys_setgid gid) true]) ++
                   EvCall (sys_setuid uid) false :: [EvLog FATAL (MsgSetuidFailed uid)] =
                   pre ++ e :: post) by (rewrite <- Heq; now list_norm).
    apply (split_unique is_refused_identity_call) in Heq' as (-> & _ & ->);
      [|absent_refused|absent_refused|exact He].
    exists w', (MsgSetuidFailed uid). repeat split. absent_refused.
  - match goal with HA : HAVE_ANDROID_OS cfg = true |- _ =>
      unfold caps_events in Heq; rewrite HA in Heq end.
    assert (Heq' : (t0 ++ EvFork 0 :: tA ++
                    map (applied cfg true) (rows_of javaRlimits) ++
                    identity_events uid gid ++ tP) ++
                   EvCall (sys_capset (to_u32 permittedCapabilities)
                                      (to_u32 effectiveCapabilities)) false ::
                   [EvLog FATAL (MsgCapsetFailed permittedCapabilities
                                                 effectiveCapabilities)] =
                   pre ++ e :: post) by (rewrite <- Heq; now list_norm).
    apply (split_unique is_refused_identity_call) in Heq' as (-> & _ & ->);
      [|absent_refused|absent_refused|exact He].
    exists w', (MsgCapsetFailed permittedCapabilities effectiveCapabilities).
    repeat split. absent_refused.
Qed.

(** SetSigChldHandler never stops the caller: it arms the handler when
    sigaction succeeds and logs a warning when it does not. *)
Lemma SetSigChldHandler_cases (w : World) :
  exists (ok : bool) (w1 : World),
    SetSigChldHandler E w = Ok tt w1 /\
    same_privileges w w1 /\
    w_live w1 = w_live w /\ w_zombies w1 = w_zombies w /\
    w_sigchld w1 = (if ok then Handler_SigChldHandler else w_sigchld w) /\
    trace w1 = trace w ++
               EvCall (sys_sigaction_SIGCHLD Handler_SigChldHandler) ok ::
               (if ok then [] else [EvLog WARNING MsgSetSigChldError]).
Proof.
  unfold SetSigChldHandler, sigaction_SIGCHLD, syscall, LOG, emit, modify, ret, bind.
  cbv beta iota.
  destruct (env_ok E w (sys_sigaction_SIGCHLD Handler_SigChldHandler)) eqn:OK;
    [exists true|exists false]; eexists; (split; [reflexivity|]);
    unfold same_privileges; cbn; rewrite <- ?app_assoc; repeat split; reflexivity.
Qed.

(** The privilege transition happens in the child only.  A run that
    returns anything but 0, the parent or a failed fork, leaves identity,
    capability sets, keep-capabilities flag, limits, registry and runtime
    flags as they were; its only marks are the SIGCHLD handler, armed
    whenever sigaction succeeded, and, in the parent, the new child in the
    table of children. *)
Theorem parent_keeps_its_privileges (w : World) :
  forall v w',
    spawn w = Ok v w' -> v <> 0 ->
    same_privileges w w' /\
    (In (EvCall (sys_sigaction_SIGCHLD Handler_SigChldHandler) true)
        (run_trace spawn w) ->
     w_sigchld w' = Handler_SigChldHandler) /\
    (In (EvCall (sys_sigaction_SIGCHLD Handler_SigChldHandler) false)
        (run_trace spawn w) ->
     w_sigchld w' = w_sigchld w) /\
    (0 < v -> In v (w_live w') \/ In v (map fst (w_zombies w'))) /\
    (v < 0 -> w_live w' = w_live w /\ w_zombies w' = w_zombies w).
Proof.
  assert (Main : exists t r,
             FASC cfg E uid gid javaGids debug_flags javaRlimits permittedCapabilities
               effectiveCapabilities mount_external java_se_info java_se_name
               is_system_server w = r /\
             trace (final_world r) = trace w ++ t /\
             forall v w',
               r = Ok v w' -> v <> 0 ->
               same_privileges w w' /\
               (In (EvCall (sys_sigaction_SIGCHLD Handler_SigChldHandler) true) t ->
                w_sigchld w' = Handler_SigChldHandler) /\
               (In (EvCall (sys_sigaction_SIGCHLD Handler_SigChldHandler) false) t ->
                w_sigchld w' = w_sigchld w) /\
               (0 < v -> In v (w_live w') \/ In v (map fst (w_zombies w'))) /\
               (v < 0 -> w_live w' = w_live w /\ w_zombies w' = w_zombies w)).
  { rewrite FASC_blocks. unfold bind at 1. cbn [get].
    destruct (rt_IsZygote w); cbn [negb].
    2: { eexists [_], _. split; [reflexivity|]. split; [reflexivity|discriminate]. }
    unfold bind at 1. cbn [ret]. unfold bind at 1. cbn [get].
    destruct (env_PreZygoteFork E w); cbn [negb].
    2: { eexists [_], _. split; [reflexivity|]. split; [reflexivity|discriminate]. }
    unfold bind at 1. cbn [ret]. unfold bind at 1.
    destruct (SetSigChldHandler_cases w) as (ok & w1 & -> & SP & HL & HZ & HS & T1).
    unfold bind at 1. unfold fork.
    destruct (env_fork E w1) as [|p|p early].
    - change (-1 =? 0) with false. cbv iota. unfold bind, ret.
      eexists. eexists. split; [reflexivity|].
      split; [cbn; rewrite T1, <- app_assoc; reflexivity|].
      intros v w' H Hv. injection H as <- <-. cbn.
      split; [exact SP|]. rewrite HS, HL, HZ.
      destruct ok; cbn; repeat split; try lia; try reflexivity;
        intros Hin; repeat (destruct Hin as [Hin|Hin]; try discriminate);
        contradiction.
    - change (0 =? 0) with true. cbv iota. unfold bind at 1.
      match goal with |- context [child_block ?a ?b ?c ?d ?e ?f ?g ?h ?i ?j ?k ?l ?m ?x] =>
        destruct (child_block_shape a b c d e f g h i j k l m x) as (tc & Tc & _);
        revert Tc;
        destruct (child_block a b c d e f g h i j k l m x) as [[] w3|s w3]; intros Tc
      end; cbn [final_world ret] in *.
      + eexists. eexists. split; [reflexivity|].
        split; [unfold bind, ret; cbn [final_world]; rewrite Tc; cbn;
                rewrite T1, <- !app_assoc; reflexivity|].
        unfold bind, ret. intros v w' H Hv. injection H as <- _. congruence.
      + eexists. eexists. split; [reflexivity|].
        split; [unfold bind, ret; cbn [final_world]; rewrite Tc; cbn;
                rewrite T1, <- !app_assoc; reflexivity|].
        discriminate.
    - change (Z.pos p =? 0) with false. cbv iota. unfold bind, ret.
      eexists. eexists. split; [reflexivity|].
      split; [destruct early; cbn; rewrite T1, <- app_assoc; reflexivity|].
      intros v w' H Hv. injection H as <- <-.
      split; [destruct early; exact SP|].
      split; [|split; [|split; [|lia]]].
      + destruct early; cbn; rewrite HS; destruct ok; cbn; try reflexivity;
          intros Hin; repeat (destruct Hin as [Hin|Hin]; try discriminate);
          contradiction.
      + destruct early; cbn; rewrite HS; destruct ok; cbn; try reflexivity;
          intros Hin; repeat (destruct Hin as [Hin|Hin]; try discriminate);
          contradiction.
      + intros _. destruct early; cbn.
        * right. rewrite map_app, in_app_iff. right. now left.
        * left. now left. }
  destruct Main as (t & r & Hr & T & Hmain). unfold FASC in *.
  intros v w' Hw Hv. rewrite (run_trace_eq _ _ t); [|rewrite Hr; exact T].
  apply Hmain; [congruence|exact Hv].
Qed.

End ChildProperties.

(** * Further properties of the SIGCHLD handler *)

Section HandlerProperties.

Variable cfg : BuildConfig.

(** With no terminated child SigChldHandler reaps nothing and changes
    nothing: one waitpid call, which answers 0 when children are running;
    when the process has no child at all waitpid answers -1 and the
    handler logs its warning. *)
Theorem handler_with_nothing_to_reap (w : World) :
  w_zombies w = [] ->
  (w_live w <> [] ->
   SigChldHandler cfg w = Ok tt (with_trace w (trace w ++ [EvWaitpid (-1) 0 0]))) /\
  (w_live w = [] ->
   SigChldHandler cfg w =
   Ok tt (with_trace w (trace w ++ [EvWaitpid (-1) (-1) 0;
                                    EvLog WARNING MsgWaitpidError]))).
Proof.
  intros Hz. rewrite SigChldHandler_eq, Hz. cbn [length].
  rewrite (loop_end cfg 0 w Hz). cbv zeta.
  split; intros HL.
  - destruct (w_live w); [congruence|]. reflexivity.
  - rewrite HL. cbn. unfold with_trace. cbn. now rewrite <- app_assoc.
Qed.

(** A list of terminated children either does not hold the registered
    pid, or splits at its first occurrence. *)
Lemma first_registered (server : Z) (zs : list (Z * Z)) :
  Forall (fun z => fst z <> server) zs \/
  exists l1 st l2,
    zs = l1 ++ (server, st) :: l2 /\ Forall (fun z => fst z <> server) l1.
Proof.
  induction zs as [|[p st] zs IH]; [left; constructor|].
  destruct (Z.eq_dec p server) as [->|Hne].
  - right. exists [], st, zs. split; [reflexivity|constructor].
  - destruct IH as [F|(l1 & st' & l2 & -> & F)].
    + left. constructor; [exact Hne|exact F].
    + right. exists ((p, st) :: l1), st', l2. split; [reflexivity|].
      constructor; [exact Hne|exact F].
Qed.

(** No turn of the loop writes the registry. *)
Lemma loop_keeps_registry (n : nat) : forall w : World,
  gSystemServerPid (final_world (SigChldHandler_loop cfg n w)) = gSystemServerPid w.
Proof.
  induction n as [|n IH]; intros w; [reflexivity|].
  destruct (w_zombies w) as [|[p s] rest] eqn:Hz.
  - rewrite (loop_end cfg n w Hz). reflexivity.
  - destruct (Z_lt_le_dec 0 p) as [Hp|Hp].
    + destruct (loop_step cfg n w p s rest Hz Hp) as (logs & _ & ->).
      destruct (p =? gSystemServerPid w); [reflexivity|].
      rewrite IH. reflexivity.
    + rewrite (loop_stop cfg n w p s rest Hz Hp). reflexivity.
Qed.

(** SigChldHandler neither loses nor invents a child: whatever the run,
    killed or not, the pids it reaped followed by the terminated children
    still pending are the terminated children it started with, in the
    same order; the running children and the registry are untouched. *)
Theorem handler_conserves_children (w : World) :
  Forall (fun z => 0 < fst z) (w_zombies w) ->
  let w' := final_world (SigChldHandler cfg w) in
  reaped_pids (run_trace (SigChldHandler cfg) w) ++ map fst (w_zombies w') =
  map fst (w_zombies w) /\
  w_live w' = w_live w /\
  gSystemServerPid w' = gSystemServerPid w.
Proof.
  intros Hpos. cbv zeta.
  assert (Other : forall l, Forall (fun z => 0 < fst z) l ->
                            Forall (fun z => fst z <> gSystemServerPid w) l ->
                            Forall (other_child (gSystemServerPid w)) l).
  { intros l H1 H2. rewrite Forall_forall in *. intros z Hz. split; auto. }
  destruct (first_registered (gSystemServerPid w) (w_zombies w))
    as [Hne | (l1 & st & l2 & Hz & Hne)].
  - destruct (loop_drains cfg (w_zombies w) (S (length (w_zombies w))) w eq_refl)
      as (r & w1 & t & R & _ & _ & Hz' & Hl' & Hs' & _ & T & RP & _); [lia|auto|].
    rewrite SigChldHandler_eq. unfold run_trace. rewrite SigChldHandler_eq, R.
    destruct (r <? 0); cbn; rewrite ?Hz', ?Hl', ?Hs', T, <- ?app_assoc, skipn_app_exact;
      rewrite ?reaped_pids_app, RP; cbn; rewrite ?app_nil_r; auto.
  - rewrite Hz in Hpos. apply Forall_app in Hpos as [Hp1 Hp2].
    apply Forall_cons_iff in Hp2 as [Hp _]. cbn [fst] in Hp.
    destruct (loop_kills cfg l1 (S (length (w_zombies w))) w _ st l2 Hz)
      as (w1 & t1 & R & Hz' & Hl' & T & RP & _); auto.
    { rewrite Hz, length_app. cbn. lia. }
    rewrite SigChldHandler_eq. unfold run_trace. rewrite SigChldHandler_eq, R.
    cbn [final_world]. rewrite T, skipn_app_exact, reaped_pids_app, RP, Hz', Hz.
    cbn. rewrite app_nil_r, map_app, <- app_assoc. cbn.
    split; [reflexivity|]. split; [exact Hl'|].
    pose proof (loop_keeps_registry (S (length (w_zombies w))) w) as HR.
    rewrite R in HR. exact HR.
Qed.

Lemma loop_unregistered (n : nat) : forall w : World,
  gSystemServerPid w <= 0 -> (length (w_zombies w) < n)%nat ->
  exists r w' t,
    SigChldHandler_loop cfg n w = Ok r w' /\
    trace w' = trace w ++ t /\
    Forall (fun e => is_kill e = false) t.
Proof.
  induction n as [|n IH]; intros w Hs Hn; [lia|].
  destruct (w_zombies w) as [|[p s] rest] eqn:Hz.
  - rewrite (loop_end cfg n w Hz). cbv zeta. eexists _, _, [_].
    split; [reflexivity|]. split; [reflexivity|repeat constructor].
  - destruct (Z_lt_le_dec 0 p) as [Hp|Hp].
    + destruct (loop_step cfg n w p s rest Hz Hp) as (logs & FL & ->).
      assert (Hne : (p =? gSystemServerPid w) = false) by (apply Z.eqb_neq; lia).
      rewrite Hne.
      match goal with |- context [SigChldHandler_loop cfg n ?w1] =>
        destruct (IH w1) as (r & w' & t & R & T & F) end;
        [exact Hs|cbn in *; lia|].
      exists r, w', (EvWaitpid (-1) p s :: logs ++ t).
      split; [exact R|]. split; [rewrite T; cbn; now rewrite <- app_assoc|].
      constructor; [reflexivity|]. apply Forall_app.
      split; [now apply logs_no_kill|exact F].
    + rewrite (loop_stop cfg n w p s rest Hz Hp). eexists _, _, [_].
      split; [reflexivity|]. split; [reflexivity|repeat constructor].
Qed.

(** As long as no system server is registered, gSystemServerPid being 0,
    the handler cannot bring the zygote down: whatever children have
    terminated, it returns and sends no signal. *)
Theorem handler_never_kills_unregistered (w : World) :
  gSystemServerPid w <= 0 ->
  exists w',
    SigChldHandler cfg w = Ok tt w' /\
    Forall (fun e => is_kill e = false) (run_trace (SigChldHandler cfg) w).
Proof.
  intros Hs.
  destruct (loop_unregistered (S (length (w_zombies w))) w Hs (Nat.lt_succ_diag_r _))
    as (r & w1 & t & R & T & F).
  unfold run_trace. rewrite SigChldHandler_eq, R. destruct (r <? 0).
  - eexists. split; [reflexivity|]. cbn. rewrite T, <- app_assoc, skipn_app_exact.
    apply Forall_app. split; [exact F|repeat constructor].
  - exists w1. split; [reflexivity|]. cbn. rewrite T, skipn_app_exact. exact F.
Qed.

(** A property of the integers of a short range, decided by running
    through them. *)
Lemma decide_range (lo len : nat) (P : Z -> bool) :
  forallb (fun k => P (Z.of_nat k)) (seq lo len) = true ->
  forall x, Z.of_nat lo <= x < Z.of_nat (lo + len) -> P x = true.
Proof.
  intros H x Hx. rewrite forallb_forall in H.
  rewrite <- (Z2Nat.id x) by lia. apply H. apply in_seq. lia.
Qed.

Lemma status_exited_decoded (code : Z) :
  0 <= code < 256 ->
  WIFEXITED (status_exited code) = true /\ WEXITSTATUS (status_exited code) = code.
Proof.
  intros Hc.
  pose proof (decide_range 0 256
                (fun c => WIFEXITED (status_exited c) &&
                          (WEXITSTATUS (status_exited c) =? c))
                ltac:(vm_compute; reflexivity) code ltac:(cbn; lia)) as H.
  apply andb_true_iff in H as [H1 H2]. apply Z.eqb_eq in H2. auto.
Qed.

Lemma status_signaled_decoded (sig : Z) (core : bool) :
  1 <= sig <= 126 ->
  WIFEXITED (status_signaled sig core) = false /\
  WIFSIGNALED (status_signaled sig core) = true /\
  WTERMSIG (status_signaled sig core) = sig /\
  WCOREDUMP (status_signaled sig core) = core.
Proof.
  intros Hs.
  pose proof (decide_range 1 126
                (fun x => negb (WIFEXITED (status_signaled x core)) &&
                          WIFSIGNALED (status_signaled x core) &&
                          (WTERMSIG (status_signaled x core) =? x) &&
                          Bool.eqb (WCOREDUMP (status_signaled x core)) core)
                ltac:(destruct core; vm_compute; reflexivity) sig ltac:(cbn; lia)) as H.
  repeat (apply andb_true_iff in H as [H ?]).
  repeat split.
  - now apply negb_true_iff.
  - assumption.
  - now apply Z.eqb_eq.
  - now apply Bool.eqb_prop.
Qed.

(** What the handler writes about a reaped child that is not the
    registered one.  A clean exit is logged unless its code is 0; a death
    by signal is logged unless the signal is SIGKILL; a core dump is
    logged where WCOREDUMP exists.  Nothing else happens. *)
Theorem handler_logs_only_abnormal_deaths (pid : Z) (w : World) :
  pid <> gSystemServerPid w ->
  (forall code,
      0 <= code < 256 ->
      SigChldHandler_body cfg pid (status_exited code) w =
      Ok tt (with_trace w (trace w ++
               (if code =? 0 then [] else [EvLog INFO (MsgExitedCleanly pid code)])))) /\
  (forall sig core,
      1 <= sig <= 126 ->
      SigChldHandler_body cfg pid (status_signaled sig core) w =
      Ok tt (with_trace w (trace w ++
               (if sig =? SIGKILL then []
                else [EvLog INFO (MsgTerminatedBySignal pid sig)]) ++
               (if has_WCOREDUMP cfg && core
                then [EvLog INFO (MsgDumpedCore pid)] else [])))).
Proof.
  intros Hne. apply Z.eqb_neq in Hne. split.
  - intros code Hc. destruct (status_exited_decoded code Hc) as (H1 & H2).
    unfold SigChldHandler_body. rewrite H1, H2.
    unfold LOG, emit, modify, get, ret, bind.
    destruct (code =? 0); cbn; rewrite Hne; rewrite ?app_nil_r, ?with_trace_id;
      reflexivity.
  - intros sig core Hs.
    destruct (status_signaled_decoded sig core Hs) as (H1 & H2 & H3 & H4).
    unfold SigChldHandler_body. rewrite H1, H2, H3, H4.
    unfold LOG, when, emit, modify, get, ret, bind.
    destruct (sig =? SIGKILL), (has_WCOREDUMP cfg && core); cbn; rewrite Hne;
      rewrite ?app_nil_r, ?with_trace_id, <- ?app_assoc; reflexivity.
Qed.

End HandlerProperties.

(** * Further properties of the primitive appliers *)

Section ApplierProperties.

Variable cfg : BuildConfig.
Variable E : Env.

(** Arming the handler again does no harm: where SigChldHandler is
    already installed, SetSigChldHandler changes nothing but the trace,
    whether sigaction succeeds or not.  And it never stops the caller. *)
Theorem SetSigChldHandler_idempotent (w : World) :
  w_sigchld w = Handler_SigChldHandler ->
  exists w',
    SetSigChldHandler E w = Ok tt w' /\ with_trace w' (trace w) = w.
Proof.
  intros Hs.
  unfold SetSigChldHandler, sigaction_SIGCHLD, syscall, LOG, emit, modify, ret, bind.
  cbv beta iota.
  destruct (env_ok E w _); eexists; (split; [reflexivity|]);
    destruct w; cbn in *; subst; reflexivity.
Qed.

Lemma sigaction_then_warn (h : Disposition) (msg : Msg) (w : World) :
  exists w',
    (err <- sigaction_SIGCHLD E h ;;
     if err <? 0 then LOG WARNING msg else ret tt)%zyg w = Ok tt w' /\
    same_privileges w w' /\
    w_zombies w' = w_zombies w /\ w_live w' = w_live w /\
    (env_ok E w (sys_sigaction_SIGCHLD h) = true -> w_sigchld w' = h) /\
    (env_ok E w (sys_sigaction_SIGCHLD h) = false -> w_sigchld w' = w_sigchld w).
Proof.
  unfold sigaction_SIGCHLD, syscall, LOG, emit, modify, ret, bind. cbv beta iota.
  destruct (env_ok E w (sys_sigaction_SIGCHLD h));
    cbn [rc_of kernel_effect]; cbv beta iota;
    [change (0 <? 0) with false|change (-1 <? 0) with true]; cbv beta iota;
    (eexists; split; [reflexivity|]); unfold same_privileges; cbn;
    repeat split; try reflexivity; try discriminate.
Qed.

(** Disarming undoes arming.  A process that arms the handler and then
    disarms it is back at the default disposition as soon as the second
    sigaction succeeds, with its privileges and its children unchanged;
    if the second call fails the disposition stays what the first call
    left.  Neither step can stop the process. *)
Theorem unset_after_set_restores_default (w : World) :
  exists w1 w2,
    SetSigChldHandler E w = Ok tt w1 /\
    UnsetSigChldHandler E w1 = Ok tt w2 /\
    same_privileges w w2 /\
    w_zombies w2 = w_zombies w /\ w_live w2 = w_live w /\
    (env_ok E w (sys_sigaction_SIGCHLD Handler_SigChldHandler) = true ->
     w_sigchld w1 = Handler_SigChldHandler) /\
    (env_ok E w1 (sys_sigaction_SIGCHLD SIG_DFL) = true -> w_sigchld w2 = SIG_DFL) /\
    (env_ok E w1 (sys_sigaction_SIGCHLD SIG_DFL) = false -> w_sigchld w2 = w_sigchld w1).
Proof.
  destruct (sigaction_then_warn Handler_SigChldHandler MsgSetSigChldError w)
    as (w1 & R1 & P1 & Z1 & L1 & S1 & _).
  destruct (sigaction_then_warn SIG_DFL MsgUnsetSigChldError w1)
    as (w2 & R2 & P2 & Z2 & L2 & S2 & S2').
  exists w1, w2. split; [exact R1|]. split; [exact R2|].
  split.
  { unfold same_privileges in *.
    destruct P1 as (a1 & a2 & a3 & a4 & a5 & a6 & a7 & a8 & a9 & a10).
    destruct P2 as (b1 & b2 & b3 & b4 & b5 & b6 & b7 & b8 & b9 & b10).
    repeat split; congruence. }
  split; [congruence|]. split; [congruence|].
  split; [exact S1|]. split; [exact S2|exact S2'].
Qed.

(** SetGids tells NULL from an empty array.  With NULL nothing happens.
    With an array, empty or not, setgroups is called exactly once with
    its elements read as gid_t, so an empty array drops every
    supplementary group; the child aborts exactly when the call fails. *)
Theorem SetGids_null_and_empty (w : World) :
  SetGids E None w = Ok tt w /\
  forall gids,
    let call := sys_setgroups (map to_u32 gids) in
    (env_ok E w call = true ->
     SetGids E (Some gids) w = Ok tt (with_trace w (trace w ++ [EvCall call true]))) /\
    (env_ok E w call = false ->
     SetGids E (Some gids) w =
     Halt Aborted (with_trace w (trace w ++ [EvCall call false;
                                             EvLog FATAL MsgSetgroupsFailed]))).
Proof.
  split; [reflexivity|]. intros gids. cbv zeta.
  unfold SetGids, setgroups, syscall, LOG, emit, modify, halt, ret, bind. cbv beta iota.
  destruct (env_ok E w _); cbn [rc_of kernel_effect]; cbv beta iota.
  - change (0 =? -1) with false. cbv iota. split; [reflexivity|discriminate].
  - change (-1 =? -1) with true. cbv iota. split; [discriminate|].
    intros _. f_equal. unfold with_trace. cbn. now rewrite <- app_assoc.
Qed.

(** How a jint becomes an rlim_t: a value that fits is kept, and -1, like
    every negative value, wraps around; -1 is RLIM_INFINITY. *)
Lemma to_rlim_t_wrap (x : Z) :
  0 < rlim_bits cfg ->
  0 <= to_rlim_t cfg x < 2 ^ rlim_bits cfg /\
  (0 <= x < 2 ^ rlim_bits cfg -> to_rlim_t cfg x = x) /\
  to_rlim_t cfg (-1) = RLIM_INFINITY cfg /\
  (- 2 ^ rlim_bits cfg <= x < 0 -> to_rlim_t cfg x = x + 2 ^ rlim_bits cfg).
Proof.
  intros Hb. unfold to_rlim_t, to_unsigned, RLIM_INFINITY.
  assert (Hp : 0 < 2 ^ rlim_bits cfg) by (apply Z.pow_pos_nonneg; lia).
  split; [apply Z.mod_pos_bound; exact Hp|].
  split; [intros Hx; now apply Z.mod_small|].
  split.
  - rewrite <- (Z.mod_add _ 1) by lia.
    replace (-1 + 1 * 2 ^ rlim_bits cfg) with (2 ^ rlim_bits cfg - 1) by lia.
    apply Z.mod_small. lia.
  - intros Hx. rewrite <- (Z.mod_add _ 1) by lia.
    replace (x + 1 * 2 ^ rlim_bits cfg) with (x + 2 ^ rlim_bits cfg) by lia.
    apply Z.mod_small. lia.
Qed.

(** The limits a successful SetRLimits leaves behind: every row is in
    force, read as (resource, soft, hard) with the two limits as rlim_t,
    a later row ahead of an earlier one, on top of the limits that were
    in force before. *)
Theorem SetRLimits_installs_rows (rows : list (list Z)) : forall (w w' : World),
  SetRLimits cfg E (Some rows) w = Ok tt w' ->
  w_rlimits w' =
  rev (map (fun row => (nth 0 row 0, (to_rlim_t cfg (nth 1 row 0),
                                      to_rlim_t cfg (nth 2 row 0)))) rows)
  ++ w_rlimits w.
Proof.
  cbn [SetRLimits].
  induction rows as [|row rows IH]; intros w w' H.
  - injection H as <-. reflexivity.
  - cbn [SetRLimits_loop] in H. unfold setrlimit, syscall, bind in H. cbv beta in H.
    destruct (length row =? 3)%nat; cbn [negb] in H; [|discriminate].
    unfold ret in H. cbv beta iota in H.
    match type of H with context [env_ok E w ?c] => destruct (env_ok E w c) end;
      cbn [rc_of kernel_effect] in H.
    + change (0 =? -1) with false in H. cbv beta iota in H.
      apply IH in H. rewrite H. cbn. now rewrite <- app_assoc.
    + change (-1 =? -1) with true in H. discriminate.
Qed.

Lemma SetRLimits_loop_keeps_and_adds (rows : list (list Z)) : forall (w w' : World),
  SetRLimits_loop cfg E rows w = Ok tt w' ->
  (forall x, In x (w_rlimits w) -> In x (w_rlimits w')) /\
  (forall row, In row rows ->
               In (nth 0 row 0, (to_rlim_t cfg (nth 1 row 0), to_rlim_t cfg (nth 2 row 0)))
                  (w_rlimits w')).
Proof.
  induction rows as [|row rows IH]; intros w w' H.
  - injection H as <-. split; [auto|intros row []].
  - cbn [SetRLimits_loop] in H. unfold setrlimit, syscall, bind in H. cbv beta in H.
    destruct (length row =? 3)%nat; cbn [negb] in H; [|discriminate].
    unfold ret in H. cbv beta iota in H.
    match type of H with context [env_ok E w ?c] => destruct (env_ok E w c) end;
      cbn [rc_of kernel_effect] in H.
    + change (0 =? -1) with false in H. cbv beta iota in H.
      apply IH in H as (Keep & Add). split.
      * intros x Hx. apply Keep. cbn. now right.
      * intros row' [<-|Hin]; [apply Keep; cbn; now left|now apply Add].
    + change (-1 =? -1) with true in H. discriminate.
Qed.


End ApplierProperties.

(** * Debug flags and the address-space workaround *)

Section DebugProperties.

Variable cfg : BuildConfig.
Variable E : Env.

Lemma land_bit_test (f k : Z) :
  0 <= k -> (Z.land f (Z.shiftl 1 k) =? 0) = negb (Z.testbit f k).
Proof.
  intros Hk. rewrite Z.shiftl_1_l.
  destruct (Z.testbit f k) eqn:Hb; cbn [negb].
  - apply Z.eqb_neq. intros H0.
    assert (H1 : Z.testbit (Z.land f (2 ^ k)) k = false) by (rewrite H0; apply Z.bits_0).
    rewrite Z.land_spec, Hb, Z.pow2_bits_true in H1 by exact Hk. discriminate.
  - apply Z.eqb_eq. apply Z.bits_inj'. intros n Hn.
    rewrite Z.land_spec, Z.bits_0, Z.pow2_bits_eqb by exact Hk.
    destruct (Z.eqb_spec k n) as [<-|_]; [now rewrite Hb|apply andb_false_r].
Qed.

Lemma ldiff_unset_bit (f k : Z) :
  0 <= k -> Z.testbit f k = false -> Z.ldiff f (Z.shiftl 1 k) = f.
Proof.
  intros Hk Hb. rewrite Z.shiftl_1_l. apply Z.bits_inj'. intros n Hn.
  rewrite Z.ldiff_spec, Z.pow2_bits_eqb by exact Hk.
  destruct (Z.eqb_spec k n) as [<-|_]; [now rewrite Hb|apply andb_true_r].
Qed.

Lemma testbit_ldiff_other (f k n : Z) :
  0 <= k -> 0 <= n -> k <> n -> Z.testbit (Z.ldiff f (Z.shiftl 1 k)) n = Z.testbit f n.
Proof.
  intros Hk Hn Hne. rewrite Z.shiftl_1_l, Z.ldiff_spec, Z.pow2_bits_eqb by exact Hk.
  destruct (Z.eqb_spec k n); [contradiction|apply andb_true_r].
Qed.

(** EnableDebugger reports its failures and goes on. *)
Lemma EnableDebugger_total (w : World) :
  exists w' t,
    EnableDebugger cfg E w = Ok tt w' /\ rt_check_jni w' = rt_check_jni w /\
    trace w' = trace w ++ t /\
    Forall (fun e => is_unknown_bits_log e = false) t.
Proof.
  unfold EnableDebugger, prctl_SET_DUMPABLE, setrlimit, getpid, syscall, get, LOG, emit,
    modify, ret, bind. cbv beta iota.
  destruct (HAVE_ANDROID_OS cfg).
  2: { exists w, []. rewrite app_nil_r. repeat split. constructor. }
  destruct (env_ok E w sys_prctl_SET_DUMPABLE); cbn [rc_of kernel_effect]; cbv beta iota;
    [change (0 =? -1) with false|change (-1 =? -1) with true]; cbv beta iota;
    match goal with |- context [env_ok E ?x ?c] => destruct (env_ok E x c) end;
    cbn [rc_of kernel_effect]; cbv beta iota;
    [change (0 =? -1) with false|change (-1 =? -1) with true
    |change (0 =? -1) with false|change (-1 =? -1) with true]; cbv beta iota;
    eexists; eexists; (split; [reflexivity|]); (split; [reflexivity|]);
    (split; [cbn; rewrite <- ?app_assoc; reflexivity|]); repeat constructor.
Qed.

(** Debug flags cannot stop a child.  Whatever word is passed,
    EnableDebugFeatures returns; CheckJNI is switched on when bit 1 asks
    for it and is never switched off; the runtime is told that JDWP is
    allowed exactly when bit 0 is set; and the bits outside the five known
    flags are reported in one error line, the last of the run, which is
    absent when there are none. *)
Theorem debug_flags_never_fatal (flags : Z) (w : World) :
  exists w' pre,
    EnableDebugFeatures cfg E flags w = Ok tt w' /\
    rt_check_jni w' = rt_check_jni w || Z.testbit flags 1 /\
    trace w' = trace w ++ pre ++
      (if Z.ldiff flags 31 =? 0 then []
       else [EvLog ERROR (MsgUnknownDebugBits (Z.ldiff flags 31))]) /\
    Forall (fun e => is_unknown_bits_log e = false) pre /\
    In (EvRuntime (rt_SetJdwpAllowed (Z.testbit flags 0))) pre.
Proof.
  unfold EnableDebugFeatures.
  rewrite bind_eq.
  match goal with
  | |- context [match _ with Ok a w0 => @?K a w0 | Halt _ _ => _ end] =>
    assert (Tail : forall a w0, exists w' pre,
      K a w0 = Ok tt w' /\ rt_check_jni w' = rt_check_jni w0 /\
      trace w' = trace w0 ++ pre ++
        (if Z.ldiff a 29 =? 0 then []
         else [EvLog ERROR (MsgUnknownDebugBits (Z.ldiff a 29))]) /\
      Forall (fun e => is_unknown_bits_log e = false) pre /\
      In (EvRuntime (rt_SetJdwpAllowed (Z.testbit a 0))) pre)
  end.
  { intros a w0. cbv beta. rewrite bind_eq.
    match goal with
    | |- context [match _ with Ok f w1 => @?K f w1 | Halt _ _ => _ end] =>
      assert (Tail : forall f w1, exists w' pre,
        K f w1 = Ok tt w' /\ rt_check_jni w' = rt_check_jni w1 /\
        trace w' = trace w1 ++ pre ++
          (if Z.ldiff f 13 =? 0 then []
           else [EvLog ERROR (MsgUnknownDebugBits (Z.ldiff f 13))]) /\
        Forall (fun e => is_unknown_bits_log e = false) pre /\
        In (EvRuntime (rt_SetJdwpAllowed (Z.testbit f 0))) pre)
    end.
    { intros f w1. cbv beta.
      change DEBUG_ENABLE_DEBUGGER with (Z.shiftl 1 0) at 1 2.
      rewrite (land_bit_test f 0), negb_involutive by lia.
      rewrite !Z.ldiff_ldiff_l.
      change (Z.lor DEBUG_ENABLE_DEBUGGER (Z.lor DEBUG_ENABLE_ASSERT DEBUG_ENABLE_SAFEMODE))
        with 13.
      rewrite bind_eq. unfold emit at 1. unfold modify. rewrite bind_eq.
      assert (Dbg : exists w2 t,
                 when (Z.testbit f 0) (EnableDebugger cfg E)
                   (with_trace w1 (trace w1 ++ [EvRuntime (rt_SetJdwpAllowed (Z.testbit f 0))]))
                 = Ok tt w2 /\ rt_check_jni w2 = rt_check_jni w1 /\
                 trace w2 = trace w1 ++ EvRuntime (rt_SetJdwpAllowed (Z.testbit f 0)) :: t /\
                 Forall (fun e => is_unknown_bits_log e = false) t).
      { unfold when. destruct (Z.testbit f 0).
        - match goal with |- context [EnableDebugger cfg E ?x] =>
            destruct (EnableDebugger_total x) as (w2 & t & R & C & T & F) end.
          exists w2, t. split; [exact R|]. split; [exact C|].
          split; [rewrite T; cbn; now rewrite <- app_assoc|exact F].
        - eexists _, []. split; [reflexivity|]. split; [reflexivity|].
          split; [reflexivity|constructor]. }
      destruct Dbg as (w2 & t & -> & C & T & F).
      exists (if Z.ldiff f 13 =? 0 then w2
              else with_trace w2 (trace w2 ++ [EvLog ERROR (MsgUnknownDebugBits (Z.ldiff f 13))])),
             (EvRuntime (rt_SetJdwpAllowed (Z.testbit f 0)) :: t).
      destruct (Z.ldiff f 13 =? 0); cbn [negb].
      - split; [reflexivity|]. split; [exact C|].
        split; [rewrite T, app_nil_r; reflexivity|].
        split; [constructor; [reflexivity|exact F]|now left].
      - split; [reflexivity|]. split; [exact C|].
        split; [cbn; rewrite T, <- app_assoc; reflexivity|].
        split; [constructor; [reflexivity|exact F]|now left]. }
    change DEBUG_ENABLE_JNI_LOGGING with (Z.shiftl 1 4).
    rewrite (land_bit_test a 4), negb_involutive by lia.
    destruct (Z.testbit a 4) eqn:B4.
    - set (f := Z.ldiff a (Z.shiftl 1 4)).
      set (w1 := with_trace w0 (trace w0 ++ [EvRuntime rt_third_party_jni_logging])).
      change ((emit (EvRuntime rt_third_party_jni_logging) ;; ret f)%zyg w0)
        with (Ok f w1).
      destruct (Tail f w1) as (w' & pre & R & C & T & F & I).
      exists w', (EvRuntime rt_third_party_jni_logging :: pre).
      split; [exact R|]. split; [exact C|].
      assert (Hf : Z.ldiff f 13 = Z.ldiff a 29)
        by (unfold f; rewrite Z.ldiff_ldiff_l; reflexivity).
      assert (H0 : Z.testbit f 0 = Z.testbit a 0)
        by (unfold f; apply testbit_ldiff_other; lia).
      rewrite Hf in T. rewrite H0 in I.
      split; [rewrite T; cbn; rewrite <- app_assoc; reflexivity|].
      split; [constructor; [reflexivity|exact F]|now right].
    - change (ret a w0) with (Ok a w0).
      destruct (Tail a w0) as (w' & pre & R & C & T & F & I).
      exists w', pre. split; [exact R|]. split; [exact C|].
      assert (Hf : Z.ldiff a 13 = Z.ldiff a 29).
      { rewrite <- (ldiff_unset_bit a 4) at 1 by (lia || exact B4).
        rewrite Z.ldiff_ldiff_l. reflexivity. }
      rewrite Hf in T. auto. }
  change DEBUG_ENABLE_CHECKJNI with (Z.shiftl 1 1).
  rewrite (land_bit_test flags 1), negb_involutive by lia.
  destruct (Z.testbit flags 1) eqn:B1.
  - set (f := Z.ldiff flags (Z.shiftl 1 1)).
    assert (Hf : Z.ldiff f 29 = Z.ldiff flags 31)
      by (unfold f; rewrite Z.ldiff_ldiff_l; reflexivity).
    assert (H0 : Z.testbit f 0 = Z.testbit flags 0)
      by (unfold f; apply testbit_ldiff_other; lia).
    rewrite bind_eq. cbn [get]. rewrite bind_eq.
    destruct (rt_check_jni w) eqn:CJ; cbn [negb].
    + set (w1 := with_trace w (trace w ++ [EvLog DEBUG MsgNotLateEnablingCheckJni])).
      change (LOG DEBUG MsgNotLateEnablingCheckJni w) with (Ok tt w1).
      change (ret f w1) with (Ok f w1).
      destruct (Tail f w1) as (w' & pre & R & C & T & F & I).
      rewrite Hf in T. rewrite H0 in I.
      exists w', (EvLog DEBUG MsgNotLateEnablingCheckJni :: pre).
      split; [exact R|]. split; [rewrite C; cbn; rewrite CJ; reflexivity|].
      split; [rewrite T; cbn; rewrite <- app_assoc; reflexivity|].
      split; [constructor; [reflexivity|exact F]|now right].
    + set (w1 := with_trace
                   (with_check_jni
                      (with_trace w (trace w ++ [EvLog DEBUG MsgLateEnablingCheckJni])) true)
                   (trace w ++ [EvLog DEBUG MsgLateEnablingCheckJni;
                                EvRuntime rt_SetCheckJniEnabled])).
      assert (Step : (LOG DEBUG MsgLateEnablingCheckJni ;;
                      modify (fun w => with_check_jni w true) ;;
                      emit (EvRuntime rt_SetCheckJniEnabled))%zyg w = Ok tt w1).
      { unfold w1, LOG, emit, modify, ret, bind. cbn. now rewrite <- app_assoc. }
      rewrite Step. change (ret f w1) with (Ok f w1).
      destruct (Tail f w1) as (w' & pre & R & C & T & F & I).
      rewrite Hf in T. rewrite H0 in I.
      exists w', (EvLog DEBUG MsgLateEnablingCheckJni :: EvRuntime rt_SetCheckJniEnabled :: pre).
      split; [exact R|]. split; [rewrite C; reflexivity|].
      split; [rewrite T; cbn; rewrite <- app_assoc; reflexivity|].
      split; [repeat (constructor; [reflexivity|]); exact F|now right; right].
  - change (ret flags w) with (Ok flags w).
    destruct (Tail flags w) as (w' & pre & R & C & T & F & I).
    exists w', pre. split; [exact R|]. split; [rewrite C, orb_false_r; reflexivity|].
    assert (Hf : Z.ldiff flags 29 = Z.ldiff flags 31).
    { rewrite <- (ldiff_unset_bit flags 1) at 1 by (lia || exact B1).
      rewrite Z.ldiff_ldiff_l. reflexivity. }
    rewrite Hf in T. auto.
Qed.

End DebugProperties.

Section WorkaroundProperties.

Variable cfg : BuildConfig.
Variable E : Env.

(** The ASLR workaround is made on ARM Linux under a kernel older than
    3.4 and nowhere else: on another architecture, a newer kernel or an
    unreadable release the personality block does nothing at all.  Where
    it is made it is two personality calls, the query and then the old
    persona with ADDR_NO_RANDOMIZE added, or -1 with it when the query
    failed; a failure costs a warning, which always names -1, and the
    child goes on. *)
Theorem aslr_workaround_only_on_old_arm_kernels (w : World) :
  (is_linux cfg = false \/ is_arm cfg = false \/ env_kernel_release E w = None \/
   (exists major minor, env_kernel_release E w = Some (major, minor) /\
                        (3 < major \/ (major = 3 /\ 4 <= minor))) ->
   personality_block cfg E w = Ok tt w) /\
  (forall major minor,
     is_linux cfg = true -> is_arm cfg = true ->
     env_kernel_release E w = Some (major, minor) ->
     major < 3 \/ (major = 3 /\ minor < 4) ->
     exists ok1 ok2 tail w',
       personality_block cfg E w = Ok tt w' /\ keeps w w' /\
       trace w' = trace w ++
         EvCall (sys_personality 0xffffffff) ok1 ::
         EvCall (sys_personality
                   (Z.lor (if ok1 then env_personality E w else -1) ADDR_NO_RANDOMIZE)) ok2 ::
         tail /\
       (tail = [] \/ tail = [EvLog WARNING (MsgPersonalityFailed (-1))]) /\
       (ok2 = false -> tail = [EvLog WARNING (MsgPersonalityFailed (-1))])).
Proof.
  split.
  - unfold personality_block, when, NeedsNoRandomizeWorkaround, get, ret, bind.
    intros [H|[H|[H|(major & minor & H & Hv)]]].
    + rewrite H. reflexivity.
    + rewrite H. destruct (is_linux cfg); reflexivity.
    + destruct (is_linux cfg), (is_arm cfg); cbv beta iota; cbn [negb]; cbv beta iota;
        rewrite ?H; reflexivity.
    + assert (Hn : (major <? 3) || ((major =? 3) && (minor <? 4)) = false).
      { destruct (Z.ltb_spec major 3), (Z.eqb_spec major 3), (Z.ltb_spec minor 4);
          cbn; try reflexivity; lia. }
      destruct (is_linux cfg), (is_arm cfg); cbv beta iota; cbn [negb]; cbv beta iota;
        rewrite ?H; cbv beta iota; rewrite ?Hn; reflexivity.
  - intros major minor HL HA HR Hv.
    assert (Hn : (major <? 3) || ((major =? 3) && (minor <? 4)) = true).
    { destruct (Z.ltb_spec major 3), (Z.eqb_spec major 3), (Z.ltb_spec minor 4);
        cbn; try reflexivity; lia. }
    unfold personality_block, when, NeedsNoRandomizeWorkaround, personality, syscall,
      LOG, emit, modify, get, ret, bind.
    rewrite HL, HA. cbn [negb]. rewrite HR, Hn. cbv beta iota zeta.
    cbn [kernel_effect].
    destruct (env_ok E w (sys_personality 4294967295)) eqn:O1; cbv beta iota;
      match goal with |- context [env_ok E ?x (sys_personality ?p)] =>
        destruct (env_ok E x (sys_personality p)) eqn:O2 end; cbv beta iota;
      try match goal with |- context [env_personality E ?x =? -1] =>
        destruct (env_personality E x =? -1) eqn:EP;
        [apply Z.eqb_eq in EP; rewrite ?EP|] end;
      try change (-1 =? -1) with true; cbv beta iota;
      match type of O1 with _ = ?b1 => match type of O2 with _ = ?b2 =>
        exists b1, b2 end end;
      first
        [ solve [eexists [], _;
                 (split; [reflexivity|]);
                 (split; [unfold keeps; cbn; repeat split; reflexivity|]);
                 (split; [cbn [trace with_trace]; rewrite <- !app_assoc; reflexivity|]);
                 (split; [now left|discriminate])]
        | solve [eexists [EvLog WARNING (MsgPersonalityFailed (-1))], _;
                 (split; [reflexivity|]);
                 (split; [unfold keeps; cbn; repeat split; reflexivity|]);
                 (split; [cbn [trace with_trace]; rewrite <- !app_assoc; reflexivity|]);
                 (split; [now right|reflexivity])] ].
Qed.

End WorkaroundProperties.

(** * Calls a spawn does not make *)

Section Avoids.

Variable bad : Call -> bool.

Lemma avoids_ret {A} (a : A) : avoids bad (ret a).
Proof. intros w. exists []. now rewrite app_nil_r. Qed.

Lemma avoids_halt {A} (s : Stop) : avoids bad (@halt A s).
Proof. intros w. exists []. now rewrite app_nil_r. Qed.

Lemma avoids_get {A} (f : World -> A) : avoids bad (get f).
Proof. intros w. exists []. now rewrite app_nil_r. Qed.

Lemma avoids_modify (f : World -> World) :
  (forall w, trace (f w) = trace w) -> avoids bad (modify f).
Proof. intros H w. exists []. cbn. now rewrite app_nil_r. Qed.

Lemma avoids_emit (e : Event) : calls bad e = false -> avoids bad (emit e).
Proof. intros H w. exists [e]. split; [reflexivity|now constructor]. Qed.

Lemma avoids_bind {A B} (m : M A) (k : A -> M B) :
  avoids bad m -> (forall a, avoids bad (k a)) -> avoids bad (bind m k).
Proof.
  intros Hm Hk w. rewrite bind_eq. destruct (Hm w) as (t & T & F).
  destruct (m w) as [a w1|s w1]; cbn [final_world] in *.
  - destruct (Hk a w1) as (t' & T' & F'). exists (t ++ t').
    split; [rewrite T', T; now rewrite app_assoc|apply Forall_app; auto].
  - exists t. auto.
Qed.

Lemma avoids_LOG (sev : Severity) (msg : Msg) : avoids bad (LOG sev msg).
Proof.
  unfold LOG. apply avoids_bind; [now apply avoids_emit|intros _].
  destruct sev; (apply avoids_ret || apply avoids_halt).
Qed.

Lemma avoids_if {A} (b : bool) (m1 m2 : M A) :
  avoids bad m1 -> avoids bad m2 -> avoids bad (if b then m1 else m2).
Proof. now destruct b. Qed.

Lemma avoids_when (b : bool) (m : M unit) : avoids bad m -> avoids bad (when b m).
Proof. intros H. unfold when. apply avoids_if; [exact H|apply avoids_ret]. Qed.

Lemma avoids_syscall (E : Env) (c : Call) : bad c = false -> avoids bad (syscall E c).
Proof.
  intros H w. exists [EvCall c (env_ok E w c)]. unfold syscall. cbn.
  split; [|now constructor].
  destruct (env_ok E w c); [|reflexivity].
  destruct c; reflexivity || (cbn; repeat match goal with
                                         | |- context [if ?b then _ else _] => destruct b
                                         end; reflexivity).
Qed.

Lemma avoids_fork (E : Env) : avoids bad (fork E).
Proof.
  intros w. unfold fork. destruct (env_fork E w) as [|p|p [st|]];
    eexists [_]; (split; [reflexivity|now constructor]).
Qed.

End Avoids.

Ltac avoid_step :=
  match goal with
  | |- avoids _ (bind _ _) => apply avoids_bind; [|intro]
  | |- avoids _ (ret _) => apply avoids_ret
  | |- avoids _ (halt _) => apply avoids_halt
  | |- avoids _ (get _) => apply avoids_get
  | |- avoids _ (LOG _ _) => apply avoids_LOG
  | |- avoids _ (emit _) => apply avoids_emit; reflexivity
  | |- avoids _ (when false _) => apply avoids_ret
  | |- avoids _ (when (negb (0 =? 0)) _) => apply avoids_ret
  | |- avoids ?b (if false then _ else ?m) => change (avoids b m)
  | |- avoids _ (when _ _) => apply avoids_when
  | |- avoids _ (syscall _ _) => apply avoids_syscall; reflexivity
  | |- avoids _ (fork _) => apply avoids_fork
  | |- avoids _ (modify _) => apply avoids_modify; intros; reflexivity
  | |- avoids _ (if _ then _ else _) => apply avoids_if
  | |- avoids _ (match ?x with _ => _ end) => destruct x
  end.

Section SkippedCalls.

Variable cfg : BuildConfig.
Variable E : Env.
Variables uid gid : Z.
Variable javaGids : option (list Z).
Variable debug_flags : Z.
Variable javaRlimits : option (list (list Z)).
Variables permittedCapabilities effectiveCapabilities : Z.
Variable mount_external : Z.
Variables java_se_info java_se_name : option string.
Variable is_system_server : bool.

Local Abbreviation spawn :=
  (ForkAndSpecializeCommon cfg E uid gid javaGids debug_flags javaRlimits
     permittedCapabilities effectiveCapabilities mount_external
     java_se_info java_se_name is_system_server).

Lemma avoids_SetRLimits (bad : Call -> bool) :
  (forall r c m, bad (sys_setrlimit r c m) = false) ->
  avoids bad (SetRLimits cfg E javaRlimits).
Proof.
  intros H. unfold SetRLimits. destruct javaRlimits as [rows|]; [|apply avoids_ret].
  induction rows as [|row rows IH]; cbn [SetRLimits_loop]; [apply avoids_ret|].
  unfold setrlimit. repeat avoid_step; try apply avoids_syscall; auto.
Qed.

Ltac avoid_spawn :=
  unfold ForkAndSpecializeCommon, SetSigChldHandler, UnsetSigChldHandler, sigaction_SIGCHLD,
    EnableKeepCapabilities, prctl_SET_KEEPCAPS, MountExternalStorage, SetGids, setgroups,
    setgid, setuid, NeedsNoRandomizeWorkaround, personality, SetCapabilities, capset,
    SetSchedulerPolicy, set_sched_policy, selinux_android_setcontext, EnableDebugFeatures,
    EnableDebugger, prctl_SET_DUMPABLE, setrlimit, getpid;
  repeat first [apply avoids_SetRLimits; reflexivity | avoid_step].

(** Three things a spawn leaves out.  A child that stays root is never
    asked to keep its capabilities; a spawn given no group array makes no
    setgroups call, so the child keeps the zygote's supplementary groups;
    and a build without HAVE_ANDROID_OS makes none of the Android-only
    calls: no prctl, no capset, no scheduler policy, no SELinux context. *)
Theorem spawn_skips_optional_calls (w : World) :
  (uid = 0 -> Forall (fun e => calls is_keepcaps e = false) (run_trace spawn w)) /\
  (javaGids = None -> Forall (fun e => calls is_setgroups e = false) (run_trace spawn w)) /\
  (HAVE_ANDROID_OS cfg = false ->
   Forall (fun e => calls android_only e = false) (run_trace spawn w)).
Proof.
  assert (Use : forall bad, avoids bad spawn ->
                  Forall (fun e => calls bad e = false) (run_trace spawn w)).
  { intros bad H. destruct (H w) as (t & T & F). now rewrite (run_trace_eq _ _ _ T). }
  split; [|split]; intros H; apply Use.
  - rewrite H. avoid_spawn.
  - rewrite H. avoid_spawn.
  - unfold ForkAndSpecializeCommon, EnableKeepCapabilities, SetCapabilities,
      SetSchedulerPolicy, EnableDebugFeatures, EnableDebugger.
    rewrite H. avoid_spawn.
Qed.

End SkippedCalls.

(** * What a specialized child is *)

Section Leaves.

Context {B : Type}.
Variable f : World -> B.
Hypothesis f_trace : forall w t, f (with_trace w t) = f w.
Hypothesis f_kernel : forall c w, f (kernel_effect c w) = f w.

Lemma leaves_ret {A} (a : A) : leaves f (ret a).
Proof. intros w. reflexivity. Qed.

Lemma leaves_halt {A} (s : Stop) : leaves f (@halt A s).
Proof. intros w. reflexivity. Qed.

Lemma leaves_get {A} (g : World -> A) : leaves f (get g).
Proof. intros w. reflexivity. Qed.

Lemma leaves_modify (g : World -> World) :
  (forall w, f (g w) = f w) -> leaves f (modify g).
Proof. intros H w. apply H. Qed.

Lemma leaves_emit (e : Event) : leaves f (emit e).
Proof. intros w. apply f_trace. Qed.

Lemma leaves_bind {A C} (m : M A) (k : A -> M C) :
  leaves f m -> (forall a, leaves f (k a)) -> leaves f (bind m k).
Proof.
  intros Hm Hk w. rewrite bind_eq. specialize (Hm w).
  destruct (m w) as [a w1|s w1]; cbn [final_world] in *; [|exact Hm].
  now rewrite Hk.
Qed.

Lemma leaves_LOG (sev : Severity) (msg : Msg) : leaves f (LOG sev msg).
Proof.
  unfold LOG. apply leaves_bind; [apply leaves_emit|intros _].
  destruct sev; (apply leaves_ret || apply leaves_halt).
Qed.

Lemma leaves_if {A} (b : bool) (m1 m2 : M A) :
  leaves f m1 -> leaves f m2 -> leaves f (if b then m1 else m2).
Proof. now destruct b. Qed.

Lemma leaves_when (b : bool) (m : M unit) : leaves f m -> leaves f (when b m).
Proof. intros H. unfold when. apply leaves_if; [exact H|apply leaves_ret]. Qed.

Lemma leaves_syscall (E : Env) (c : Call) : leaves f (syscall E c).
Proof.
  intros w. unfold syscall. cbn [final_world]. rewrite f_trace.
  destruct (env_ok E w c); [apply f_kernel|reflexivity].
Qed.

Lemma leaves_SetRLimits_loop (cfg : BuildConfig) (E : Env) (rows : list (list Z)) :
  leaves f (SetRLimits_loop cfg E rows).
Proof.
  induction rows as [|row rows IH]; cbn [SetRLimits_loop]; [apply leaves_ret|].
  unfold setrlimit.
  repeat first [exact IH | apply leaves_LOG | apply leaves_syscall | apply leaves_ret
               | apply leaves_if | apply leaves_bind; [|intro]].
Qed.

End Leaves.

Ltac leave_step :=
  match goal with
  | |- leaves _ (bind _ _) => apply leaves_bind; [|intro]
  | |- leaves _ (ret _) => apply leaves_ret
  | |- leaves _ (halt _) => apply leaves_halt
  | |- leaves _ (get _) => apply leaves_get
  | |- leaves _ (LOG _ _) => apply leaves_LOG
  | |- leaves _ (emit _) => apply leaves_emit
  | |- leaves _ (when _ _) => apply leaves_when
  | |- leaves _ (syscall _ _) => apply leaves_syscall
  | |- leaves _ (SetRLimits_loop _ _ _) => apply leaves_SetRLimits_loop
  | |- leaves _ (if _ then _ else _) => apply leaves_if
  | |- leaves _ (match ?x with _ => _ end) => destruct x
  end.

Section CompletedChild.

Variable cfg : BuildConfig.
Variable E : Env.
Variables uid gid : Z.
Variable javaGids : option (list Z).
Variable debug_flags : Z.
Variable javaRlimits : option (list (list Z)).
Variables permittedCapabilities effectiveCapabilities : Z.
Variable mount_external : Z.
Variables java_se_info java_se_name : option string.
Variable is_system_server : bool.

Local Abbreviation spawn :=
  (ForkAndSpecializeCommon cfg E uid gid javaGids debug_flags javaRlimits
     permittedCapabilities effectiveCapabilities mount_external
     java_se_info java_se_name is_system_server).

Lemma process_marks_kernel (c : Call) (w : World) :
  process_marks (kernel_effect c w) = process_marks w.
Proof.
  destruct c; try reflexivity. cbn [kernel_effect].
  repeat match goal with |- context [if ?b then _ else _] => destruct b end; reflexivity.
Qed.

(** After the child has marked itself, nothing in the specialization
    touches the marks. *)
Lemma child_block_marks (w0 : World) :
  process_marks
    (final_world
       (child_block cfg E uid gid javaGids debug_flags javaRlimits permittedCapabilities
          effectiveCapabilities mount_external java_se_info java_se_name is_system_server
          w0)) =
  process_marks (with_gMallocLeakZygoteChild w0 1).
Proof.
  assert (L1 : leaves process_marks
                 (when (negb (uid =? 0)) (EnableKeepCapabilities cfg E) ;;
                  MountExternalStorage uid mount_external ;;
                  SetGids E javaGids)).
  { unfold EnableKeepCapabilities, prctl_SET_KEEPCAPS, MountExternalStorage, SetGids,
      setgroups.
    repeat first [leave_step | reflexivity | apply process_marks_kernel]. }
  assert (L2 : leaves process_marks
                 (SetRLimits cfg E javaRlimits ;;
                  rc <- setgid E gid ;;
                  (if rc =? -1 then LOG FATAL (MsgSetgidFailed gid) else ret tt) ;;
                  rc <- setuid E uid ;;
                  (if rc =? -1 then LOG FATAL (MsgSetuidFailed uid) else ret tt) ;;
                  personality_block cfg E ;;
                  SetCapabilities cfg E permittedCapabilities effectiveCapabilities ;;
                  late_block cfg E uid debug_flags java_se_info java_se_name
                    is_system_server)).
  { unfold late_block, personality_block, UnsetSigChldHandler, sigaction_SIGCHLD,
      SetRLimits, setgid, setuid, NeedsNoRandomizeWorkaround, personality,
      SetCapabilities, capset, SetSchedulerPolicy, set_sched_policy,
      selinux_android_setcontext, EnableDebugFeatures, EnableDebugger, prctl_SET_DUMPABLE,
      setrlimit, getpid.
    repeat first [leave_step | apply leaves_modify; intros; reflexivity | reflexivity
                 | apply process_marks_kernel]. }
  unfold child_block, early_block. rewrite bind_eq, bind_eq. unfold modify at 1.
  specialize (L1 (with_gMallocLeakZygoteChild w0 1)).
  match type of L1 with context [final_world ?r] => destruct r as [[] w1|s w1] end;
    cbn [final_world] in L1; [|exact L1].
  rewrite <- L1. apply L2.
Qed.

(** What a specialized child is.  A run that returns 0 is the new
    process: it carries the pid fork gave it, has no children of its own,
    is marked as a child for the debug malloc library, and still holds
    the system-server pid the zygote had registered, which nothing in the
    child resets. *)
Theorem completed_child_is_marked (w : World) :
  forall w',
    spawn w = Ok 0 w' ->
    gMallocLeakZygoteChild w' = 1 /\
    w_live w' = [] /\ w_zombies w' = [] /\
    gSystemServerPid w' = gSystemServerPid w /\
    exists p, env_fork E (final_world (SetSigChldHandler E w)) = InChild p /\
              w_pid w' = Zpos p.
Proof.
  intros w'.
  change (spawn w) with (FASC cfg E uid gid javaGids debug_flags javaRlimits
                           permittedCapabilities effectiveCapabilities mount_external
                           java_se_info java_se_name is_system_server w).
  rewrite FASC_blocks. unfold bind at 1. cbn [get].
  destruct (rt_IsZygote w); cbn [negb]; [|discriminate].
  unfold bind at 1. cbn [ret]. unfold bind at 1. cbn [get].
  destruct (env_PreZygoteFork E w); cbn [negb]; [|discriminate].
  unfold bind at 1. cbn [ret]. unfold bind at 1.
  destruct (SetSigChldHandler_cases E w) as (ok & w1 & -> & SP & HL & HZ & HS & T1).
  cbn [final_world].
  unfold bind at 1. unfold fork.
  destruct (env_fork E w1) as [|p|p early].
  - change (-1 =? 0) with false. cbv iota. unfold bind, ret. discriminate.
  - change (0 =? 0) with true. cbv iota. rewrite bind_eq.
    match goal with |- context [child_block ?a ?b ?c ?d ?e ?f ?g ?h ?i ?j ?k ?l ?m ?x] =>
      pose proof (child_block_marks x) as HM;
      destruct (child_block a b c d e f g h i j k l m x) as [[] w3|s w3]
    end; [|discriminate].
    unfold ret. intros H. injection H as <-.
    cbn [final_world] in HM. unfold process_marks in HM. cbn in HM.
    injection HM as P Z L G M.
    destruct SP as (_ & _ & _ & _ & _ & _ & _ & G1 & _).
    repeat split; try assumption; [congruence|].
    exists p. split; [reflexivity|exact P].
  - change (Z.pos p =? 0) with false. cbv iota. unfold bind, ret. discriminate.
Qed.

End CompletedChild.

(** * The registry of the system server *)

Section SystemServerProperties.

Variable cfg : BuildConfig.
Variable E : Env.
Variables uid gid : Z.
Variable gids : option (list Z).
Variable debug_flags : Z.
Variable rlimits : option (list (list Z)).
Variables permittedCapabilities effectiveCapabilities : Z.

Local Abbreviation start :=
  (Zygote_nativeForkSystemServer cfg E uid gid gids debug_flags rlimits
     permittedCapabilities effectiveCapabilities).
Local Abbreviation common :=
  (ForkAndSpecializeCommon cfg E uid gid gids debug_flags rlimits
     permittedCapabilities effectiveCapabilities MOUNT_EXTERNAL_NONE None None true).

Lemma registry_kernel (c : Call) (w : World) :
  gSystemServerPid (kernel_effect c w) = gSystemServerPid w.
Proof.
  destruct c; try reflexivity. cbn [kernel_effect].
  repeat match goal with |- context [if ?b then _ else _] => destruct b end; reflexivity.
Qed.

Lemma fork_leaves_registry : leaves gSystemServerPid (fork E).
Proof.
  intros w. unfold fork. destruct (env_fork E w) as [|p|p [st|]]; reflexivity.
Qed.

(** The common path never writes gSystemServerPid, in the parent or in
    the child, however the run ends. *)
Lemma common_leaves_registry : leaves gSystemServerPid common.
Proof.
  unfold ForkAndSpecializeCommon, SetSigChldHandler, UnsetSigChldHandler,
    sigaction_SIGCHLD, EnableKeepCapabilities, prctl_SET_KEEPCAPS, MountExternalStorage,
    SetGids, setgroups, SetRLimits, setgid, setuid, NeedsNoRandomizeWorkaround, personality,
    SetCapabilities, capset, SetSchedulerPolicy, set_sched_policy,
    selinux_android_setcontext, EnableDebugFeatures, EnableDebugger, prctl_SET_DUMPABLE,
    setrlimit, getpid.
  repeat first [apply fork_leaves_registry | leave_step
               | apply leaves_modify; intros; reflexivity | reflexivity
               | apply registry_kernel].
Qed.

(** Zygote_nativeForkSystemServer writes the registry in the parent and
    nowhere else.  When it returns 0, in the child, or -1, after a failed
    fork, it hands on exactly what the common path returned, and
    gSystemServerPid is what it was before the call.  When it returns a
    pid to the zygote, gSystemServerPid holds that pid. *)
Theorem system_server_registered_in_parent_only (w w' : World) (pid : Z) :
  start w = Ok pid w' ->
  (pid <= 0 -> common w = Ok pid w' /\ gSystemServerPid w' = gSystemServerPid w) /\
  (0 < pid -> gSystemServerPid w' = pid /\ In (EvRegister pid) (run_trace start w)).
Proof.
  intros H. pose proof (common_leaves_registry w) as L.
  assert (T : exists t, trace (final_world (common w)) = trace w ++ t).
  { destruct (FASC_shape cfg E uid gid gids debug_flags rlimits permittedCapabilities
                effectiveCapabilities MOUNT_EXTERNAL_NONE None None true w) as (t & T & _).
    exists t. exact T. }
  destruct T as (t & T).
  revert H. unfold run_trace, Zygote_nativeForkSystemServer. rewrite !bind_eq.
  destruct (common w) as [p w1|s w1]; [|discriminate]. cbn [final_world] in L, T.
  rewrite bind_eq. destruct (0 <? p) eqn:Hpos.
  - apply Z.ltb_lt in Hpos.
    assert (Hne : (p =? -1) = false) by (apply Z.eqb_neq; lia).
    unfold set_gSystemServerPid, LOG, emit, modify, ret, bind, waitpid_WNOHANG.
    cbv beta iota. cbn [w_zombies w_live with_trace with_gSystemServerPid with_children].
    rewrite Hne.
    destruct (find _ (w_zombies w1)) as [[q s]|] eqn:HF; cbn [fst].
    + pose proof (find_child_spec p (w_zombies w1)) as HS. rewrite HF in HS.
      destruct HS as (-> & _). rewrite Z.eqb_refl. discriminate.
    + destruct (existsb (Z.eqb p) (w_live w1));
        [replace (0 =? p) with false by (symmetry; apply Z.eqb_neq; lia)
        |replace (-1 =? p) with false by (symmetry; apply Z.eqb_neq; lia)];
        intros H; injection H as <- <-; (split; [lia|]); intros _;
        (split; [reflexivity|]); cbn [final_world trace with_trace with_gSystemServerPid];
        rewrite T, <- !app_assoc, skipn_app_exact;
        apply in_or_app; right; cbn; auto.
  - apply Z.ltb_ge in Hpos. unfold ret. intros H. injection H as <- <-.
    split; [intros _; split; [reflexivity|exact L]|lia].
Qed.

End SystemServerProperties.

Section HandlerSpares.

Variable cfg : BuildConfig.

Lemma loop_spares (n : nat) : forall w : World,
  ~ In (gSystemServerPid w) (map fst (w_zombies w)) ->
  (length (w_zombies w) < n)%nat ->
  exists r w' t,
    SigChldHandler_loop cfg n w = Ok r w' /\
    trace w' = trace w ++ t /\
    Forall (fun e => is_kill e = false) t /\
    gSystemServerPid w' = gSystemServerPid w /\ w_live w' = w_live w.
Proof.
  induction n as [|n IH]; intros w Hs Hn; [lia|].
  destruct (w_zombies w) as [|[p s] rest] eqn:Hz.
  - rewrite (loop_end cfg n w Hz). cbv zeta. eexists _, _, [_].
    split; [reflexivity|]. split; [reflexivity|]. split; [repeat constructor|].
    split; reflexivity.
  - destruct (Z_lt_le_dec 0 p) as [Hp|Hp].
    + destruct (loop_step cfg n w p s rest Hz Hp) as (logs & FL & ->).
      assert (Hne : (p =? gSystemServerPid w) = false).
      { apply Z.eqb_neq. intros ->. apply Hs. now left. }
      rewrite Hne.
      match goal with |- context [SigChldHandler_loop cfg n ?w1] =>
        destruct (IH w1) as (r & w' & t & R & T & F & G & L) end;
        [cbn; intros Hin; apply Hs; now right|cbn in *; lia|].
      exists r, w', (EvWaitpid (-1) p s :: logs ++ t).
      split; [exact R|]. split; [rewrite T; cbn; now rewrite <- app_assoc|].
      split; [|split; [exact G|exact L]].
      constructor; [reflexivity|]. apply Forall_app.
      split; [now apply logs_no_kill|exact F].
    + rewrite (loop_stop cfg n w p s rest Hz Hp). eexists _, _, [_].
      split; [reflexivity|]. split; [reflexivity|]. split; [repeat constructor|].
      split; reflexivity.
Qed.

(** The handler kills the zygote for the registered server and for
    nothing else.  Whatever pid gSystemServerPid holds when the handler
    runs, if that pid is not among the children that have terminated by
    then, the handler returns, sends no signal, and leaves the registry
    and the running children as they were, whatever else it reaps. *)
Theorem handler_kills_only_for_terminated_server (w : World) :
  ~ In (gSystemServerPid w) (map fst (w_zombies w)) ->
  exists w',
    SigChldHandler cfg w = Ok tt w' /\
    Forall (fun e => is_kill e = false) (run_trace (SigChldHandler cfg) w) /\
    gSystemServerPid w' = gSystemServerPid w /\ w_live w' = w_live w.
Proof.
  intros Hs.
  destruct (loop_spares (S (length (w_zombies w))) w Hs (Nat.lt_succ_diag_r _))
    as (r & w1 & t & R & T & F & G & L).
  unfold run_trace. rewrite SigChldHandler_eq, R. destruct (r <? 0).
  - eexists. split; [reflexivity|]. cbn. rewrite T, <- app_assoc, skipn_app_exact.
    split; [apply Forall_app; split; [exact F|repeat constructor]|].
    split; [exact G|exact L].
  - exists w1. split; [reflexivity|]. cbn. rewrite T, skipn_app_exact.
    split; [exact F|]. split; [exact G|exact L].
Qed.

End HandlerSpares.

(** * The further properties at concrete runs *)

(** An application spawn that asks for a mount mode aborts in the child
    before any privilege call. *)
Lemma mount_mode_aborts_child_before_privileges_witness :
  let run := ForkAndSpecializeCommon android (env_all (InChild 1234)) 10001 10001
               (Some [3003; 1015]) 0 None 0 0 1 None None false in
  (forall s w', run zygote0 = Halt s w' -> s = Aborted) /\
  Forall (fun e => is_privilege_call e = false) (run_trace run zygote0).
Proof.
  cbv zeta.
  destruct (mount_mode_aborts_child_before_privileges android (env_all (InChild 1234))
              10001 10001 (Some [3003; 1015]) 0 None 0 0 1 None None false zygote0
              ltac:(discriminate)) as (_ & H2 & H3).
  split; assumption.
Defined.

(** The kernel refuses setuid(10001): the child aborts with the line
    about setuid, the last of its run. *)
Lemma refused_identity_call_is_fatal_witness :
  let run := ForkAndSpecializeCommon android (env_of refuse_setuid true (InChild 1234))
               10001 10001 None 0 None 0 0 MOUNT_EXTERNAL_NONE None None false in
  exists w' m,
    run zygote0 = Halt Aborted w' /\
    [EvLog FATAL (MsgSetuidFailed 10001)] = [EvLog FATAL m].
Proof.
  cbv zeta.
  destruct (refused_identity_call_is_fatal android
              (env_of refuse_setuid true (InChild 1234))
              10001 10001 None 0 None 0 0 MOUNT_EXTERNAL_NONE None None false zygote0
              [EvCall (sys_sigaction_SIGCHLD Handler_SigChldHandler) true; EvFork 0;
               EvCall sys_prctl_SET_KEEPCAPS true; EvCall (sys_setgid 10001) true]
              (EvCall (sys_setuid 10001) false)
              [EvLog FATAL (MsgSetuidFailed 10001)]
              ltac:(vm_compute; reflexivity) eq_refl) as (w' & m & H1 & H2 & _).
  exists w', m. split; assumption.
Defined.

(** The zygote that spawned pid 1234 is still root with every
    capability, has the handler armed and the child in its table. *)
Lemma parent_keeps_its_privileges_witness :
  let run := ForkAndSpecializeCommon android (env_all (InParent 1234 None)) 10001 10001
               None 0 None 0 0 MOUNT_EXTERNAL_NONE None None false in
  same_privileges zygote0 (final_world (run zygote0)) /\
  (In 1234 (w_live (final_world (run zygote0))) \/
   In 1234 (map fst (w_zombies (final_world (run zygote0))))).
Proof.
  cbv zeta.
  destruct (parent_keeps_its_privileges android (env_all (InParent 1234 None)) 10001 10001
              None 0 None 0 0 MOUNT_EXTERNAL_NONE None None false zygote0 1234 _
              ltac:(vm_compute; reflexivity) ltac:(discriminate))
    as (H1 & _ & _ & H4 & _).
  split; [exact H1|apply H4; reflexivity].
Defined.

(** A zygote without children: waitpid answers -1 and the handler
    warns. *)
Lemma handler_with_nothing_to_reap_witness :
  SigChldHandler android zygote0 =
  Ok tt (with_trace zygote0 [EvWaitpid (-1) (-1) 0; EvLog WARNING MsgWaitpidError]).
Proof.
  apply (proj2 (handler_with_nothing_to_reap android zygote0 eq_refl)). reflexivity.
Defined.

(** The three terminated children of the idle zygote are all accounted
    for. *)
Lemma handler_conserves_children_witness :
  reaped_pids (run_trace (SigChldHandler android) idle_zygote) ++
  map fst (w_zombies (final_world (SigChldHandler android idle_zygote))) = [5; 7; 9].
Proof.
  apply (handler_conserves_children android idle_zygote).
  repeat constructor.
Defined.

(** The idle zygote, with no system server registered, survives the
    handler. *)
Lemma handler_never_kills_unregistered_witness :
  exists w',
    SigChldHandler android idle_zygote = Ok tt w' /\
    Forall (fun e => is_kill e = false) (run_trace (SigChldHandler android) idle_zygote).
Proof.
  apply (handler_never_kills_unregistered android idle_zygote). cbn. lia.
Defined.

(** Child 7 left with exit code 3: one line in the log. *)
Lemma handler_logs_only_abnormal_deaths_witness :
  SigChldHandler_body android 7 768 idle_zygote =
  Ok tt (with_trace idle_zygote [EvLog INFO (MsgExitedCleanly 7 3)]).
Proof.
  apply (proj1 (handler_logs_only_abnormal_deaths android 7 idle_zygote
                  ltac:(discriminate)) 3).
  lia.
Defined.

(** The idle zygote has the handler armed already. *)
Lemma SetSigChldHandler_idempotent_witness :
  exists w',
    SetSigChldHandler (env_all ForkFailed) idle_zygote = Ok tt w' /\
    with_trace w' (trace idle_zygote) = idle_zygote.
Proof.
  apply (SetSigChldHandler_idempotent (env_all ForkFailed) idle_zygote). reflexivity.
Defined.

(** An empty group array still reaches setgroups. *)
Lemma SetGids_null_and_empty_witness :
  SetGids (env_all ForkFailed) (Some []) zygote0 =
  Ok tt (with_trace zygote0 [EvCall (sys_setgroups []) true]).
Proof.
  apply (proj1 (proj2 (SetGids_null_and_empty (env_all ForkFailed) zygote0) [])).
  reflexivity.
Defined.

(** Two rows, the second unlimited. *)
Lemma SetRLimits_installs_rows_witness :
  w_rlimits (final_world (SetRLimits android (env_all ForkFailed)
                            (Some [[7; 1024; 4096]; [4; -1; -1]]) zygote0)) =
  [(4, (4294967295, 4294967295)); (7, (1024, 4096))].
Proof.
  apply (SetRLimits_installs_rows android (env_all ForkFailed)
           [[7; 1024; 4096]; [4; -1; -1]] zygote0 _ ltac:(vm_compute; reflexivity)).
Defined.

(** An ARM Android child under kernel 3.0 makes the two personality
    calls. *)
Lemma aslr_workaround_only_on_old_arm_kernels_witness :
  exists ok1 ok2 tail w',
    personality_block android (env_all (InChild 1234)) zygote0 = Ok tt w' /\
    trace w' =
      EvCall (sys_personality 0xffffffff) ok1 ::
      EvCall (sys_personality (Z.lor (if ok1 then 0 else -1) ADDR_NO_RANDOMIZE)) ok2 ::
      tail.
Proof.
  destruct (proj2 (aslr_workaround_only_on_old_arm_kernels android
                     (env_all (InChild 1234)) zygote0)
                  3 0 eq_refl eq_refl eq_refl ltac:(lia))
    as (ok1 & ok2 & tail & w' & H1 & _ & H3 & _).
  exists ok1, ok2, tail, w'. split; [exact H1|exact H3].
Defined.

(** The system server of a host build, which stays root: no call to keep
    capabilities, no setgroups, no Android-only call. *)
Lemma spawn_skips_optional_calls_witness :
  let run := ForkAndSpecializeCommon host (env_all (InChild 1234)) 0 0 None 1 None
               130104352 130104352 MOUNT_EXTERNAL_NONE None None true in
  Forall (fun e => calls is_keepcaps e = false) (run_trace run zygote0) /\
  Forall (fun e => calls is_setgroups e = false) (run_trace run zygote0) /\
  Forall (fun e => calls android_only e = false) (run_trace run zygote0).
Proof.
  cbv zeta.
  destruct (spawn_skips_optional_calls host (env_all (InChild 1234)) 0 0 None 1 None
              130104352 130104352 MOUNT_EXTERNAL_NONE None None true zygote0)
    as (H1 & H2 & H3).
  split; [exact (H1 eq_refl)|]. split; [exact (H2 eq_refl)|exact (H3 eq_refl)].
Defined.

(** An application child forked from the zygote whose system server is
    pid 8: pid 1234, marked, childless, and still holding 8. *)
Lemma completed_child_is_marked_witness :
  let w' := final_world (spawn_app android (env_all (InChild 1234)) reaping_zygote) in
  gMallocLeakZygoteChild w' = 1 /\ w_live w' = [] /\ w_zombies w' = [] /\
  gSystemServerPid w' = 8 /\ w_pid w' = 1234.
Proof.
  cbv zeta.
  destruct (completed_child_is_marked android (env_all (InChild 1234))
              (to_u32 10001) (to_u32 10001) (Some [3003; 1015]) 1
              (Some [[7; 1024; 4096]]) 0 0 MOUNT_EXTERNAL_NONE None None false
              reaping_zygote _ ltac:(vm_compute; reflexivity))
    as (H1 & H2 & H3 & H4 & p & Hp & H5).
  injection Hp as <-.
  repeat split; assumption.
Defined.


(** The zygote that started the system server as pid 1234 holds 1234 in
    gSystemServerPid; the system server itself holds what the zygote had,
    0. *)
Lemma system_server_registered_in_parent_only_witness :
  gSystemServerPid
    (final_world (spawn_server android (env_all (InParent 1234 None)) 130104352 zygote0))
  = 1234 /\
  gSystemServerPid
    (final_world (spawn_server android (env_all (InChild 1234)) 130104352 zygote0))
  = 0.
Proof.
  split.
  - apply (proj2 (system_server_registered_in_parent_only android
                    (env_all (InParent 1234 None)) 1000 1000 None 0 None
                    130104352 130104352 zygote0 _ 1234 ltac:(vm_compute; reflexivity))).
    lia.
  - apply (proj1 (system_server_registered_in_parent_only android
                    (env_all (InChild 1234)) 1000 1000 None 0 None
                    130104352 130104352 zygote0 _ 0 ltac:(vm_compute; reflexivity))).
    lia.
Defined.

(** The zygote whose system server is pid 8 reaps two other children:
    the handler returns and pid 8 stays registered. *)
Lemma handler_kills_only_for_terminated_server_witness :
  let w := mkWorld 100 0 0 false (2 ^ 32 - 1) (2 ^ 32 - 1) [] Handler_SigChldHandler
             [(5, 0); (9, 139)] [8; 11] 8 0 true false [] in
  exists w',
    SigChldHandler android w = Ok tt w' /\ gSystemServerPid w' = 8 /\ w_live w' = [8; 11].
Proof.
  cbv zeta.
  destruct (handler_kills_only_for_terminated_server android
              (mkWorld 100 0 0 false (2 ^ 32 - 1) (2 ^ 32 - 1) [] Handler_SigChldHandler
                 [(5, 0); (9, 139)] [8; 11] 8 0 true false []))
    as (w' & H1 & _ & H2 & H3).
  - cbn. intros [H|[H|[]]]; discriminate.
  - exists w'. repeat split; assumption.
Defined.

End Zygote.
